(** * Inactivity detection of the GoHighLevel MCP server

    A shallow embedding of [InactivityTools] (inactivity-tools.ts, two
    versions of which are kept in the repository: one that narrates its
    progress on the console and one that does not), with the properties that
    its specification states about pagination, activity resolution,
    classification and error handling, and of the routing of tool calls in
    the HTTP server (http-server.ts) that reaches it.

    The asynchronous methods are written in a small monad that threads the
    state of the CRM backend and the record of the calls made to it, carries
    the local variables of the running method (so that an assignment made
    inside a [try] block survives the exception that leaves it), and has an
    outcome for a raised exception and one for a [while (true)] loop that is
    still running when the fuel is spent. *)

From Stdlib Require Import ZArith List String Ascii Bool Lia DecimalString.
Import ListNotations.
Open Scope string_scope.
Open Scope Z_scope.

Set Implicit Arguments.

(** ** JavaScript values used by the methods *)

(** A [Date] object holds a time value in milliseconds since the epoch, or
    NaN ("Invalid Date"). *)
Inductive JsDate : Type :=
| TimeValue (ms : Z)
| InvalidDate.

(** What a [catch (error)] clause can receive: an [Error] object or any other
    value, the latter kept as [String(error)] renders it. *)
Inductive Thrown : Type :=
| ErrorObject (message : string)
| OtherValue (rendering : string).

(** [error instanceof Error ? error.message : String(error)] *)
Definition errorText (error : Thrown) : string :=
  match error with
  | ErrorObject message => message
  | OtherValue rendering => rendering
  end.

(** A promise that has settled. *)
Inductive Settled (A : Type) : Type :=
| Resolved (value : A)
| Rejected (reason : Thrown).
Arguments Rejected {A} reason.

Module Js.

Definition msPerDay : Z := 86400000.

(** Truthiness of a [string | undefined]: the empty string is falsy. *)
Definition truthy (s : option string) : bool :=
  match s with
  | Some s => negb (String.eqb s "")
  | None => false
  end.

(** Truthiness of a [number | undefined]: zero is falsy. *)
Definition truthyNum (n : option Z) : bool :=
  match n with
  | Some n => negb (n =? 0)
  | None => false
  end.

(** [s || fallback] on strings. *)
Definition orElse (s : option string) (fallback : string) : string :=
  match s with
  | Some s => if String.eqb s "" then fallback else s
  | None => fallback
  end.

(** [s.replace(c, replacement)] for a one-character pattern: only the first
    occurrence is replaced. *)
Fixpoint replace (c : ascii) (replacement : string) (s : string) : string :=
  match s with
  | EmptyString => EmptyString
  | String a rest =>
      if Ascii.eqb a c then replacement ++ rest
      else String a (replace c replacement rest)
  end.

(** TimeClip of ECMAScript: a time value beyond 8.64e15 ms is NaN. *)
Definition timeClip (t : Z) : JsDate :=
  if Z.abs t <=? 8640000000000000 then TimeValue t else InvalidDate.

(** Relational operators on dates compare the time values; with NaN on
    either side every comparison is false. *)
Definition ge (a b : JsDate) : bool :=
  match a, b with
  | TimeValue x, TimeValue y => y <=? x
  | _, _ => false
  end.

Definition gt (a b : JsDate) : bool :=
  match a, b with
  | TimeValue x, TimeValue y => y <? x
  | _, _ => false
  end.

Definition lt (a b : JsDate) : bool :=
  match a, b with
  | TimeValue x, TimeValue y => x <? y
  | _, _ => false
  end.

(** [String(n)] for an integral number. *)
Definition numberToString (n : Z) : string :=
  NilZero.string_of_int (Z.to_int n).

End Js.

(** The parts of the JavaScript host that the methods rely on: the parser
    behind [new Date(string)], the rendering of a valid time value by
    [toISOString], and the two methods of a date that work in the local
    time of the host: [getDate], the day of the month of a time value, and
    [setDate], which moves a valid time value to the given day of the month
    of its local month (a day below 1 or beyond the end of the month runs
    into the neighbouring months) and keeps the local time of day.  Where
    the local clock changes between the two days, the result of [setDate]
    is not a whole number of days away. *)
Class JsHost : Type := {
  dateParse : string -> JsDate;
  isoString : Z -> string;
  getDate : Z -> Z;
  setDate : Z -> Z -> JsDate
}.

(** The two readings of the clock that a detector takes one after the
    other: [const endDate = new Date(); const startDate = new Date()]. *)
Record Clock : Type := {
  endReading : Z;
  startReading : Z
}.

(** Both readings fall on the same millisecond [t]. *)
Definition instant (t : Z) : Clock :=
  {| endReading := t; startReading := t |}.

Section HostOperations.
Context {host : JsHost}.

(** [new Date(stamp.replace('Z', '+00:00'))] *)
Definition newDate (stamp : string) : JsDate :=
  dateParse (Js.replace "Z"%char "+00:00" stamp).

(** [date.toISOString()] raises a RangeError on an invalid date. *)
Definition toISOString (date : JsDate) : Thrown + string :=
  match date with
  | TimeValue ms => inr (isoString ms)
  | InvalidDate => inl (ErrorObject "Invalid time value")
  end.

(** The threshold date of both detectors:
    [endDate = new Date(); startDate = new Date();
     startDate.setDate(endDate.getDate() - inactivityDays)]. *)
Definition thresholdDate (now : Clock) (inactivityDays : Z) : JsDate :=
  let endDate := endReading now in
  let startDate := startReading now in
  setDate startDate (getDate endDate - inactivityDays).


End HostOperations.

(** ** A host instance: ISO 8601 timestamps, local time UTC

    The instance used for the worked examples.  It parses the date-time form
    in which the CRM sends its timestamps, [YYYY-MM-DDTHH:mm:ss(.sss)] followed
    by [Z] or a [+HH:mm] / [-HH:mm] offset (or nothing), and answers Invalid
    Date to any other string. *)
Module Iso8601.

(** Day number (days since 1970-01-01) of a civil date. *)
Definition daysFromCivil (y m d : Z) : Z :=
  let y := if m <=? 2 then y - 1 else y in
  let era := y / 400 in
  let yoe := y - era * 400 in
  let mp := (m + 9) mod 12 in
  let doy := (153 * mp + 2) / 5 + d - 1 in
  let doe := yoe * 365 + yoe / 4 - yoe / 100 + doy in
  era * 146097 + doe - 719468.

(** Civil date (year, month, day) of a day number. *)
Definition civilFromDays (z : Z) : Z * Z * Z :=
  let z := z + 719468 in
  let era := z / 146097 in
  let doe := z - era * 146097 in
  let yoe := (doe - doe / 1460 + doe / 36524 - doe / 146096) / 365 in
  let doy := doe - (365 * yoe + yoe / 4 - yoe / 100) in
  let mp := (5 * doy + 2) / 153 in
  let d := doy - (153 * mp + 2) / 5 + 1 in
  let m := if mp <? 10 then mp + 3 else mp - 9 in
  ((if m <=? 2 then yoe + era * 400 + 1 else yoe + era * 400), m, d).

Definition isLeap (y : Z) : bool :=
  ((y mod 4 =? 0) && negb (y mod 100 =? 0)) || (y mod 400 =? 0).

Definition daysInMonth (y m : Z) : Z :=
  if m =? 2 then (if isLeap y then 29 else 28)
  else if (m =? 4) || (m =? 6) || (m =? 9) || (m =? 11) then 30
  else 31.

Definition digitValue (a : ascii) : option Z :=
  let n := Z.of_nat (nat_of_ascii a) in
  if (48 <=? n) && (n <=? 57) then Some (n - 48) else None.

(** Reads exactly [width] decimal digits. *)
Fixpoint number (width : nat) (acc : Z) (s : string) : option (Z * string) :=
  match width with
  | O => Some (acc, s)
  | S width' =>
      match s with
      | EmptyString => None
      | String a rest =>
          match digitValue a with
          | Some v => number width' (acc * 10 + v) rest
          | None => None
          end
      end
  end.

(** Reads the one character [c]. *)
Definition expect (c : ascii) (s : string) : option string :=
  match s with
  | String a rest => if Ascii.eqb a c then Some rest else None
  | EmptyString => None
  end.

(** The zone designator: nothing (host time, which is UTC), [Z], or a
    signed [HH:mm]; the result is the offset in minutes. *)
Definition zone (s : string) : option Z :=
  match s with
  | EmptyString => Some 0
  | String a rest =>
      if Ascii.eqb a "Z"%char then
        match rest with EmptyString => Some 0 | _ => None end
      else
        let sign :=
          if Ascii.eqb a "+"%char then Some 1
          else if Ascii.eqb a "-"%char then Some (-1)
          else None in
        match sign, number 2 0 rest with
        | Some sg, Some (hh, rest) =>
            match expect ":"%char rest with
            | Some rest =>
                match number 2 0 rest with
                | Some (mm, EmptyString) =>
                    if (hh <=? 23) && (mm <=? 59)
                    then Some (sg * (hh * 60 + mm)) else None
                | _ => None
                end
            | None => None
            end
        | _, _ => None
        end
  end.

(** Seconds with an optional three-digit fraction, then the zone. *)
Definition secondsAndZone (s : string) : option (Z * Z) :=
  match expect ":"%char s with
  | Some rest =>
      match number 2 0 rest with
      | Some (ss, rest) =>
          let '(ms, rest) :=
            match expect "."%char rest with
            | Some rest' =>
                match number 3 0 rest' with
                | Some (ms, rest'') => (Some ms, rest'')
                | None => (None, rest)
                end
            | None => (Some 0, rest)
            end in
          match ms, zone rest with
          | Some ms, Some off =>
              if ss <=? 59 then Some (ss * 1000 + ms, off) else None
          | _, _ => None
          end
      | None => None
      end
  | None =>
      match zone s with
      | Some off => Some (0, off)
      | None => None
      end
  end.

Definition parse (s : string) : JsDate :=
  match number 4 0 s with
  | Some (y, rest) =>
    match expect "-"%char rest with
    | Some rest =>
      match number 2 0 rest with
      | Some (m, rest) =>
        match expect "-"%char rest with
        | Some rest =>
          match number 2 0 rest with
          | Some (d, rest) =>
            match expect "T"%char rest with
            | Some rest =>
              match number 2 0 rest with
              | Some (hh, rest) =>
                match expect ":"%char rest with
                | Some rest =>
                  match number 2 0 rest with
                  | Some (mi, rest) =>
                    match secondsAndZone rest with
                    | Some (millis, off) =>
                        if (1 <=? m) && (m <=? 12) && (1 <=? d)
                           && (d <=? daysInMonth y m)
                           && (hh <=? 23) && (mi <=? 59)
                        then Js.timeClip
                               (daysFromCivil y m d * Js.msPerDay
                                + hh * 3600000 + mi * 60000 + millis
                                - off * 60000)
                        else InvalidDate
                    | None => InvalidDate
                    end
                  | None => InvalidDate
                  end
                | None => InvalidDate
                end
              | None => InvalidDate
              end
            | None => InvalidDate
            end
          | None => InvalidDate
          end
        | None => InvalidDate
        end
      | None => InvalidDate
      end
    | None => InvalidDate
    end
  | None => InvalidDate
  end.

(** [width] decimal digits of [z], zero padded. *)
Fixpoint digits (width : nat) (z : Z) : string :=
  match width with
  | O => EmptyString
  | S width' =>
      digits width' (z / 10)
      ++ String (ascii_of_nat (48 + Z.to_nat (z mod 10))) EmptyString
  end.

Definition format (t : Z) : string :=
  let day := t / Js.msPerDay in
  let time := t mod Js.msPerDay in
  let '(y, m, d) := civilFromDays day in
  let year :=
    if (0 <=? y) && (y <=? 9999) then digits 4 y
    else (if y <? 0 then "-" else "+") ++ digits 6 (Z.abs y) in
  year ++ "-" ++ digits 2 m ++ "-" ++ digits 2 d ++ "T"
  ++ digits 2 (time / 3600000) ++ ":"
  ++ digits 2 (time / 60000 mod 60) ++ ":"
  ++ digits 2 (time / 1000 mod 60) ++ "."
  ++ digits 3 (time mod 1000) ++ "Z".

Definition dayOfMonth (t : Z) : Z :=
  let '(_, _, d) := civilFromDays (t / Js.msPerDay) in d.

(** [setDate] in UTC: every day has 24 hours. *)
Definition setDayOfMonth (t : Z) (day : Z) : JsDate :=
  Js.timeClip (t + (day - dayOfMonth t) * Js.msPerDay).

Definition host : JsHost :=
  {| dateParse := parse; isoString := format; getDate := dayOfMonth;
     setDate := setDayOfMonth |}.

End Iso8601.

(** ** The records exchanged with the CRM client

    The shapes declared in ghl-types.ts, reduced to the fields that the
    detectors read; the remaining properties of a contact or an opportunity
    travel along as a list of named values. *)

Record ApiError : Type := { error_message : option string }.

(** [{ success, data?, error? }], the envelope of every client method. *)
Record GHLApiResponse (T : Type) : Type := {
  success : bool;
  data : option T;
  error : option ApiError
}.

(** The cursor of the contact search, a [[number, string]] pair. *)
Definition Cursor : Type := (Z * string)%type.

Record GHLContact : Type := {
  contact_id : option string;
  contact_fields : list (string * string)
}.

Record GHLOpportunity : Type := {
  opportunity_id : option string;
  lastStatusChangeAt : option string;
  lastStageChangeAt : option string;
  opportunity_fields : list (string * string)
}.

Record ContactSearchData : Type := {
  data_contacts : option (list GHLContact);
  data_searchAfter : option Cursor
}.

Record OpportunityMeta : Type := {
  meta_nextPageUrl : option string;
  meta_startAfter : option Z;
  meta_startAfterId : option string;
  meta_nextPage : option Z;
  meta_currentPage : option Z
}.

Record OpportunitySearchData : Type := {
  data_opportunities : option (list GHLOpportunity);
  data_meta : option OpportunityMeta
}.

Record GHLConversation : Type := { conversation_dateAdded : option string }.
Record GHLAppointment : Type := { startTime : option string }.
Record GHLNote : Type := { note_dateAdded : option string }.
Record GHLTask : Type := { dueDate : option string }.

Record ConversationSearchData : Type := {
  data_conversations : option (list GHLConversation)
}.

(** The request objects. *)
Record ContactSearchParams : Type := {
  cs_locationId : string;
  cs_pageLimit : Z;
  cs_searchAfter : option Cursor
}.

(** The first version of the opportunity detector sends [pipeline_stage_id],
    [startAfterId] and [startAfter] (a string); the second sends
    [start_after_id] and [start_after] (a number). *)
Record OpportunitySearchParams : Type := {
  os_location_id : string;
  os_limit : Z;
  os_pipeline_stage_id : option string;
  os_startAfterId : option string;
  os_startAfter : option string;
  os_start_after_id : option string;
  os_start_after : option Z
}.

Record ConversationSearchParams : Type := {
  cv_locationId : string;
  cv_contactId : string;
  cv_limit : Z
}.

(** [{ ...contact, daysInactive, lastActivityDate }] *)
Record GHLInactiveContact : Type := {
  ic_contact : GHLContact;
  ic_daysInactive : Z;
  ic_lastActivityDate : option string
}.

(** [{ ...opportunity, daysInactive, lastActivityDate }] *)
Record GHLInactiveOpportunity : Type := {
  io_opportunity : GHLOpportunity;
  io_daysInactive : Z;
  io_lastActivityDate : option string
}.

Module ContactsReport.
(** GHLDetectContactsInactivityResponse *)
Record t : Type := {
  inactiveContacts : list GHLInactiveContact;
  totalContactsChecked : Z;
  inactiveCount : Z;
  errors : list string;
  inactivityThresholdDays : Z
}.
End ContactsReport.

Module OpportunitiesReport.
(** GHLDetectOpportunitiesInactivityResponse *)
Record t : Type := {
  inactiveOpportunities : list GHLInactiveOpportunity;
  totalOpportunitiesChecked : Z;
  inactiveCount : Z;
  errors : list string;
  inactivityThresholdDays : Z
}.
End OpportunitiesReport.

Record MCPDetectContactsInactivityParams : Type := {
  dc_inactivityDays : Z
}.

Record MCPDetectOpportunitiesInactivityParams : Type := {
  do_inactivityDays : Z;
  do_pipelineStageId : option string
}.

(** ** The CRM client

    [GHLApiClient] is an interface here: the backend has a state of type [W],
    and each method takes the state in which it is called to the settled
    promise and the state that follows. *)
Class GHLApiClient (W : Type) : Type := {
  locationId : string;
  searchContacts :
    ContactSearchParams -> W -> Settled (GHLApiResponse ContactSearchData) * W;
  searchOpportunities :
    OpportunitySearchParams -> W
    -> Settled (GHLApiResponse OpportunitySearchData) * W;
  searchConversations :
    ConversationSearchParams -> W
    -> Settled (GHLApiResponse ConversationSearchData) * W;
  getContactAppointments :
    string -> W -> Settled (GHLApiResponse (list GHLAppointment)) * W;
  getContactNotes :
    string -> W -> Settled (GHLApiResponse (list GHLNote)) * W;
  getContactTasks :
    string -> W -> Settled (GHLApiResponse (list GHLTask)) * W
}.

(** A call made to the client, as the record of a run keeps it. *)
Inductive Call : Type :=
| SearchContacts (searchParams : ContactSearchParams)
| SearchOpportunities (searchParams : OpportunitySearchParams)
| SearchConversations (searchParams : ConversationSearchParams)
| GetContactAppointments (contactId : string)
| GetContactNotes (contactId : string)
| GetContactTasks (contactId : string).

(** ** The monad of the asynchronous methods *)

(** What lies outside a method: the backend and the calls made so far. *)
Record Ext (W : Type) : Type := {
  world : W;
  calls : list Call
}.

Inductive Res (A : Type) : Type :=
| Ret (a : A)
| Throw (e : Thrown)
| Timeout.
Arguments Throw {A} e.
Arguments Timeout {A}.

(** A computation with local variables [L] over a backend [W]. *)
Definition M (W L A : Type) : Type := L -> Ext W -> Res A * L * Ext W.

Section Monad.
Context {W : Type}.

Definition ret {L A} (a : A) : M W L A := fun l x => (Ret a, l, x).

Definition bind {L A B} (m : M W L A) (k : A -> M W L B) : M W L B :=
  fun l x =>
    match m l x with
    | (Ret a, l', x') => k a l' x'
    | (Throw e, l', x') => (Throw e, l', x')
    | (Timeout, l', x') => (Timeout, l', x')
    end.

Definition throw {L A} (e : Thrown) : M W L A := fun l x => (Throw e, l, x).

(** The loop has not left by the time the fuel is spent. *)
Definition timeout {L A} : M W L A := fun l x => (Timeout, l, x).

(** [try { m } catch (error) { handler error }]: the handler starts from the
    variables as the exception left them. *)
Definition tryCatch {L A} (m : M W L A) (handler : Thrown -> M W L A)
  : M W L A :=
  fun l x =>
    match m l x with
    | (Throw e, l', x') => handler e l' x'
    | other => other
    end.

Definition getLocals {L} : M W L L := fun l x => (Ret l, l, x).

Definition modify {L} (f : L -> L) : M W L unit := fun l x => (Ret tt, f l, x).

(** An expression that may raise. *)
Definition eval {L A} (v : Thrown + A) : M W L A :=
  match v with
  | inl e => throw e
  | inr a => ret a
  end.

(** [await method(args)]: the call is recorded, the backend moves on, and a
    rejected promise raises its reason. *)
Definition await {L A} (c : Call) (method : W -> Settled A * W) : M W L A :=
  fun l x =>
    let '(settled, w') := method (world x) in
    let x' := {| world := w'; calls := calls x ++ [c] |} in
    match settled with
    | Resolved a => (Ret a, l, x')
    | Rejected e => (Throw e, l, x')
    end.

(** [await this.method(args)] for a method of the class: the method runs
    with local variables of its own, which are gone when it returns. *)
Definition invoke {L L' A} (init : L') (body : M W L' A) : M W L A :=
  fun l x => let '(r, _, x') := body init x in (r, l, x').

End Monad.

Declare Scope js_scope.
Delimit Scope js_scope with js.
Notation "x <- m ;; k" := (bind m (fun x => k))
  (at level 100, m at next level, right associativity) : js_scope.
Notation "m ;; k" := (bind m (fun _ => k))
  (at level 100, right associativity) : js_scope.
Notation "'when' b 'then' m" := (if b then m else ret tt)
  (at level 99, b at level 98, m at level 99) : js_scope.

(** ** Pieces that the two versions share word for word *)

(** The variables [hasRecentActivity] and [lastActivityDate] of
    checkContactActivity. *)
Record ActivityVars : Type := {
  hasRecentActivity : bool;
  lastActivityDate : option JsDate
}.

(** Its result, [{ inactive, lastActivityDate }]. *)
Record ActivityCheck : Type := {
  inactive : bool;
  check_lastActivityDate : option JsDate
}.

Module ContactRun.
(** The variables that detectContactsInactivity declares before its [try]. *)
Record vars : Type := {
  inactiveContacts : list GHLInactiveContact;
  totalContactsChecked : Z;
  errors : list string
}.

Definition start : vars :=
  {| inactiveContacts := []; totalContactsChecked := 0; errors := [] |}.

Definition count (v : vars) : vars :=
  {| inactiveContacts := inactiveContacts v;
     totalContactsChecked := totalContactsChecked v + 1;
     errors := errors v |}.

Definition pushInactive (c : GHLInactiveContact) (v : vars) : vars :=
  {| inactiveContacts := inactiveContacts v ++ [c];
     totalContactsChecked := totalContactsChecked v;
     errors := errors v |}.

Definition pushError (e : string) (v : vars) : vars :=
  {| inactiveContacts := inactiveContacts v;
     totalContactsChecked := totalContactsChecked v;
     errors := errors v ++ [e] |}.

Definition report (inactivityDays : Z) (v : vars) : ContactsReport.t :=
  {| ContactsReport.inactiveContacts := inactiveContacts v;
     ContactsReport.totalContactsChecked := totalContactsChecked v;
     ContactsReport.inactiveCount :=
       Z.of_nat (List.length (inactiveContacts v));
     ContactsReport.errors := errors v;
     ContactsReport.inactivityThresholdDays := inactivityDays |}.
End ContactRun.

Module OpportunityRun.
(** The variables that detectOpportunitiesInactivity declares before its
    [try]. *)
Record vars : Type := {
  inactiveOpportunities : list GHLInactiveOpportunity;
  totalOpportunitiesChecked : Z;
  errors : list string
}.

Definition start : vars :=
  {| inactiveOpportunities := []; totalOpportunitiesChecked := 0;
     errors := [] |}.

Definition count (v : vars) : vars :=
  {| inactiveOpportunities := inactiveOpportunities v;
     totalOpportunitiesChecked := totalOpportunitiesChecked v + 1;
     errors := errors v |}.

Definition pushInactive (o : GHLInactiveOpportunity) (v : vars) : vars :=
  {| inactiveOpportunities := inactiveOpportunities v ++ [o];
     totalOpportunitiesChecked := totalOpportunitiesChecked v;
     errors := errors v |}.

Definition pushError (e : string) (v : vars) : vars :=
  {| inactiveOpportunities := inactiveOpportunities v;
     totalOpportunitiesChecked := totalOpportunitiesChecked v;
     errors := errors v ++ [e] |}.

Definition report (inactivityDays : Z) (v : vars) : OpportunitiesReport.t :=
  {| OpportunitiesReport.inactiveOpportunities := inactiveOpportunities v;
     OpportunitiesReport.totalOpportunitiesChecked :=
       totalOpportunitiesChecked v;
     OpportunitiesReport.inactiveCount :=
       Z.of_nat (List.length (inactiveOpportunities v));
     OpportunitiesReport.errors := errors v;
     OpportunitiesReport.inactivityThresholdDays := inactivityDays |}.
End OpportunityRun.

(** [object?.field] *)
Definition optional {A B} (object : option A) (field : A -> option B)
  : option B :=
  match object with
  | Some o => field o
  | None => None
  end.

(** Truthiness of an optional object or array: present means truthy. *)
Definition present {A} (o : option A) : bool :=
  match o with
  | Some _ => true
  | None => false
  end.

(** [list || []] *)
Definition orEmpty {A} (l : option (list A)) : list A :=
  match l with
  | Some l => l
  | None => []
  end.

Section Shared.
Context {host : JsHost} {W : Type} {client : GHLApiClient W}.
Local Open Scope js_scope.

(** The body that the loops over conversations, appointments, notes and
    tasks have in common, [stamp] being [conv.dateAdded],
    [appointment.startTime], [note.dateAdded] or [task.dueDate]:

    [if (stamp) { const date = new Date(stamp.replace('Z', '+00:00'));
       if (date >= startDate) hasRecentActivity = true;
       if (!lastActivityDate || date > lastActivityDate)
         lastActivityDate = date; }] *)
Definition observe (startDate : JsDate) (stamp : option string)
    (v : ActivityVars) : ActivityVars :=
  if Js.truthy stamp then
    let date := newDate (Js.orElse stamp "") in
    let v :=
      if Js.ge date startDate
      then {| hasRecentActivity := true;
              lastActivityDate := lastActivityDate v |}
      else v in
    match lastActivityDate v with
    | None =>
        {| hasRecentActivity := hasRecentActivity v;
           lastActivityDate := Some date |}
    | Some last =>
        if Js.gt date last
        then {| hasRecentActivity := hasRecentActivity v;
                lastActivityDate := Some date |}
        else v
    end
  else v.

(** [for (const item of items) { ... }] over one source. *)
Definition observeAll {A} (startDate : JsDate) (stamp : A -> option string)
    (items : list A) (v : ActivityVars) : ActivityVars :=
  fold_left (fun v item => observe startDate (stamp item) v) items v.

(** [for (const x of xs) body] *)
Fixpoint forEach {L A} (body : A -> M W L unit) (xs : list A)
  : M W L unit :=
  match xs with
  | [] => ret tt
  | x :: rest => bind (body x) (fun _ => forEach body rest)
  end.

(** [date?.toISOString()] *)
Definition optionalISOString {L} (date : option JsDate)
  : M W L (option string) :=
  match date with
  | Some d => bind (eval (toISOString d)) (fun iso => ret (Some iso))
  | None => ret None
  end.

(** The [try { ... } catch (error) { ... }] of checkContactActivity, the
    same in both versions but for the wording of the message that the
    handler logs; it works on the variables [hasRecentActivity] and
    [lastActivityDate] of the method. *)
Definition consultSources (contactId : string) (startDate : JsDate)
  : M W ActivityVars unit :=
  tryCatch (
    (* 1. conversations *)
    let searchParams :=
      {| cv_locationId := locationId; cv_contactId := contactId;
         cv_limit := 50 |} in
    conversationsResponse <-
      await (SearchConversations searchParams)
            (searchConversations searchParams) ;;
    (match success conversationsResponse,
           optional (data conversationsResponse) data_conversations with
     | true, Some convs =>
         modify (observeAll startDate conversation_dateAdded convs)
     | _, _ => ret tt
     end) ;;
    (* 2. appointments, if no recent activity found *)
    v <- getLocals ;;
    (when negb (hasRecentActivity v) then (
       appointmentsResponse <-
         await (GetContactAppointments contactId)
               (getContactAppointments contactId) ;;
       match success appointmentsResponse, data appointmentsResponse with
       | true, Some appointments =>
           modify (observeAll startDate startTime appointments)
       | _, _ => ret tt
       end)) ;;
    (* 3. notes, if no recent activity found *)
    v <- getLocals ;;
    (when negb (hasRecentActivity v) then (
       notesResponse <-
         await (GetContactNotes contactId) (getContactNotes contactId) ;;
       match success notesResponse, data notesResponse with
       | true, Some notes =>
           modify (observeAll startDate note_dateAdded notes)
       | _, _ => ret tt
       end)) ;;
    (* tasks, by due date; a task without one is passed over *)
    v <- getLocals ;;
    (when negb (hasRecentActivity v) then (
       tasksResponse <-
         await (GetContactTasks contactId) (getContactTasks contactId) ;;
       match success tasksResponse, data tasksResponse with
       | true, Some tasks => modify (observeAll startDate dueDate tasks)
       | _, _ => ret tt
       end))
  ) (fun error => (* logged; continue with the check - don't throw *)
       ret tt).

(** The most recent of the two change dates of an opportunity, as the
    variable [lastActivityDate] of the loop body holds it. *)
Definition opportunityLastActivity (opportunity : GHLOpportunity)
  : option JsDate :=
  let lastStatusChange := lastStatusChangeAt opportunity in
  let lastStageChange := lastStageChangeAt opportunity in
  let lastActivityDate : option JsDate := None in
  let lastActivityDate :=
    if Js.truthy lastStatusChange then
      let statusDate := newDate (Js.orElse lastStatusChange "") in
      match lastActivityDate with
      | None => Some statusDate
      | Some last =>
          if Js.gt statusDate last then Some statusDate else Some last
      end
    else lastActivityDate in
  let lastActivityDate :=
    if Js.truthy lastStageChange then
      let stageDate := newDate (Js.orElse lastStageChange "") in
      match lastActivityDate with
      | None => Some stageDate
      | Some last =>
          if Js.gt stageDate last then Some stageDate else Some last
      end
    else lastActivityDate in
  lastActivityDate.

(** [!lastActivityDate || lastActivityDate < startDate] *)
Definition opportunityIsInactive (startDate : JsDate)
    (lastActivityDate : option JsDate) : bool :=
  match lastActivityDate with
  | None => true
  | Some last => Js.lt last startDate
  end.

End Shared.

(** ** The version that narrates its progress

    Console output is not part of what a method returns and is left out,
    except where the logged expression can raise: [toISOString] does on an
    invalid date.  Those evaluations are kept, at the place of their
    [console.log]. *)
Module Logging.
Section Methods.
Context {host : JsHost} {W : Type} {client : GHLApiClient W}.
Local Open Scope js_scope.

(** checkContactActivity(contactId, startDate) *)
Definition checkContactActivity {L} (contactId : string)
    (startDate : JsDate) : M W L ActivityCheck :=
  invoke {| hasRecentActivity := false; lastActivityDate := None |} (
    (* console.log(`... since ${startDate.toISOString()}`) *)
    eval (toISOString startDate) ;;
    consultSources contactId startDate ;;
    v <- getLocals ;;
    let result :=
      {| inactive := negb (hasRecentActivity v);
         check_lastActivityDate := lastActivityDate v |} in
    (* console.log(`... (last activity:
       ${result.lastActivityDate?.toISOString() || 'never'})`) *)
    optionalISOString (check_lastActivityDate result) ;;
    ret result).

(** The [while (true)] loop of detectContactsInactivity; its value is the
    array [contacts] as the loop leaves it. *)
Fixpoint fetchContacts (fuel : nat) (contacts : list GHLContact)
    (searchAfter : option Cursor) (pageCount : Z)
  : M W ContactRun.vars (list GHLContact) :=
  match fuel with
  | O => timeout
  | S fuel' =>
      let pageCount := pageCount + 1 in
      let searchParams :=
        {| cs_locationId := locationId; cs_pageLimit := 100;
           cs_searchAfter := searchAfter |} in
      contactsResponse <-
        await (SearchContacts searchParams) (searchContacts searchParams) ;;
      if negb (success contactsResponse) then
        throw (ErrorObject
                 (Js.orElse (optional (error contactsResponse) error_message)
                            "Failed to search contacts"))
      else
        let batchContacts :=
          orEmpty (optional (data contactsResponse) data_contacts) in
        let contacts := (contacts ++ batchContacts)%list in
        if (Z.of_nat (List.length batchContacts) <? 100)
           || negb (present (optional (data contactsResponse)
                                      data_searchAfter))
        then ret contacts (* break *)
        else
          let searchAfter :=
            optional (data contactsResponse) data_searchAfter in
          if 50000 <? Z.of_nat (List.length contacts) then
            modify (ContactRun.pushError
                      "Too many contacts, stopping at 50000") ;;
            ret contacts (* break *)
          else fetchContacts fuel' contacts searchAfter pageCount
  end.

(** [{ ...contact, daysInactive, lastActivityDate }] pushed when the check
    of the contact says inactive: the [try] block of the loop body. *)
Definition classifyContact (inactivityDays : Z) (startDate : JsDate)
    (contact : GHLContact) (id : string) : M W ContactRun.vars unit :=
  isInactive <- checkContactActivity id startDate ;;
  when inactive isInactive then (
    iso <- optionalISOString (check_lastActivityDate isInactive) ;;
    modify (ContactRun.pushInactive
              {| ic_contact := contact; ic_daysInactive := inactivityDays;
                 ic_lastActivityDate := iso |})).

(** The body of [for (const contact of contacts)]. *)
Definition checkContact (inactivityDays : Z) (startDate : JsDate)
    (contact : GHLContact) : M W ContactRun.vars unit :=
  if negb (Js.truthy (contact_id contact)) then ret tt (* continue *)
  else
    let id := Js.orElse (contact_id contact) "" in
    modify ContactRun.count ;;
    tryCatch (classifyContact inactivityDays startDate contact id)
      (fun error =>
         modify (ContactRun.pushError
                   ("Error checking contact " ++ id ++ ": "
                    ++ errorText error))).

(** detectContactsInactivity(params), with the clock readings [now]. *)
Definition detectContactsInactivity {L} (fuel : nat) (now : Clock)
    (params : MCPDetectContactsInactivityParams)
  : M W L ContactsReport.t :=
  invoke ContactRun.start (
    let inactivityDays := dc_inactivityDays params in
    let startDate := thresholdDate now inactivityDays in
    (* console.log(`... inactive since: ${startDate.toISOString()}`) *)
    eval (toISOString startDate) ;;
    tryCatch (
      contacts <- fetchContacts fuel [] None 0 ;;
      forEach (checkContact inactivityDays startDate) contacts
    ) (fun error =>
         modify (ContactRun.pushError
                   ("Error fetching contacts: " ++ errorText error))) ;;
    v <- getLocals ;;
    ret (ContactRun.report inactivityDays v)).

(** The [while (true)] loop of detectOpportunitiesInactivity. *)
Fixpoint fetchOpportunities (fuel : nat) (pipelineStageId : option string)
    (opportunities : list GHLOpportunity) (startAfter : option string)
    (startAfterId : string) (pageCount : Z)
  : M W OpportunityRun.vars (list GHLOpportunity) :=
  match fuel with
  | O => timeout
  | S fuel' =>
      let pageCount := pageCount + 1 in
      let searchParams :=
        {| os_location_id := locationId; os_limit := 100;
           os_pipeline_stage_id :=
             if Js.truthy pipelineStageId then pipelineStageId else None;
           os_startAfterId :=
             if Js.truthy (Some startAfterId) then Some startAfterId
             else None;
           os_startAfter :=
             if Js.truthy startAfter then startAfter else None;
           os_start_after_id := None; os_start_after := None |} in
      opportunitiesResponse <-
        await (SearchOpportunities searchParams)
              (searchOpportunities searchParams) ;;
      if negb (success opportunitiesResponse) then
        throw (ErrorObject
                 (Js.orElse (optional (error opportunitiesResponse)
                                      error_message)
                            "Failed to search opportunities"))
      else
        let batchOpportunities :=
          orEmpty (optional (data opportunitiesResponse) data_opportunities)
        in
        let opportunities := (opportunities ++ batchOpportunities)%list in
        let meta := optional (data opportunitiesResponse) data_meta in
        (* only nextPageUrl: the nextPage numbers seem unreliable *)
        let hasMorePages := Js.truthy (optional meta meta_nextPageUrl) in
        if negb hasMorePages then ret opportunities (* break *)
        else
          let startAfter :=
            if Js.truthyNum (optional meta meta_startAfter)
            then option_map Js.numberToString
                   (optional meta meta_startAfter)
            else None in
          let startAfterId :=
            Js.orElse (optional meta meta_startAfterId) "" in
          if 10000 <? Z.of_nat (List.length opportunities) then
            modify (OpportunityRun.pushError
                      "Too many opportunities, stopping at 10000") ;;
            ret opportunities (* break *)
          else
            fetchOpportunities fuel' pipelineStageId opportunities
              startAfter startAfterId pageCount
  end.

(** The [try] block of the loop over the opportunities. *)
Definition classifyOpportunity (inactivityDays : Z) (startDate : JsDate)
    (opportunity : GHLOpportunity) : M W OpportunityRun.vars unit :=
  let lastActivityDate := opportunityLastActivity opportunity in
  let isInactive := opportunityIsInactive startDate lastActivityDate in
  when isInactive then (
    iso <- optionalISOString lastActivityDate ;;
    modify (OpportunityRun.pushInactive
              {| io_opportunity := opportunity;
                 io_daysInactive := inactivityDays;
                 io_lastActivityDate := iso |})).

(** The body of [for (const opportunity of opportunities)]. *)
Definition checkOpportunity (inactivityDays : Z) (startDate : JsDate)
    (opportunity : GHLOpportunity) : M W OpportunityRun.vars unit :=
  if negb (Js.truthy (opportunity_id opportunity)) then ret tt
  else
    let id := Js.orElse (opportunity_id opportunity) "" in
    modify OpportunityRun.count ;;
    tryCatch (classifyOpportunity inactivityDays startDate opportunity)
      (fun error =>
         modify (OpportunityRun.pushError
                   ("Error checking opportunity " ++ id ++ ": "
                    ++ errorText error))).

(** detectOpportunitiesInactivity(params), with the clock readings [now]. *)
Definition detectOpportunitiesInactivity {L} (fuel : nat) (now : Clock)
    (params : MCPDetectOpportunitiesInactivityParams)
  : M W L OpportunitiesReport.t :=
  invoke OpportunityRun.start (
    let inactivityDays := do_inactivityDays params in
    let pipelineStageId := do_pipelineStageId params in
    let startDate := thresholdDate now inactivityDays in
    (* console.log(`... inactive since: ${startDate.toISOString()}`) *)
    eval (toISOString startDate) ;;
    tryCatch (
      opportunities <- fetchOpportunities fuel pipelineStageId [] None "" 0 ;;
      forEach (checkOpportunity inactivityDays startDate) opportunities
    ) (fun error =>
         modify (OpportunityRun.pushError
                   ("Error fetching opportunities: " ++ errorText error))) ;;
    v <- getLocals ;;
    ret (OpportunityRun.report inactivityDays v)).

End Methods.
End Logging.

(** ** The version without console output *)
Module Plain.
Section Methods.
Context {host : JsHost} {W : Type} {client : GHLApiClient W}.
Local Open Scope js_scope.

(** checkContactActivity(contactId, startDate) *)
Definition checkContactActivity {L} (contactId : string)
    (startDate : JsDate) : M W L ActivityCheck :=
  invoke {| hasRecentActivity := false; lastActivityDate := None |} (
    consultSources contactId startDate ;;
    v <- getLocals ;;
    ret {| inactive := negb (hasRecentActivity v);
           check_lastActivityDate := lastActivityDate v |}).

(** The [while (true)] loop of detectContactsInactivity. *)
Fixpoint fetchContacts (fuel : nat) (contacts : list GHLContact)
    (searchAfter : option Cursor)
  : M W ContactRun.vars (list GHLContact) :=
  match fuel with
  | O => timeout
  | S fuel' =>
      let searchParams :=
        {| cs_locationId := locationId; cs_pageLimit := 100;
           cs_searchAfter := searchAfter |} in
      contactsResponse <-
        await (SearchContacts searchParams) (searchContacts searchParams) ;;
      if negb (success contactsResponse) then
        throw (ErrorObject
                 (Js.orElse (optional (error contactsResponse) error_message)
                            "Failed to search contacts"))
      else
        let batchContacts :=
          orEmpty (optional (data contactsResponse) data_contacts) in
        let contacts := (contacts ++ batchContacts)%list in
        if (Z.of_nat (List.length batchContacts) <? 100)
           || negb (present (optional (data contactsResponse)
                                      data_searchAfter))
        then ret contacts (* break *)
        else
          let searchAfter :=
            optional (data contactsResponse) data_searchAfter in
          if 50000 <? Z.of_nat (List.length contacts) then
            modify (ContactRun.pushError
                      "Too many contacts, stopping at 50000") ;;
            ret contacts (* break *)
          else fetchContacts fuel' contacts searchAfter
  end.

(** The [try] block of the loop over the contacts. *)
Definition classifyContact (inactivityDays : Z) (startDate : JsDate)
    (contact : GHLContact) (id : string) : M W ContactRun.vars unit :=
  isInactive <- checkContactActivity id startDate ;;
  when inactive isInactive then (
    iso <- optionalISOString (check_lastActivityDate isInactive) ;;
    modify (ContactRun.pushInactive
              {| ic_contact := contact; ic_daysInactive := inactivityDays;
                 ic_lastActivityDate := iso |})).

(** The body of [for (const contact of contacts)]. *)
Definition checkContact (inactivityDays : Z) (startDate : JsDate)
    (contact : GHLContact) : M W ContactRun.vars unit :=
  if negb (Js.truthy (contact_id contact)) then ret tt (* continue *)
  else
    let id := Js.orElse (contact_id contact) "" in
    modify ContactRun.count ;;
    tryCatch (classifyContact inactivityDays startDate contact id)
      (fun error =>
         modify (ContactRun.pushError
                   ("Error checking contact " ++ id ++ ": "
                    ++ errorText error))).

(** detectContactsInactivity(params), with the clock readings [now]. *)
Definition detectContactsInactivity {L} (fuel : nat) (now : Clock)
    (params : MCPDetectContactsInactivityParams)
  : M W L ContactsReport.t :=
  invoke ContactRun.start (
    let inactivityDays := dc_inactivityDays params in
    let startDate := thresholdDate now inactivityDays in
    tryCatch (
      contacts <- fetchContacts fuel [] None ;;
      forEach (checkContact inactivityDays startDate) contacts
    ) (fun error =>
         modify (ContactRun.pushError
                   ("Error fetching contacts: " ++ errorText error))) ;;
    v <- getLocals ;;
    ret (ContactRun.report inactivityDays v)).

(** [!!meta?.nextPageUrl || (meta?.nextPage && meta.currentPage
     && meta.nextPage > meta.currentPage)], as the [if] that follows reads
    it. *)
Definition hasMorePages (meta : option OpportunityMeta) : bool :=
  Js.truthy (optional meta meta_nextPageUrl)
  || (Js.truthyNum (optional meta meta_nextPage)
      && Js.truthyNum (optional meta meta_currentPage)
      && match optional meta meta_nextPage,
               optional meta meta_currentPage with
         | Some next, Some current => current <? next
         | _, _ => false
         end).

(** The [while (true)] loop of detectOpportunitiesInactivity. *)
Fixpoint fetchOpportunities (fuel : nat)
    (opportunities : list GHLOpportunity) (startAfter : option Z)
    (startAfterId : string)
  : M W OpportunityRun.vars (list GHLOpportunity) :=
  match fuel with
  | O => timeout
  | S fuel' =>
      let searchParams :=
        {| os_location_id := locationId; os_limit := 100;
           os_pipeline_stage_id := None;
           os_startAfterId := None; os_startAfter := None;
           os_start_after_id :=
             if Js.truthy (Some startAfterId) then Some startAfterId
             else None;
           os_start_after := startAfter |} in
      opportunitiesResponse <-
        await (SearchOpportunities searchParams)
              (searchOpportunities searchParams) ;;
      if negb (success opportunitiesResponse) then
        throw (ErrorObject
                 (Js.orElse (optional (error opportunitiesResponse)
                                      error_message)
                            "Failed to search opportunities"))
      else
        let batchOpportunities :=
          orEmpty (optional (data opportunitiesResponse) data_opportunities)
        in
        let opportunities := (opportunities ++ batchOpportunities)%list in
        let meta := optional (data opportunitiesResponse) data_meta in
        if negb (hasMorePages meta) then ret opportunities (* break *)
        else
          let startAfter := optional meta meta_startAfter in
          let startAfterId :=
            Js.orElse (optional meta meta_startAfterId) "" in
          if 10000 <? Z.of_nat (List.length opportunities) then
            modify (OpportunityRun.pushError
                      "Too many opportunities, stopping at 10000") ;;
            ret opportunities (* break *)
          else fetchOpportunities fuel' opportunities startAfter startAfterId
  end.

(** The [try] block of the loop over the opportunities. *)
Definition classifyOpportunity (inactivityDays : Z) (startDate : JsDate)
    (opportunity : GHLOpportunity) : M W OpportunityRun.vars unit :=
  let lastActivityDate := opportunityLastActivity opportunity in
  let isInactive := opportunityIsInactive startDate lastActivityDate in
  when isInactive then (
    iso <- optionalISOString lastActivityDate ;;
    modify (OpportunityRun.pushInactive
              {| io_opportunity := opportunity;
                 io_daysInactive := inactivityDays;
                 io_lastActivityDate := iso |})).

(** The body of [for (const opportunity of opportunities)]. *)
Definition checkOpportunity (inactivityDays : Z) (startDate : JsDate)
    (opportunity : GHLOpportunity) : M W OpportunityRun.vars unit :=
  if negb (Js.truthy (opportunity_id opportunity)) then ret tt
  else
    let id := Js.orElse (opportunity_id opportunity) "" in
    modify OpportunityRun.count ;;
    tryCatch (classifyOpportunity inactivityDays startDate opportunity)
      (fun error =>
         modify (OpportunityRun.pushError
                   ("Error checking opportunity " ++ id ++ ": "
                    ++ errorText error))).

(** detectOpportunitiesInactivity(params), with the clock readings [now]. *)
Definition detectOpportunitiesInactivity {L} (fuel : nat) (now : Clock)
    (params : MCPDetectOpportunitiesInactivityParams)
  : M W L OpportunitiesReport.t :=
  invoke OpportunityRun.start (
    let inactivityDays := do_inactivityDays params in
    let startDate := thresholdDate now inactivityDays in
    tryCatch (
      opportunities <- fetchOpportunities fuel [] None "" ;;
      forEach (checkOpportunity inactivityDays startDate) opportunities
    ) (fun error =>
         modify (OpportunityRun.pushError
                   ("Error fetching opportunities: " ++ errorText error))) ;;
    v <- getLocals ;;
    ret (OpportunityRun.report inactivityDays v)).

End Methods.
End Plain.

(** ** Backends for the worked examples *)

(** A backend that answers every call by a fixed function of the request: it
    has no state. *)
Module Steady.
Record answers : Type := {
  onSearchContacts :
    ContactSearchParams -> Settled (GHLApiResponse ContactSearchData);
  onSearchOpportunities :
    OpportunitySearchParams
    -> Settled (GHLApiResponse OpportunitySearchData);
  onSearchConversations :
    ConversationSearchParams
    -> Settled (GHLApiResponse ConversationSearchData);
  onAppointments : string -> Settled (GHLApiResponse (list GHLAppointment));
  onNotes : string -> Settled (GHLApiResponse (list GHLNote));
  onTasks : string -> Settled (GHLApiResponse (list GHLTask))
}.

Definition client (a : answers) : GHLApiClient unit :=
  {| locationId := "loc-1";
     searchContacts := fun p w => (onSearchContacts a p, w);
     searchOpportunities := fun p w => (onSearchOpportunities a p, w);
     searchConversations := fun p w => (onSearchConversations a p, w);
     getContactAppointments := fun c w => (onAppointments a c, w);
     getContactNotes := fun c w => (onNotes a c, w);
     getContactTasks := fun c w => (onTasks a c, w) |}.
End Steady.

(** A backend in the manner of a test double: the contact and opportunity
    searches answer from a queue of prepared responses, one per call, and
    reject once the queue is empty; the sources of one contact answer by the
    contact's id. *)
Module Mock.
Record state : Type := {
  contactPages : list (Settled (GHLApiResponse ContactSearchData));
  opportunityPages : list (Settled (GHLApiResponse OpportunitySearchData));
  conversationsOf : string -> Settled (GHLApiResponse ConversationSearchData);
  appointmentsOf : string -> Settled (GHLApiResponse (list GHLAppointment));
  notesOf : string -> Settled (GHLApiResponse (list GHLNote));
  tasksOf : string -> Settled (GHLApiResponse (list GHLTask))
}.

Definition nextContactPage (w : state)
  : Settled (GHLApiResponse ContactSearchData) * state :=
  match contactPages w with
  | page :: rest =>
      (page,
       {| contactPages := rest; opportunityPages := opportunityPages w;
          conversationsOf := conversationsOf w;
          appointmentsOf := appointmentsOf w;
          notesOf := notesOf w; tasksOf := tasksOf w |})
  | [] => (Rejected (ErrorObject "no response prepared"), w)
  end.

Definition nextOpportunityPage (w : state)
  : Settled (GHLApiResponse OpportunitySearchData) * state :=
  match opportunityPages w with
  | page :: rest =>
      (page,
       {| contactPages := contactPages w; opportunityPages := rest;
          conversationsOf := conversationsOf w;
          appointmentsOf := appointmentsOf w;
          notesOf := notesOf w; tasksOf := tasksOf w |})
  | [] => (Rejected (ErrorObject "no response prepared"), w)
  end.

Definition client : GHLApiClient state :=
  {| locationId := "loc-1";
     searchContacts := fun _ w => nextContactPage w;
     searchOpportunities := fun _ w => nextOpportunityPage w;
     searchConversations := fun p w => (conversationsOf w (cv_contactId p), w);
     getContactAppointments := fun c w => (appointmentsOf w c, w);
     getContactNotes := fun c w => (notesOf w c, w);
     getContactTasks := fun c w => (tasksOf w c, w) |}.
End Mock.

Module Sample.

(** A successful response carrying [d]. *)
Definition ok {T} (d : T) : Settled (GHLApiResponse T) :=
  Resolved {| success := true; data := Some d; error := None |}.

(** An unsuccessful response with a message. *)
Definition failed {T} (msg : string) : Settled (GHLApiResponse T) :=
  Resolved {| success := false; data := None;
              error := Some {| error_message := Some msg |} |}.

Definition contact (id : string) : GHLContact :=
  {| contact_id := Some id; contact_fields := [] |}.

(** Contacts [prefix (first+1) .. prefix (first+n)] in this order. *)
Fixpoint contactsFrom (prefix : string) (first n : nat) : list GHLContact :=
  match n with
  | O => []
  | S n' =>
      contact (prefix ++ Js.numberToString (Z.of_nat (S first)))
      :: contactsFrom prefix (S first) n'
  end.

(** Contacts [prefix 1 .. prefix n]. *)
Definition contactsNamed (prefix : string) (n : nat) : list GHLContact :=
  contactsFrom prefix 0 n.

Definition contactPage (cs : list GHLContact) (cursor : option Cursor)
  : Settled (GHLApiResponse ContactSearchData) :=
  ok {| data_contacts := Some cs; data_searchAfter := cursor |}.

Definition opportunity (id : string) (status stage : option string)
  : GHLOpportunity :=
  {| opportunity_id := Some id; lastStatusChangeAt := status;
     lastStageChangeAt := stage; opportunity_fields := [] |}.

Fixpoint opportunitiesFrom (prefix : string) (first n : nat)
  : list GHLOpportunity :=
  match n with
  | O => []
  | S n' =>
      opportunity (prefix ++ Js.numberToString (Z.of_nat (S first)))
        None None
      :: opportunitiesFrom prefix (S first) n'
  end.

Definition opportunitiesNamed (prefix : string) (n : nat)
  : list GHLOpportunity :=
  opportunitiesFrom prefix 0 n.

Definition pageMeta (url : option string) (next current : option Z)
  : OpportunityMeta :=
  {| meta_nextPageUrl := url; meta_startAfter := None;
     meta_startAfterId := None; meta_nextPage := next;
     meta_currentPage := current |}.

Definition opportunityPage (os : list GHLOpportunity)
    (m : OpportunityMeta)
  : Settled (GHLApiResponse OpportunitySearchData) :=
  ok {| data_opportunities := Some os; data_meta := Some m |}.

Definition conversationsAt (stamps : list string)
  : Settled (GHLApiResponse ConversationSearchData) :=
  ok {| data_conversations :=
          Some (map (fun s => {| conversation_dateAdded := Some s |})
                    stamps) |}.

Definition nothing {T} : Settled (GHLApiResponse (list T)) := ok [].

(** A backend with no contacts, no opportunities and no activity. *)
Definition quiet : Steady.answers :=
  {| Steady.onSearchContacts := fun _ => contactPage [] None;
     Steady.onSearchOpportunities :=
       fun _ => opportunityPage [] (pageMeta None None None);
     Steady.onSearchConversations := fun _ => conversationsAt [];
     Steady.onAppointments := fun _ => nothing;
     Steady.onNotes := fun _ => nothing;
     Steady.onTasks := fun _ => nothing |}.

(** A backend that holds the contacts [cs] on a single page and, for each
    contact id, the conversations dated [talk id]. *)
Definition roster (cs : list GHLContact) (talk : string -> list string)
  : Steady.answers :=
  {| Steady.onSearchContacts := fun _ => contactPage cs None;
     Steady.onSearchOpportunities :=
       fun _ => opportunityPage [] (pageMeta None None None);
     Steady.onSearchConversations :=
       fun p => conversationsAt (talk (cv_contactId p));
     Steady.onAppointments := fun _ => nothing;
     Steady.onNotes := fun _ => nothing;
     Steady.onTasks := fun _ => nothing |}.

(** A backend whose only record for any contact is one task without a due
    date. *)
Definition undatedTask : Steady.answers :=
  {| Steady.onSearchContacts := fun _ => contactPage [contact "c1"] None;
     Steady.onSearchOpportunities :=
       fun _ => opportunityPage [] (pageMeta None None None);
     Steady.onSearchConversations := fun _ => conversationsAt [];
     Steady.onAppointments := fun _ => nothing;
     Steady.onNotes := fun _ => nothing;
     Steady.onTasks := fun _ => ok [{| dueDate := None |}] |}.

(** A backend that never runs out: every search answers with a full page
    of 100 and says that more follows. *)
Definition endless : Steady.answers :=
  {| Steady.onSearchContacts :=
       fun _ => contactPage (contactsNamed "c" 100) (Some (100, "c100"));
     Steady.onSearchOpportunities :=
       fun _ => opportunityPage (opportunitiesNamed "o" 100)
                  (pageMeta (Some "https://crm.example/opportunities?page=next")
                            None None);
     Steady.onSearchConversations := fun _ => conversationsAt [];
     Steady.onAppointments := fun _ => nothing;
     Steady.onNotes := fun _ => nothing;
     Steady.onTasks := fun _ => nothing |}.

(** A test double with the given pages prepared and no activity for any
    contact. *)
Definition prepared
    (pages : list (Settled (GHLApiResponse ContactSearchData)))
    (opportunityPages
       : list (Settled (GHLApiResponse OpportunitySearchData)))
  : Mock.state :=
  {| Mock.contactPages := pages;
     Mock.opportunityPages := opportunityPages;
     Mock.conversationsOf := fun _ => conversationsAt [];
     Mock.appointmentsOf := fun _ => nothing;
     Mock.notesOf := fun _ => nothing;
     Mock.tasksOf := fun _ => nothing |}.

(** Pages of 100, 100 and 37 contacts, a cursor on the first two. *)
Definition threePages : Mock.state :=
  prepared
    [contactPage (contactsFrom "c" 0 100) (Some (100, "c100"));
     contactPage (contactsFrom "c" 100 100) (Some (200, "c200"));
     contactPage (contactsFrom "c" 200 37) None]
    [].

(** A full page with a cursor, then a search that does not succeed. *)
Definition secondPageFails : Mock.state :=
  prepared
    [contactPage (contactsFrom "c" 0 100) (Some (100, "c100"));
     failed "boom"]
    [opportunityPage (opportunitiesNamed "o" 100)
       (pageMeta (Some "https://crm.example/opportunities?page=2")
                 None None);
     failed "boom"].

(** One page of opportunities whose metadata has no [nextPageUrl] but
    says that page 2 follows page 1. *)
Definition numericHintOnly : Mock.state :=
  prepared []
    [opportunityPage (opportunitiesNamed "o" 3)
       (pageMeta None (Some 2) (Some 1));
     opportunityPage (opportunitiesFrom "o" 3 2)
       (pageMeta None None None)].

(** Contact c1 has a conversation with an unreadable timestamp and one of
    2024-01-30. *)
Definition unreadableThenRecent : Steady.answers :=
  roster [contact "c1"]
    (fun _ => ["garbage"; "2024-01-30T00:00:00.000Z"]).

(** A hundred contacts, the fiftieth of which has a conversation with an
    unreadable timestamp. *)
Definition fiftiethUnreadable : Steady.answers :=
  roster (contactsNamed "c" 100)
    (fun id => if String.eqb id "c50" then ["garbage"] else []).




(** Contact c1 has conversations of 2023-11-05 and 2024-01-02 and, between
    them, one with an unreadable timestamp. *)
Definition unreadableBetween : Steady.answers :=
  roster [contact "c1"]
    (fun _ => ["2023-11-05T08:00:00.000Z"; "garbage";
               "2024-01-02T12:00:00.000Z"]).

(** Contact c1 has a conversation of 2023-11-05 and a note of 2024-01-30;
    the request for its appointments is rejected. *)
Definition appointmentsDown : Steady.answers :=
  {| Steady.onSearchContacts := fun _ => contactPage [contact "c1"] None;
     Steady.onSearchOpportunities :=
       fun _ => opportunityPage [] (pageMeta None None None);
     Steady.onSearchConversations :=
       fun _ => conversationsAt ["2023-11-05T08:00:00.000Z"];
     Steady.onAppointments := fun _ => Rejected (ErrorObject "socket hang up");
     Steady.onNotes :=
       fun _ => ok [{| note_dateAdded := Some "2024-01-30T00:00:00.000Z" |}];
     Steady.onTasks := fun _ => nothing |}.

(** Contact c1 has a conversation of 2023-11-05, an appointment of
    2023-12-01, a note of 2023-10-01, a task due on 2023-12-24 and a task
    without a due date. *)
Definition fourSources : Steady.answers :=
  {| Steady.onSearchContacts := fun _ => contactPage [contact "c1"] None;
     Steady.onSearchOpportunities :=
       fun _ => opportunityPage [] (pageMeta None None None);
     Steady.onSearchConversations :=
       fun _ => conversationsAt ["2023-11-05T08:00:00.000Z"];
     Steady.onAppointments :=
       fun _ => ok [{| startTime := Some "2023-12-01T09:30:00.000Z" |}];
     Steady.onNotes :=
       fun _ => ok [{| note_dateAdded := Some "2023-10-01T00:00:00.000Z" |}];
     Steady.onTasks :=
       fun _ => ok [{| dueDate := Some "2023-12-24T00:00:00.000Z" |};
                    {| dueDate := None |}] |}.

(** A backend whose opportunity search always answers with an empty page
    that points to a next one. *)
Definition stuck : Steady.answers :=
  {| Steady.onSearchContacts := fun _ => contactPage [] None;
     Steady.onSearchOpportunities :=
       fun _ => opportunityPage []
                  (pageMeta (Some "https://crm.example/opportunities?page=2")
                            None None);
     Steady.onSearchConversations := fun _ => conversationsAt [];
     Steady.onAppointments := fun _ => nothing;
     Steady.onNotes := fun _ => nothing;
     Steady.onTasks := fun _ => nothing |}.

(** The start of a run: no call made yet. *)
Definition fresh {W} (w : W) : Ext W := {| world := w; calls := [] |}.

(** Both readings of the clock at 2024-01-31T12:00:00.000Z. *)
Definition now : Clock := instant 1706702400000.

End Sample.

(** ** Vocabulary of the statements *)

Section Vocabulary.
Context {host : JsHost}.

(** The dates that the loop over one source constructs, in order: one for
    every truthy timestamp. *)
Definition datesOf (stamps : list (option string)) : list JsDate :=
  map (fun s => newDate (Js.orElse s "")) (filter Js.truthy stamps).

(** The time values among them. *)
Definition timesOf (stamps : list (option string)) : list Z :=
  flat_map (fun d => match d with TimeValue t => [t] | InvalidDate => [] end)
           (datesOf stamps).

Definition isValid (d : JsDate) : bool :=
  match d with
  | TimeValue _ => true
  | InvalidDate => false
  end.

(** Every truthy timestamp is one that the host parses. *)
Definition wellFormed (stamps : list (option string)) : bool :=
  forallb isValid (datesOf stamps).

(** The loop over one source, on the timestamps of its items. *)
Definition observeStamps (startDate : JsDate) (stamps : list (option string))
    (v : ActivityVars) : ActivityVars :=
  fold_left (fun v stamp => observe startDate stamp v) stamps v.

(** The sources in order, each passed over once recent activity is
    known. *)
Definition consulted (startDate : JsDate)
    (sources : list (list (option string))) (v : ActivityVars)
  : ActivityVars :=
  fold_left (fun v stamps =>
               if hasRecentActivity v then v
               else observeStamps startDate stamps v) sources v.

(** [lastActivityDate] is not an invalid date. *)
Definition clean (v : ActivityVars) : Prop :=
  lastActivityDate v <> Some InvalidDate.

Definition noActivity : ActivityVars :=
  {| hasRecentActivity := false; lastActivityDate := None |}.

(** The largest of [start] (if any) and the time values [ts]. *)
Definition latestFrom (start : option Z) (ts : list Z) : option Z :=
  fold_left (fun acc t =>
               match acc with
               | None => Some t
               | Some a => Some (Z.max a t)
               end) ts start.

Definition latest (ts : list Z) : option Z := latestFrom None ts.

(** The timestamps that each source contributes, as checkContactActivity
    reads them off a response. *)
Definition conversationStamps (r : GHLApiResponse ConversationSearchData)
  : list (option string) :=
  match success r, optional (data r) data_conversations with
  | true, Some convs => map conversation_dateAdded convs
  | _, _ => []
  end.

Definition appointmentStamps (r : GHLApiResponse (list GHLAppointment))
  : list (option string) :=
  match success r, data r with
  | true, Some appointments => map startTime appointments
  | _, _ => []
  end.

Definition noteStamps (r : GHLApiResponse (list GHLNote))
  : list (option string) :=
  match success r, data r with
  | true, Some notes => map note_dateAdded notes
  | _, _ => []
  end.

Definition taskStamps (r : GHLApiResponse (list GHLTask))
  : list (option string) :=
  match success r, data r with
  | true, Some tasks => map dueDate tasks
  | _, _ => []
  end.

(** The entities of a list that carry an identifier. *)
Definition withId (cs : list GHLContact) : list GHLContact :=
  filter (fun c => Js.truthy (contact_id c)) cs.

(** The calls of a record that are contact searches. *)
Definition contactSearches (cs : list Call) : list Call :=
  filter (fun c => match c with SearchContacts _ => true | _ => false end) cs.

Definition opportunitySearches (cs : list Call) : list Call :=
  filter (fun c => match c with SearchOpportunities _ => true | _ => false end)
         cs.

End Vocabulary.

(** The request of the conversation search for a contact. *)
Definition conversationsRequest {W} {client : GHLApiClient W}
    (contactId : string) : ConversationSearchParams :=
  {| cv_locationId := locationId; cv_contactId := contactId; cv_limit := 50 |}.

(** The request of the contact search from a cursor. *)
Definition contactsRequest {W} {client : GHLApiClient W}
    (searchAfter : option Cursor) : ContactSearchParams :=
  {| cs_locationId := locationId; cs_pageLimit := 100;
     cs_searchAfter := searchAfter |}.

(** A backend all of whose timestamps parse, in whatever state it is
    asked. *)
Definition timestampsParse {host : JsHost} {W} {client : GHLApiClient W}
  : Prop :=
  (forall p w r w',
     searchConversations p w = (Resolved r, w') ->
     wellFormed (conversationStamps r) = true)
  /\ (forall c w r w',
        getContactAppointments c w = (Resolved r, w') ->
        wellFormed (appointmentStamps r) = true)
  /\ (forall c w r w',
        getContactNotes c w = (Resolved r, w') ->
        wellFormed (noteStamps r) = true)
  /\ (forall c w r w',
        getContactTasks c w = (Resolved r, w') ->
        wellFormed (taskStamps r) = true).

(** The message that the handler of the loop over the contacts records. *)
Definition checkingError (c : GHLContact) (e : Thrown) : string :=
  "Error checking contact " ++ Js.orElse (contact_id c) "" ++ ": "
  ++ errorText e.

(** The request of the opportunity search of the narrating version, from
    the stage filter and the two markers of the loop. *)
Definition opportunitiesRequest {W} {client : GHLApiClient W}
    (pipelineStageId : option string) (startAfter : option string)
    (startAfterId : string) : OpportunitySearchParams :=
  {| os_location_id := locationId; os_limit := 100;
     os_pipeline_stage_id :=
       if Js.truthy pipelineStageId then pipelineStageId else None;
     os_startAfterId :=
       if Js.truthy (Some startAfterId) then Some startAfterId else None;
     os_startAfter := if Js.truthy startAfter then startAfter else None;
     os_start_after_id := None; os_start_after := None |}.

(** [meta?.startAfter ? String(meta.startAfter) : undefined] *)
Definition nextStartAfter (meta : option OpportunityMeta) : option string :=
  if Js.truthyNum (optional meta meta_startAfter)
  then option_map Js.numberToString (optional meta meta_startAfter)
  else None.

(** A backend that answers every contact search, in whatever state, with a
    full page of 100 contacts and a cursor. *)
Definition fullContactPages {W} {client : GHLApiClient W} : Prop :=
  forall p w, exists r w',
    searchContacts p w = (Resolved r, w')
    /\ success r = true
    /\ List.length (orEmpty (optional (data r) data_contacts)) = 100%nat
    /\ present (optional (data r) data_searchAfter) = true.

(** A backend that answers every opportunity search with a full page of 100
    opportunities and a next-page pointer. *)
Definition fullOpportunityPages {W} {client : GHLApiClient W} : Prop :=
  forall p w, exists r w',
    searchOpportunities p w = (Resolved r, w')
    /\ success r = true
    /\ List.length (orEmpty (optional (data r) data_opportunities)) = 100%nat
    /\ Js.truthy (optional (optional (data r) data_meta) meta_nextPageUrl)
       = true.

(** The opportunities of a list that carry an identifier. *)
Definition withOpportunityId (os : list GHLOpportunity)
  : list GHLOpportunity :=
  filter (fun o => Js.truthy (opportunity_id o)) os.

(** The state that follows a recorded call. *)
Definition after {W} (x : Ext W) (c : Call) (w : W) : Ext W :=
  {| world := w; calls := calls x ++ [c] |}.

(** ** The exchange of a pagination with the backend *)

(** The backend, in the state [w], answers the successive contact searches
    of the loop with the responses [pages]: the first search is made from
    the cursor [searchAfter], each later one from the cursor of the response
    before it.  [searchAfter'] and [w'] are the cursor and the state of the
    backend after the last of these responses. *)
Inductive ContactPages {W} {client : GHLApiClient W}
  : option Cursor -> W -> list (GHLApiResponse ContactSearchData)
    -> option Cursor -> W -> Prop :=
| contact_pages_done searchAfter w :
    ContactPages searchAfter w [] searchAfter w
| contact_pages_next searchAfter w r w1 rest searchAfter' w' :
    searchContacts (contactsRequest searchAfter) w = (Resolved r, w1) ->
    ContactPages (optional (data r) data_searchAfter) w1 rest
      searchAfter' w' ->
    ContactPages searchAfter w (r :: rest) searchAfter' w'.

(** A response after which the loop asks for another page, the safety cap
    aside: it succeeded, holds at least 100 contacts and carries a
    cursor. *)
Definition contactPageFollowed (r : GHLApiResponse ContactSearchData)
  : bool :=
  success r
  && (100 <=? Z.of_nat
                (List.length (orEmpty (optional (data r) data_contacts))))
  && present (optional (data r) data_searchAfter).

(** The contacts of a sequence of responses. *)
Definition contactsOfPages (pages : list (GHLApiResponse ContactSearchData))
  : list GHLContact :=
  flat_map (fun r => orEmpty (optional (data r) data_contacts)) pages.

(** The contact search from the cursor [searchAfter] fails in the state
    [w] with [e]: its promise is rejected with [e], or it resolves to a
    response without success, of which [e] is the error that the loop
    raises. *)
Definition contactSearchFails {W} {client : GHLApiClient W}
    (searchAfter : option Cursor) (w : W) (e : Thrown) (w' : W) : Prop :=
  searchContacts (contactsRequest searchAfter) w = (Rejected e, w')
  \/ exists r,
       searchContacts (contactsRequest searchAfter) w = (Resolved r, w')
       /\ success r = false
       /\ e = ErrorObject
                (Js.orElse (optional (error r) error_message)
                           "Failed to search contacts").

(** The same for the opportunity searches of the narrating version, whose
    requests carry the stage filter and the two markers of the response
    before. *)
Inductive OpportunityPages {W} {client : GHLApiClient W}
    (pipelineStageId : option string)
  : option string -> string -> W
    -> list (GHLApiResponse OpportunitySearchData)
    -> option string -> string -> W -> Prop :=
| opportunity_pages_done startAfter startAfterId w :
    OpportunityPages pipelineStageId startAfter startAfterId w []
      startAfter startAfterId w
| opportunity_pages_next startAfter startAfterId w r w1 rest
    startAfter' startAfterId' w' :
    searchOpportunities
      (opportunitiesRequest pipelineStageId startAfter startAfterId) w
    = (Resolved r, w1) ->
    OpportunityPages pipelineStageId
      (nextStartAfter (optional (data r) data_meta))
      (Js.orElse (optional (optional (data r) data_meta) meta_startAfterId)
                 "")
      w1 rest startAfter' startAfterId' w' ->
    OpportunityPages pipelineStageId startAfter startAfterId w (r :: rest)
      startAfter' startAfterId' w'.

(** A response after which the loop asks for another page, the safety cap
    aside: it succeeded and its metadata hold a next-page pointer. *)
Definition opportunityPageFollowed
    (r : GHLApiResponse OpportunitySearchData) : bool :=
  success r
  && Js.truthy (optional (optional (data r) data_meta) meta_nextPageUrl).

Definition opportunitiesOfPages
    (pages : list (GHLApiResponse OpportunitySearchData))
  : list GHLOpportunity :=
  flat_map (fun r => orEmpty (optional (data r) data_opportunities)) pages.

Definition opportunitySearchFails {W} {client : GHLApiClient W}
    (pipelineStageId : option string) (startAfter : option string)
    (startAfterId : string) (w : W) (e : Thrown) (w' : W) : Prop :=
  let request :=
    opportunitiesRequest pipelineStageId startAfter startAfterId in
  searchOpportunities request w = (Rejected e, w')
  \/ exists r,
       searchOpportunities request w = (Resolved r, w')
       /\ success r = false
       /\ e = ErrorObject
                (Js.orElse (optional (error r) error_message)
                           "Failed to search opportunities").



(** A backend that answers every opportunity search, in whatever state,
    with a page without opportunities that carries a next-page pointer. *)
Definition pointerOnEmptyPages {W} {client : GHLApiClient W} : Prop :=
  forall p w, exists r w',
    searchOpportunities p w = (Resolved r, w')
    /\ success r = true
    /\ orEmpty (optional (data r) data_opportunities) = []
    /\ Js.truthy (optional (optional (data r) data_meta) meta_nextPageUrl)
       = true.

(** ** The tools of the class and their dispatch

    getToolDefinitions and executeTool of the narrating version of the
    file.  [args] arrives as [any] and is cast to the parameters of the
    detector; here it carries the two fields that the detectors read. *)
Module InactivityTools.

Record PropertySchema : Type := {
  schema_type : string;
  schema_description : string;
  schema_minimum : option Z;
  schema_maximum : option Z;
  (** [default: null] is present *)
  schema_defaultNull : bool
}.

Record Tool : Type := {
  tool_name : string;
  tool_description : string;
  tool_properties : list (string * PropertySchema);
  tool_required : list string
}.

Definition inactivityDaysSchema : PropertySchema :=
  {| schema_type := "number";
     schema_description := "Number of days to check for inactivity";
     schema_minimum := Some 1; schema_maximum := Some 365;
     schema_defaultNull := false |}.

Definition getToolDefinitions : list Tool :=
  [{| tool_name := "detect_contacts_inactivity";
      tool_description :=
        "Detect contacts that have had no activity within a specified "
        ++ "number of days. Checks conversations, appointments, notes, "
        ++ "and tasks for recent activity.";
      tool_properties := [("inactivityDays", inactivityDaysSchema)];
      tool_required := ["inactivityDays"] |};
   {| tool_name := "detect_opportunities_inactivity";
      tool_description :=
        "Detect opportunities that have had no status or stage changes "
        ++ "within a specified number of days. Optionally filter by "
        ++ "pipeline stage.";
      tool_properties :=
        [("inactivityDays", inactivityDaysSchema);
         ("pipelineStageId",
          {| schema_type := "string";
             schema_description :=
               "Optional pipeline stage ID to filter opportunities by "
               ++ "specific stage";
             schema_minimum := None; schema_maximum := None;
             schema_defaultNull := true |})];
      tool_required := ["inactivityDays"] |}].

Record Arguments : Type := {
  arg_inactivityDays : Z;
  arg_pipelineStageId : option string
}.

Inductive Response : Type :=
| ContactsInactivity (report : ContactsReport.t)
| OpportunitiesInactivity (report : OpportunitiesReport.t).

Section Methods.
Context {host : JsHost} {W : Type} {client : GHLApiClient W}.
Local Open Scope js_scope.

(** executeTool(name, args) *)
Definition executeTool {L} (fuel : nat) (now : Clock) (name : string)
    (args : Arguments) : M W L Response :=
  if String.eqb name "detect_contacts_inactivity" then
    report <- Logging.detectContactsInactivity fuel now
                {| dc_inactivityDays := arg_inactivityDays args |} ;;
    ret (ContactsInactivity report)
  else if String.eqb name "detect_opportunities_inactivity" then
    report <- Logging.detectOpportunitiesInactivity fuel now
                {| do_inactivityDays := arg_inactivityDays args;
                   do_pipelineStageId := arg_pipelineStageId args |} ;;
    ret (OpportunitiesInactivity report)
  else throw (ErrorObject ("Unknown tool: " ++ name)).

End Methods.
End InactivityTools.

(** ** The routing of tool calls in the HTTP server (http-server.ts)

    The server keeps one object of tools per family and two routers of
    tool calls over them: the CallTool handler that createMCPServerForUser
    registers with the protocol server, and the [tools/call] branch of
    processMCPMessageForUser.  Both choose the family by the name of the
    tool, with the [is...Tool] predicates below; what the chosen object
    does with the call is outside this file, except for the inactivity
    tools. *)
Module HttpServer.

(** The objects of tools, by the names of the variables that hold them. *)
Inductive Tools : Type :=
| inactivityTools | userTools | contactTools | conversationTools
| blogTools | opportunityTools | calendarTools | emailTools
| locationTools | emailISVTools | socialMediaTools | mediaTools
| objectTools | associationTools | customFieldV2Tools | workflowTools
| surveyTools | storeTools | productsTools.

(** [names.includes(toolName)] *)
Definition includes (names : list string) (toolName : string) : bool :=
  existsb (String.eqb toolName) names.

Definition contactToolNames : list string :=
  ["create_contact"; "search_contacts"; "get_contact"; "update_contact";
   "add_contact_tags"; "remove_contact_tags"; "delete_contact";
   "start_email_verification"; "start_sms_verification";
   "start_whatsapp_verification"; "verify_code";
   "resend_verification_code"; "check_verification_status";
   "get_contact_tasks"; "create_contact_task"; "get_contact_task";
   "update_contact_task"; "delete_contact_task"; "update_task_completion";
   "get_contact_notes"; "create_contact_note"; "get_contact_note";
   "update_contact_note"; "delete_contact_note"; "upsert_contact";
   "get_duplicate_contact"; "get_contacts_by_business";
   "get_contact_appointments"; "bulk_update_contact_tags";
   "bulk_update_contact_business"; "add_contact_followers";
   "remove_contact_followers"; "add_contact_to_campaign";
   "remove_contact_from_campaign"; "remove_contact_from_all_campaigns";
   "add_contact_to_workflow"; "remove_contact_from_workflow"].

Definition isContactTool (toolName : string) : bool :=
  includes contactToolNames toolName.

Definition conversationToolNames : list string :=
  ["send_sms"; "send_email"; "search_conversations"; "get_conversation";
   "create_conversation"; "update_conversation"; "delete_conversation";
   "get_recent_messages"; "get_email_message"; "get_message";
   "upload_message_attachments"; "update_message_status";
   "add_inbound_message"; "add_outbound_call"; "get_message_recording";
   "get_message_transcription"; "download_transcription";
   "cancel_scheduled_message"; "cancel_scheduled_email";
   "live_chat_typing"].

Definition isConversationTool (toolName : string) : bool :=
  includes conversationToolNames toolName.

Definition blogToolNames : list string :=
  ["create_blog_post"; "update_blog_post"; "get_blog_posts";
   "get_blog_sites"; "get_blog_authors"; "get_blog_categories";
   "check_url_slug"].

Definition isBlogTool (toolName : string) : bool :=
  includes blogToolNames toolName.

Definition opportunityToolNames : list string :=
  ["search_opportunities"; "get_pipelines"; "get_opportunity";
   "create_opportunity"; "update_opportunity_status";
   "delete_opportunity"; "update_opportunity"; "upsert_opportunity";
   "add_opportunity_followers"; "remove_opportunity_followers"].

Definition isOpportunityTool (toolName : string) : bool :=
  includes opportunityToolNames toolName.

Definition calendarToolNames : list string :=
  ["get_calendar_groups"; "create_calendar_group"; "validate_group_slug";
   "update_calendar_group"; "delete_calendar_group";
   "disable_calendar_group"; "get_calendars"; "create_calendar";
   "get_calendar"; "update_calendar"; "delete_calendar";
   "get_calendar_events"; "get_free_slots"; "create_appointment";
   "get_appointment"; "update_appointment"; "delete_appointment";
   "get_appointment_notes"; "create_appointment_note";
   "update_appointment_note"; "delete_appointment_note";
   "get_calendar_resources"; "get_calendar_resource_by_id";
   "update_calendar_resource"; "delete_calendar_resource";
   "get_calendar_notifications"; "create_calendar_notification";
   "update_calendar_notification"; "delete_calendar_notification";
   "create_block_slot"; "update_block_slot"; "get_blocked_slots";
   "delete_blocked_slot"].

Definition isCalendarTool (toolName : string) : bool :=
  includes calendarToolNames toolName.

Definition emailToolNames : list string :=
  ["get_email_campaigns"; "create_email_template"; "get_email_templates";
   "update_email_template"; "delete_email_template"].

Definition isEmailTool (toolName : string) : bool :=
  includes emailToolNames toolName.

Definition locationToolNames : list string :=
  ["search_locations"; "get_location"; "create_location";
   "update_location"; "delete_location"; "get_location_tags";
   "create_location_tag"; "get_location_tag"; "update_location_tag";
   "delete_location_tag"; "search_location_tasks";
   "get_location_custom_fields"; "create_location_custom_field";
   "get_location_custom_field"; "update_location_custom_field";
   "delete_location_custom_field"; "get_location_custom_values";
   "create_location_custom_value"; "get_location_custom_value";
   "update_location_custom_value"; "delete_location_custom_value";
   "get_location_templates"; "delete_location_template"; "get_timezones"].

Definition isLocationTool (toolName : string) : bool :=
  includes locationToolNames toolName.

Definition inactivityToolNames : list string :=
  ["detect_contacts_inactivity"; "detect_opportunities_inactivity"].

Definition isInactivityTool (toolName : string) : bool :=
  includes inactivityToolNames toolName.

Definition userToolNames : list string :=
  ["create_user"; "search_users"; "get_user"; "update_user"; "delete_user"].

Definition isUserTool (toolName : string) : bool :=
  includes userToolNames toolName.

Definition emailISVToolNames : list string :=
  ["verify_email"].

Definition isEmailISVTool (toolName : string) : bool :=
  includes emailISVToolNames toolName.

Definition socialMediaToolNames : list string :=
  ["search_social_posts"; "create_social_post"; "get_social_post";
   "update_social_post"; "delete_social_post"; "bulk_delete_social_posts";
   "get_social_accounts"; "delete_social_account"; "upload_social_csv";
   "get_csv_upload_status"; "set_csv_accounts"; "get_social_categories";
   "get_social_category"; "get_social_tags"; "get_social_tags_by_ids";
   "start_social_oauth"; "get_platform_accounts"].

Definition isSocialMediaTool (toolName : string) : bool :=
  includes socialMediaToolNames toolName.

Definition mediaToolNames : list string :=
  ["get_media_files"; "upload_media_file"; "delete_media_file"].

Definition isMediaTool (toolName : string) : bool :=
  includes mediaToolNames toolName.

Definition objectToolNames : list string :=
  ["get_all_objects"; "create_object_schema"; "get_object_schema";
   "update_object_schema"; "create_object_record"; "get_object_record";
   "update_object_record"; "delete_object_record"; "search_object_records"].

Definition isObjectTool (toolName : string) : bool :=
  includes objectToolNames toolName.

Definition associationToolNames : list string :=
  ["ghl_get_all_associations"; "ghl_create_association";
   "ghl_get_association_by_id"; "ghl_update_association";
   "ghl_delete_association"; "ghl_get_association_by_key";
   "ghl_get_association_by_object_key"; "ghl_create_relation";
   "ghl_get_relations_by_record"; "ghl_delete_relation"].

Definition isAssociationTool (toolName : string) : bool :=
  includes associationToolNames toolName.

Definition customFieldV2ToolNames : list string :=
  ["ghl_get_custom_field_by_id"; "ghl_create_custom_field";
   "ghl_update_custom_field"; "ghl_delete_custom_field";
   "ghl_get_custom_fields_by_object_key";
   "ghl_create_custom_field_folder"; "ghl_update_custom_field_folder";
   "ghl_delete_custom_field_folder"].

Definition isCustomFieldV2Tool (toolName : string) : bool :=
  includes customFieldV2ToolNames toolName.

Definition workflowToolNames : list string :=
  ["ghl_get_workflows"].

Definition isWorkflowTool (toolName : string) : bool :=
  includes workflowToolNames toolName.

Definition surveyToolNames : list string :=
  ["ghl_get_surveys"; "ghl_get_survey_submissions"].

Definition isSurveyTool (toolName : string) : bool :=
  includes surveyToolNames toolName.

Definition storeToolNames : list string :=
  ["ghl_create_shipping_zone"; "ghl_list_shipping_zones";
   "ghl_get_shipping_zone"; "ghl_update_shipping_zone";
   "ghl_delete_shipping_zone"; "ghl_get_available_shipping_rates";
   "ghl_create_shipping_rate"; "ghl_list_shipping_rates";
   "ghl_get_shipping_rate"; "ghl_update_shipping_rate";
   "ghl_delete_shipping_rate"; "ghl_create_shipping_carrier";
   "ghl_list_shipping_carriers"; "ghl_get_shipping_carrier";
   "ghl_update_shipping_carrier"; "ghl_delete_shipping_carrier";
   "ghl_create_store_setting"; "ghl_get_store_setting"].

Definition isStoreTool (toolName : string) : bool :=
  includes storeToolNames toolName.

Definition productsToolNames : list string :=
  ["ghl_create_product"; "ghl_list_products"; "ghl_get_product";
   "ghl_update_product"; "ghl_delete_product"; "ghl_bulk_update_products";
   "ghl_create_price"; "ghl_list_prices"; "ghl_get_price";
   "ghl_update_price"; "ghl_delete_price"; "ghl_list_inventory";
   "ghl_update_inventory"; "ghl_get_product_store_stats";
   "ghl_update_product_store"; "ghl_create_product_collection";
   "ghl_list_product_collections"; "ghl_get_product_collection";
   "ghl_update_product_collection"; "ghl_delete_product_collection";
   "ghl_list_product_reviews"; "ghl_get_reviews_count";
   "ghl_update_product_review"; "ghl_delete_product_review";
   "ghl_bulk_update_product_reviews"].

Definition isProductsTool (toolName : string) : bool :=
  includes productsToolNames toolName.

(** The [if]/[else if] chain of the CallTool handler: the object whose
    method is awaited, or none where the chain is left for
    [throw new McpError(ErrorCode.MethodNotFound, ...)]. *)
Definition callToolTarget (name : string) : option Tools :=
  if isContactTool name then Some contactTools
  else if isConversationTool name then Some conversationTools
  else if isBlogTool name then Some blogTools
  else if isOpportunityTool name then Some opportunityTools
  else if isCalendarTool name then Some calendarTools
  else if isEmailTool name then Some emailTools
  else if isLocationTool name then Some locationTools
  else if isEmailISVTool name then Some emailISVTools
  else if isSocialMediaTool name then Some socialMediaTools
  else if isMediaTool name then Some mediaTools
  else if isObjectTool name then Some objectTools
  else if isAssociationTool name then Some associationTools
  else if isCustomFieldV2Tool name then Some customFieldV2Tools
  else if isWorkflowTool name then Some workflowTools
  else if isSurveyTool name then Some surveyTools
  else if isStoreTool name then Some storeTools
  else if isProductsTool name then Some productsTools
  else None.

(** The chain of the [tools/call] branch of processMCPMessageForUser; none
    is its [else], [throw new Error(`Unknown tool: ${name}`)]. *)
Definition toolsCallTarget (name : string) : option Tools :=
  if isInactivityTool name then Some inactivityTools
  else if isUserTool name then Some userTools
  else if isContactTool name then Some contactTools
  else if isConversationTool name then Some conversationTools
  else if isBlogTool name then Some blogTools
  else if isOpportunityTool name then Some opportunityTools
  else if isCalendarTool name then Some calendarTools
  else if isEmailTool name then Some emailTools
  else if isLocationTool name then Some locationTools
  else if isEmailISVTool name then Some emailISVTools
  else if isSocialMediaTool name then Some socialMediaTools
  else if isMediaTool name then Some mediaTools
  else if isObjectTool name then Some objectTools
  else if isAssociationTool name then Some associationTools
  else if isCustomFieldV2Tool name then Some customFieldV2Tools
  else if isWorkflowTool name then Some workflowTools
  else if isSurveyTool name then Some surveyTools
  else if isStoreTool name then Some storeTools
  else if isProductsTool name then Some productsTools
  else None.

(** The names that the predicate of a family accepts. *)
Definition namesOf (t : Tools) : list string :=
  match t with
  | inactivityTools => inactivityToolNames
  | userTools => userToolNames
  | contactTools => contactToolNames
  | conversationTools => conversationToolNames
  | blogTools => blogToolNames
  | opportunityTools => opportunityToolNames
  | calendarTools => calendarToolNames
  | emailTools => emailToolNames
  | locationTools => locationToolNames
  | emailISVTools => emailISVToolNames
  | socialMediaTools => socialMediaToolNames
  | mediaTools => mediaToolNames
  | objectTools => objectToolNames
  | associationTools => associationToolNames
  | customFieldV2Tools => customFieldV2ToolNames
  | workflowTools => workflowToolNames
  | surveyTools => surveyToolNames
  | storeTools => storeToolNames
  | productsTools => productsToolNames
  end.

(** The families in the order in which the tools are listed for
    [tools/list]. *)
Definition families : list Tools :=
  [inactivityTools; userTools; contactTools; conversationTools; blogTools;
   opportunityTools; calendarTools; emailTools; locationTools;
   emailISVTools; socialMediaTools; mediaTools; objectTools;
   associationTools; customFieldV2Tools; workflowTools; surveyTools;
   storeTools; productsTools].

(** The families whose predicate accepts [name]. *)
Definition accepting (name : string) : list Tools :=
  filter (fun t => includes (namesOf t) name) families.

(** Equality of families, and lists of names without a common member. *)
Definition sameTools (t u : Tools) : bool :=
  match t, u with
  | inactivityTools, inactivityTools | userTools, userTools
  | contactTools, contactTools | conversationTools, conversationTools
  | blogTools, blogTools | opportunityTools, opportunityTools
  | calendarTools, calendarTools | emailTools, emailTools
  | locationTools, locationTools | emailISVTools, emailISVTools
  | socialMediaTools, socialMediaTools | mediaTools, mediaTools
  | objectTools, objectTools | associationTools, associationTools
  | customFieldV2Tools, customFieldV2Tools | workflowTools, workflowTools
  | surveyTools, surveyTools | storeTools, storeTools
  | productsTools, productsTools => true
  | _, _ => false
  end.

Definition disjointNames (a b : list string) : bool :=
  forallb (fun n => negb (includes b n)) a.

End HttpServer.

(** ** Tactics *)

(** Takes the scrutinee of the outermost [match] of the goal apart. *)
Ltac break_match :=
  match goal with
  | |- context [match ?t with _ => _ end] =>
      lazymatch t with
      | context [match _ with _ => _ end] => fail
      | _ => destruct t eqn:?
      end
  end.

Ltac unfold_monad :=
  unfold invoke, tryCatch, bind, await, modify, getLocals, eval, throw, ret,
    timeout in *.

(** * Properties *)

(** ** The monad *)

Section MonadFacts.
Context {W : Type}.

Lemma forEach_app {L A} (body : A -> M W L unit) (xs ys : list A) l x :
  forEach body (xs ++ ys) l x
  = bind (forEach body xs) (fun _ => forEach body ys) l x.
Proof.
  revert l x; induction xs as [|a xs IH]; intros l x; simpl.
  - reflexivity.
  - unfold bind. destruct (body a l x) as [[[u|e|] l1] x1]; auto.
Qed.

End MonadFacts.

Section MonadEval.
Context {W : Type}.

Lemma bind_ret_eq {L A B} (m : M W L A) (k : A -> M W L B) l x a l' x' :
  m l x = (Ret a, l', x') -> bind m k l x = k a l' x'.
Proof. intro H. unfold bind. now rewrite H. Qed.

Lemma bind_throw_eq {L A B} (m : M W L A) (k : A -> M W L B) l x e l' x' :
  m l x = (Throw e, l', x') -> bind m k l x = (Throw e, l', x').
Proof. intro H. unfold bind. now rewrite H. Qed.

Lemma bind_timeout_eq {L A B} (m : M W L A) (k : A -> M W L B) l x l' x' :
  m l x = (Timeout, l', x') -> bind m k l x = (Timeout, l', x').
Proof. intro H. unfold bind. now rewrite H. Qed.

Lemma tryCatch_ret_eq {L A} (m : M W L A) h l x a l' x' :
  m l x = (Ret a, l', x') -> tryCatch m h l x = (Ret a, l', x').
Proof. intro H. unfold tryCatch. now rewrite H. Qed.

Lemma tryCatch_throw_eq {L A} (m : M W L A) h l x e l' x' :
  m l x = (Throw e, l', x') -> tryCatch m h l x = h e l' x'.
Proof. intro H. unfold tryCatch. now rewrite H. Qed.

Lemma tryCatch_timeout_eq {L A} (m : M W L A) h l x l' x' :
  m l x = (Timeout, l', x') -> tryCatch m h l x = (Timeout, l', x').
Proof. intro H. unfold tryCatch. now rewrite H. Qed.

Lemma await_resolved {L A} c (method : W -> Settled A * W) (l : L) x a w' :
  method (world x) = (Resolved a, w') ->
  await c method l x = (Ret a, l, after x c w').
Proof. intro H. unfold await, after. now rewrite H. Qed.

Lemma await_rejected {L A} c (method : W -> Settled A * W) (l : L) x e w' :
  method (world x) = (Rejected e, w') ->
  await c method l x = (Throw e, l, after x c w').
Proof. intro H. unfold await, after. now rewrite H. Qed.

(** [if (!hasRecentActivity) { m }] followed by [k]. *)
Lemma guarded_skip {B} (m : M W ActivityVars unit)
    (k : unit -> M W ActivityVars B) v x :
  hasRecentActivity v = true ->
  bind getLocals
    (fun v0 => bind (if negb (hasRecentActivity v0) then m else ret tt) k)
    v x
  = k tt v x.
Proof. intro H. unfold bind, getLocals, ret. now rewrite H. Qed.

Lemma guarded_run {B} (m : M W ActivityVars unit)
    (k : unit -> M W ActivityVars B) v x v' x' :
  hasRecentActivity v = false ->
  m v x = (Ret tt, v', x') ->
  bind getLocals
    (fun v0 => bind (if negb (hasRecentActivity v0) then m else ret tt) k)
    v x
  = k tt v' x'.
Proof.
  intros H Hm. unfold bind, getLocals. rewrite H. simpl. now rewrite Hm.
Qed.

Lemma guarded_last_skip (m : M W ActivityVars unit) v x :
  hasRecentActivity v = true ->
  bind getLocals
    (fun v0 => if negb (hasRecentActivity v0) then m else ret tt) v x
  = (Ret tt, v, x).
Proof. intro H. unfold bind, getLocals, ret. now rewrite H. Qed.

Lemma guarded_last_run (m : M W ActivityVars unit) v x :
  hasRecentActivity v = false ->
  bind getLocals
    (fun v0 => if negb (hasRecentActivity v0) then m else ret tt) v x
  = m v x.
Proof. intro H. unfold bind, getLocals. now rewrite H. Qed.

End MonadEval.

(** ** One source of signals *)

Section ObserveFacts.
Context {host : JsHost}.

Lemma observeAll_stamps {A} start (stamp : A -> option string) items v :
  observeAll start stamp items v = observeStamps start (map stamp items) v.
Proof.
  unfold observeAll, observeStamps. revert v.
  induction items as [|a items IH]; intro v; simpl; auto.
Qed.

Lemma observeStamps_app start a b v :
  observeStamps start (a ++ b) v
  = observeStamps start b (observeStamps start a v).
Proof. unfold observeStamps. apply fold_left_app. Qed.

Lemma datesOf_app a b : datesOf (a ++ b) = (datesOf a ++ datesOf b)%list.
Proof. unfold datesOf. now rewrite filter_app, map_app. Qed.

Lemma timesOf_app a b : timesOf (a ++ b) = (timesOf a ++ timesOf b)%list.
Proof. unfold timesOf. now rewrite datesOf_app, flat_map_app. Qed.

Lemma wellFormed_app a b :
  wellFormed (a ++ b) = wellFormed a && wellFormed b.
Proof. unfold wellFormed. now rewrite datesOf_app, forallb_app. Qed.

(** A falsy timestamp leaves the variables as they are. *)
Lemma observe_falsy start stamp v :
  Js.truthy stamp = false -> observe start stamp v = v.
Proof. intro H. unfold observe. now rewrite H. Qed.

Lemma observeStamps_falsy start stamps v :
  Forall (fun s => Js.truthy s = false) stamps ->
  observeStamps start stamps v = v.
Proof.
  unfold observeStamps. intro H. revert v.
  induction H as [|s stamps Hs _ IH]; intro v; simpl; auto.
  now rewrite observe_falsy.
Qed.

(** One timestamp that parses. *)
Lemma observe_valid s stamp t recent last :
  Js.truthy stamp = true ->
  newDate (Js.orElse stamp "") = TimeValue t ->
  observe (TimeValue s) stamp
    {| hasRecentActivity := recent;
       lastActivityDate := option_map TimeValue last |}
  = {| hasRecentActivity := recent || (s <=? t);
       lastActivityDate :=
         option_map TimeValue
           (match last with
            | None => Some t
            | Some a => Some (Z.max a t)
            end) |}.
Proof.
  intros Ht Hd. unfold observe. rewrite Ht, Hd. simpl.
  destruct (s <=? t), recent, last as [a|]; simpl; auto;
    destruct (Z.ltb_spec a t); simpl; f_equal; f_equal; f_equal; lia.
Qed.

(** What one source does to the variables when its timestamps parse. *)
Lemma observeStamps_spec s stamps recent last :
  wellFormed stamps = true ->
  observeStamps (TimeValue s) stamps
    {| hasRecentActivity := recent;
       lastActivityDate := option_map TimeValue last |}
  = {| hasRecentActivity := recent || existsb (Z.leb s) (timesOf stamps);
       lastActivityDate :=
         option_map TimeValue (latestFrom last (timesOf stamps)) |}.
Proof.
  revert recent last.
  induction stamps as [|stamp stamps IH]; intros recent last Hwf.
  - simpl. now rewrite orb_false_r.
  - change (stamp :: stamps) with ([stamp] ++ stamps)%list in *.
    rewrite wellFormed_app in Hwf. apply andb_prop in Hwf.
    destruct Hwf as [Hv Hwf].
    rewrite observeStamps_app, timesOf_app.
    unfold wellFormed, timesOf, datesOf in Hv |- *. simpl in Hv |- *.
    destruct (Js.truthy stamp) eqn:Ht; simpl in Hv |- *.
    + destruct (newDate (Js.orElse stamp "")) as [t|] eqn:Hd;
        [|discriminate].
      simpl. rewrite observe_valid with (t := t) by assumption.
      fold (datesOf stamps). fold (timesOf stamps).
      rewrite IH by assumption. now rewrite orb_assoc.
    + rewrite observe_falsy by assumption.
      fold (datesOf stamps). fold (timesOf stamps). now apply IH.
Qed.

End ObserveFacts.

Section LatestFacts.

Lemma latestFrom_app start a b :
  latestFrom start (a ++ b) = latestFrom (latestFrom start a) b.
Proof. unfold latestFrom. apply fold_left_app. Qed.

Lemma latestFrom_some a ts : exists m, latestFrom (Some a) ts = Some m.
Proof.
  revert a; induction ts as [|t ts IH]; intro a; simpl; eauto.
Qed.

Lemma latestFrom_none_inv start ts :
  latestFrom start ts = None -> start = None /\ ts = [].
Proof.
  destruct ts as [|t ts]; simpl; auto.
  destruct start as [a|]; intro H; exfalso.
  - destruct (latestFrom_some (Z.max a t) ts) as [m Hm].
    unfold latestFrom in *. simpl in *. congruence.
  - destruct (latestFrom_some t ts) as [m Hm].
    unfold latestFrom in *. simpl in *. congruence.
Qed.



End LatestFacts.

(** ** One source, with timestamps that do not parse *)

Section Anchored.
Context {host : JsHost}.

Lemma timesOf_cons_valid stamp stamps t :
  Js.truthy stamp = true ->
  newDate (Js.orElse stamp "") = TimeValue t ->
  timesOf (stamp :: stamps) = t :: timesOf stamps.
Proof.
  intros Ht Hd. unfold timesOf, datesOf. simpl. rewrite Ht. simpl.
  now rewrite Hd.
Qed.

Lemma timesOf_cons_invalid stamp stamps :
  Js.truthy stamp = true ->
  newDate (Js.orElse stamp "") = InvalidDate ->
  timesOf (stamp :: stamps) = timesOf stamps.
Proof.
  intros Ht Hd. unfold timesOf, datesOf. simpl. rewrite Ht. simpl.
  now rewrite Hd.
Qed.

Lemma timesOf_cons_falsy stamp stamps :
  Js.truthy stamp = false -> timesOf (stamp :: stamps) = timesOf stamps.
Proof.
  intros Ht. unfold timesOf, datesOf. simpl. now rewrite Ht.
Qed.

(** Once [lastActivityDate] holds a valid date, a timestamp that does not
    parse changes nothing: an invalid date is neither at or after the
    threshold nor later than the date held. *)
Lemma observe_unreadable start stamp recent a :
  newDate (Js.orElse stamp "") = InvalidDate ->
  observe start stamp
    {| hasRecentActivity := recent;
       lastActivityDate := Some (TimeValue a) |}
  = {| hasRecentActivity := recent;
       lastActivityDate := Some (TimeValue a) |}.
Proof.
  intro Hd. unfold observe. destruct (Js.truthy stamp); [|reflexivity].
  rewrite Hd. reflexivity.
Qed.

(** One source, from a valid [lastActivityDate]: the timestamps that do
    not parse are passed over. *)
Lemma observeStamps_anchored s stamps :
  forall recent a,
    observeStamps (TimeValue s) stamps
      {| hasRecentActivity := recent;
         lastActivityDate := Some (TimeValue a) |}
    = {| hasRecentActivity := recent || existsb (Z.leb s) (timesOf stamps);
         lastActivityDate :=
           option_map TimeValue (latestFrom (Some a) (timesOf stamps)) |}.
Proof.
  induction stamps as [|stamp stamps IH]; intros recent a.
  - simpl. now rewrite orb_false_r.
  - change (observeStamps (TimeValue s) (stamp :: stamps) ?v)
      with (observeStamps (TimeValue s) stamps
              (observe (TimeValue s) stamp v)).
    destruct (Js.truthy stamp) eqn:Ht.
    + destruct (newDate (Js.orElse stamp "")) as [t|] eqn:Hd.
      * rewrite timesOf_cons_valid with (t := t) by assumption.
        change (Some (TimeValue a)) with (option_map TimeValue (Some a)).
        rewrite observe_valid with (t := t) by assumption.
        simpl option_map. rewrite IH. simpl. now rewrite orb_assoc.
      * rewrite timesOf_cons_invalid by assumption.
        rewrite observe_unreadable by exact Hd. apply IH.
    + rewrite timesOf_cons_falsy by assumption.
      rewrite observe_falsy by exact Ht. apply IH.
Qed.

(** One source, from no activity, when the first of its timestamps
    parses. *)
Lemma observeStamps_first_valid s stamps t ds :
  datesOf stamps = TimeValue t :: ds ->
  observeStamps (TimeValue s) stamps noActivity
  = {| hasRecentActivity := existsb (Z.leb s) (timesOf stamps);
       lastActivityDate := option_map TimeValue (latest (timesOf stamps)) |}.
Proof.
  induction stamps as [|stamp stamps IH]; [discriminate|].
  intro Hd.
  change (observeStamps (TimeValue s) (stamp :: stamps) ?v)
    with (observeStamps (TimeValue s) stamps
            (observe (TimeValue s) stamp v)).
  unfold datesOf in Hd. simpl filter in Hd.
  destruct (Js.truthy stamp) eqn:Ht.
  - simpl in Hd. injection Hd as Hd _.
    rewrite timesOf_cons_valid with (t := t) by assumption.
    unfold noActivity.
    change (@None JsDate) with (option_map TimeValue None).
    rewrite observe_valid with (t := t) by assumption.
    simpl option_map. rewrite observeStamps_anchored. reflexivity.
  - rewrite timesOf_cons_falsy by assumption.
    rewrite observe_falsy by exact Ht. apply IH. exact Hd.
Qed.

End Anchored.

(** ** The sources of one contact *)

Section ConsultFacts.
Context {host : JsHost} {W : Type} {client : GHLApiClient W}.

(** The [try] block never leaves by an exception, and has no loop that
    could run on. *)
Lemma consult_returns cid start v (x : Ext W) :
  exists v' x', consultSources cid start v x = (Ret tt, v', x').
Proof.
  unfold consultSources. unfold_monad. simpl.
  repeat break_match; eauto.
Qed.

Lemma observeAll_clean {A} start (stamp : A -> option string) items v :
  wellFormed (map stamp items) = true ->
  clean v -> clean (observeAll start stamp items v).
Proof.
  rewrite observeAll_stamps. generalize (map stamp items) as stamps.
  intros stamps; revert v.
  induction stamps as [|s stamps IH]; intros v Hwf Hv; simpl; auto.
  change (s :: stamps) with ([s] ++ stamps)%list in Hwf.
  rewrite wellFormed_app in Hwf. apply andb_prop in Hwf.
  destruct Hwf as [Hs Hwf]. apply IH; auto.
  unfold clean, observe in *. unfold wellFormed, datesOf in Hs.
  simpl in Hs.
  destruct (Js.truthy s); simpl in Hs; auto.
  destruct (newDate (Js.orElse s "")); [|discriminate].
  destruct (Js.ge _ start); simpl;
    destruct (lastActivityDate v) as [d|] eqn:E; simpl; try discriminate;
    (destruct d as [y|]; [destruct (y <? ms)|]; simpl; congruence).
Qed.

(** With timestamps that parse, the [try] block never leaves an invalid
    date in [lastActivityDate]. *)
Lemma consult_clean cid start v (x : Ext W) v' x' :
  timestampsParse ->
  clean v ->
  consultSources cid start v x = (Ret tt, v', x') ->
  clean v'.
Proof.
  intros (Hc & Ha & Hn & Ht) Hv.
  unfold consultSources. unfold_monad. simpl.
  repeat break_match; intro H; inversion H; subst; clear H;
    repeat match goal with
    | E : (_, _) = (_, _) |- _ => inversion E; subst; clear E
    end;
    repeat match goal with
    | E : searchConversations _ _ = (Resolved ?r, _) |- _ =>
        apply Hc in E; unfold conversationStamps in E
    | E : getContactAppointments _ _ = (Resolved ?r, _) |- _ =>
        apply Ha in E; unfold appointmentStamps in E
    | E : getContactNotes _ _ = (Resolved ?r, _) |- _ =>
        apply Hn in E; unfold noteStamps in E
    | E : getContactTasks _ _ = (Resolved ?r, _) |- _ =>
        apply Ht in E; unfold taskStamps in E
    end;
    repeat match goal with
    | E : ?a = _, F : context [match ?a with _ => _ end] |- _ =>
        rewrite E in F
    end;
    auto using observeAll_clean.
Qed.

End ConsultFacts.

Section ConsultEval.
Context {host : JsHost} {W : Type} {client : GHLApiClient W}.

Lemma conversations_read start (r : GHLApiResponse ConversationSearchData)
    v (x : Ext W) :
  match success r, optional (data r) data_conversations with
  | true, Some convs =>
      modify (observeAll start conversation_dateAdded convs)
  | _, _ => ret tt
  end v x
  = (Ret tt, observeStamps start (conversationStamps r) v, x).
Proof.
  unfold conversationStamps.
  destruct (success r), (optional (data r) data_conversations);
    unfold modify, ret; now rewrite ?observeAll_stamps.
Qed.

Lemma source_read {A} start (stamp : A -> option string)
    (r : GHLApiResponse (list A)) v (x : Ext W) :
  match success r, data r with
  | true, Some items => modify (observeAll start stamp items)
  | _, _ => ret tt
  end v x
  = (Ret tt,
     observeStamps start
       (match success r, data r with
        | true, Some items => map stamp items
        | _, _ => []
        end) v, x).
Proof.
  destruct (success r), (data r);
    unfold modify, ret; now rewrite ?observeAll_stamps.
Qed.

Lemma consult_resolved cid start (x : Ext W) r1 w1 r2 w2 r3 w3 r4 w4 :
  searchConversations (conversationsRequest cid) (world x)
  = (Resolved r1, w1) ->
  getContactAppointments cid w1 = (Resolved r2, w2) ->
  getContactNotes cid w2 = (Resolved r3, w3) ->
  getContactTasks cid w3 = (Resolved r4, w4) ->
  exists x',
    consultSources cid start noActivity x
    = (Ret tt,
       consulted start
         [conversationStamps r1; appointmentStamps r2; noteStamps r3;
          taskStamps r4] noActivity,
       x').
Proof.
  intros H1 H2 H3 H4.
  unfold consulted; simpl fold_left.
  set (v1 := observeStamps start (conversationStamps r1) noActivity).
  assert (C1 : forall k : unit -> M W ActivityVars unit,
    tryCatch
      (bind (await (SearchConversations (conversationsRequest cid))
                   (searchConversations (conversationsRequest cid)))
         (fun r => bind
            (match success r, optional (data r) data_conversations with
             | true, Some convs =>
                 modify (observeAll start conversation_dateAdded convs)
             | _, _ => ret tt
             end) k))
      (fun _ => ret tt) noActivity x
    = tryCatch (k tt) (fun _ => ret tt) v1
        (after x (SearchConversations (conversationsRequest cid)) w1)).
  { intro k. unfold tryCatch.
    erewrite bind_ret_eq by (apply await_resolved; exact H1).
    erewrite bind_ret_eq by apply conversations_read. reflexivity. }
  unfold consultSources. fold (conversationsRequest cid). rewrite C1.
  clear C1.
  destruct (hasRecentActivity v1) eqn:E1.
  - repeat (progress (rewrite ?E1; cbv iota)).
    eexists. apply tryCatch_ret_eq.
    rewrite guarded_skip by assumption.
    rewrite guarded_skip by assumption.
    rewrite guarded_last_skip by assumption. reflexivity.
  - set (v2 := observeStamps start (appointmentStamps r2) v1).
    destruct (hasRecentActivity v2) eqn:E2.
    + repeat (progress (rewrite ?E2; cbv iota)).
      eexists. apply tryCatch_ret_eq.
      erewrite guarded_run;
        [| assumption
         | erewrite bind_ret_eq by (apply await_resolved; exact H2);
           apply source_read].
      fold (appointmentStamps r2). fold v2.
      rewrite guarded_skip by assumption.
      rewrite guarded_last_skip by assumption. reflexivity.
    + set (v3 := observeStamps start (noteStamps r3) v2).
      destruct (hasRecentActivity v3) eqn:E3.
      * repeat (progress (rewrite ?E3; cbv iota)).
        eexists. apply tryCatch_ret_eq.
        erewrite guarded_run;
          [| assumption
           | erewrite bind_ret_eq by (apply await_resolved; exact H2);
             apply source_read].
        fold (appointmentStamps r2). fold v2.
        erewrite guarded_run;
          [| assumption
           | erewrite bind_ret_eq by (apply await_resolved; exact H3);
             apply source_read].
        fold (noteStamps r3). fold v3.
        rewrite guarded_last_skip by assumption. reflexivity.
      * eexists. apply tryCatch_ret_eq.
        erewrite guarded_run;
          [| assumption
           | erewrite bind_ret_eq by (apply await_resolved; exact H2);
             apply source_read].
        fold (appointmentStamps r2). fold v2.
        erewrite guarded_run;
          [| assumption
           | erewrite bind_ret_eq by (apply await_resolved; exact H3);
             apply source_read].
        fold (noteStamps r3). fold v3.
        rewrite guarded_last_run by assumption.
        erewrite bind_ret_eq by (apply await_resolved; exact H4).
        rewrite source_read. reflexivity.
Qed.
End ConsultEval.

(** ** checkContactActivity *)

Section CheckFacts.
Context {host : JsHost} {W : Type} {client : GHLApiClient W}.

(** The version without console output returns what the [try] block left
    in the two variables. *)
Lemma plain_check_eval {L} cid start (l : L) (x : Ext W) v' x' :
  consultSources cid start noActivity x = (Ret tt, v', x') ->
  Plain.checkContactActivity cid start l x
  = (Ret {| inactive := negb (hasRecentActivity v');
            check_lastActivityDate := lastActivityDate v' |}, l, x').
Proof.
  intro H. unfold Plain.checkContactActivity, invoke.
  fold noActivity. erewrite bind_ret_eq by exact H. reflexivity.
Qed.

(** The narrating version does the same, unless the date that it renders
    for the console after the [try] block is invalid. *)
Lemma logging_check_eval {L} cid s (l : L) (x : Ext W) v' x' :
  consultSources cid (TimeValue s) noActivity x = (Ret tt, v', x') ->
  Logging.checkContactActivity cid (TimeValue s) l x
  = match lastActivityDate v' with
    | Some InvalidDate => (Throw (ErrorObject "Invalid time value"), l, x')
    | _ => (Ret {| inactive := negb (hasRecentActivity v');
                   check_lastActivityDate := lastActivityDate v' |}, l, x')
    end.
Proof.
  intro H. unfold Logging.checkContactActivity, invoke.
  fold noActivity. simpl toISOString. unfold eval.
  erewrite bind_ret_eq by reflexivity.
  erewrite bind_ret_eq by exact H.
  erewrite bind_ret_eq by reflexivity.
  simpl. destruct (lastActivityDate v') as [[t|]|]; reflexivity.
Qed.

(** With an invalid threshold date it raises before any call. *)
Lemma logging_check_invalid_start {L} cid (l : L) (x : Ext W) :
  Logging.checkContactActivity cid InvalidDate l x
  = (Throw (ErrorObject "Invalid time value"), l, x).
Proof. reflexivity. Qed.

(** Neither version runs on, and neither touches the variables of its
    caller. *)
Lemma logging_check_cases {L} cid start (l : L) (x : Ext W) :
  (exists r x', Logging.checkContactActivity cid start l x = (Ret r, l, x'))
  \/ (exists e x',
        Logging.checkContactActivity cid start l x = (Throw e, l, x')).
Proof.
  destruct start as [s|].
  - destruct (consult_returns cid (TimeValue s) noActivity x)
      as (v' & x' & H).
    erewrite logging_check_eval by exact H.
    destruct (lastActivityDate v') as [[t|]|]; eauto.
  - right. rewrite logging_check_invalid_start. eauto.
Qed.

Lemma plain_check_returns {L} cid start (l : L) (x : Ext W) :
  exists r x', Plain.checkContactActivity cid start l x = (Ret r, l, x').
Proof.
  destruct (consult_returns cid start noActivity x) as (v' & x' & H).
  erewrite plain_check_eval by exact H. eauto.
Qed.

(** On a backend whose timestamps parse the two versions agree. *)
Lemma checks_agree {L} cid s (l : L) (x : Ext W) :
  timestampsParse ->
  Logging.checkContactActivity cid (TimeValue s) l x
  = Plain.checkContactActivity cid (TimeValue s) l x.
Proof.
  intro Hp.
  destruct (consult_returns cid (TimeValue s) noActivity x)
    as (v' & x' & H).
  erewrite logging_check_eval, plain_check_eval by exact H.
  assert (Hc : clean v').
  { eapply consult_clean; eauto. unfold clean, noActivity. simpl.
    discriminate. }
  unfold clean in Hc.
  destruct (lastActivityDate v') as [[t|]|]; congruence.
Qed.

(** When the conversations already show recent activity, no other source
    is asked. *)
Lemma consult_recent_conversation cid start (x : Ext W) r1 w1 :
  searchConversations (conversationsRequest cid) (world x)
  = (Resolved r1, w1) ->
  hasRecentActivity
    (observeStamps start (conversationStamps r1) noActivity) = true ->
  consultSources cid start noActivity x
  = (Ret tt, observeStamps start (conversationStamps r1) noActivity,
     after x (SearchConversations (conversationsRequest cid)) w1).
Proof.
  intros H1 E1. unfold consultSources. apply tryCatch_ret_eq.
  fold (conversationsRequest cid).
  erewrite bind_ret_eq by (apply await_resolved; exact H1).
  erewrite bind_ret_eq by apply conversations_read.
  rewrite guarded_skip by assumption.
  rewrite guarded_skip by assumption.
  rewrite guarded_last_skip by assumption. reflexivity.
Qed.

End CheckFacts.

Section ConsultedFacts.
Context {host : JsHost}.






End ConsultedFacts.

Section CheckTheorems.
Context {host : JsHost} {W : Type} {client : GHLApiClient W}.

(** C6 (amended).  When the conversations of a contact carry a timestamp
    on or after the threshold date, and the first conversation that carries
    a timestamp carries one that parses, checkContactActivity (either
    version) makes the conversation search and no other call (appointments,
    notes and tasks are not fetched, so their contents cannot matter),
    answers [inactive = false], and reports as [lastActivityDate] the
    latest of the conversation timestamps that parse, conversations being
    the only source it consulted. *)
Theorem recent_conversation_short_circuit {L} cid s (l : L) (x : Ext W)
    r1 w1 t ds :
  searchConversations (conversationsRequest cid) (world x)
  = (Resolved r1, w1) ->
  datesOf (conversationStamps r1) = TimeValue t :: ds ->
  existsb (Z.leb s) (timesOf (conversationStamps r1)) = true ->
  let answer :=
    (Ret {| inactive := false;
            check_lastActivityDate :=
              option_map TimeValue
                (latest (timesOf (conversationStamps r1))) |},
     l, after x (SearchConversations (conversationsRequest cid)) w1) in
  Logging.checkContactActivity cid (TimeValue s) l x = answer
  /\ Plain.checkContactActivity cid (TimeValue s) l x = answer.
Proof.
  intros H1 Hfirst Hrecent answer. subst answer.
  pose proof (observeStamps_first_valid s _ Hfirst) as Hv.
  rewrite Hrecent in Hv.
  assert (Hc :
    consultSources cid (TimeValue s) noActivity x
    = (Ret tt, observeStamps (TimeValue s) (conversationStamps r1)
                 noActivity,
       after x (SearchConversations (conversationsRequest cid)) w1)).
  { apply consult_recent_conversation; [exact H1 | now rewrite Hv]. }
  split.
  - erewrite logging_check_eval by exact Hc. rewrite Hv. simpl.
    destruct (latest (timesOf (conversationStamps r1))); reflexivity.
  - erewrite plain_check_eval by exact Hc. rewrite Hv. reflexivity.
Qed.

(** C8.  A contact whose conversations, appointments and notes hold no
    record and whose tasks all lack a due date is classified inactive,
    with no [lastActivityDate]. *)
Theorem undated_tasks_give_no_signal {L} cid s (l : L) (x : Ext W)
    r1 w1 r2 w2 r3 w3 r4 w4 :
  searchConversations (conversationsRequest cid) (world x)
  = (Resolved r1, w1) ->
  getContactAppointments cid w1 = (Resolved r2, w2) ->
  getContactNotes cid w2 = (Resolved r3, w3) ->
  getContactTasks cid w3 = (Resolved r4, w4) ->
  conversationStamps r1 = [] ->
  appointmentStamps r2 = [] ->
  noteStamps r3 = [] ->
  Forall (fun due => Js.truthy due = false) (taskStamps r4) ->
  exists x',
    Logging.checkContactActivity cid (TimeValue s) l x
    = (Ret {| inactive := true; check_lastActivityDate := None |}, l, x').
Proof.
  intros H1 H2 H3 H4 E1 E2 E3 Hundated.
  destruct (consult_resolved cid (TimeValue s) x H1 H2 H3 H4) as [x' Hc].
  rewrite E1, E2, E3 in Hc. unfold consulted in Hc. simpl in Hc.
  rewrite observeStamps_falsy in Hc by assumption.
  exists x'. erewrite logging_check_eval by exact Hc. reflexivity.
Qed.

End CheckTheorems.

Section ThresholdTheorem.
Context {host : JsHost} {W : Type} {client : GHLApiClient W}.


End ThresholdTheorem.

(** ** The loop over the contacts *)

Section ContactLoop.
Context {host : JsHost} {W : Type} {client : GHLApiClient W}.

(** The [try] block of the loop body either leaves the variables alone,
    or pushes the contact as inactive, or raises with the variables
    untouched. *)
Lemma logging_classify_cases days start c id v (x : Ext W) :
  (exists x', Logging.classifyContact days start c id v x = (Ret tt, v, x'))
  \/ (exists iso x',
        Logging.classifyContact days start c id v x
        = (Ret tt,
           ContactRun.pushInactive
             {| ic_contact := c; ic_daysInactive := days;
                ic_lastActivityDate := iso |} v, x'))
  \/ (exists e x',
        Logging.classifyContact days start c id v x = (Throw e, v, x')).
Proof.
  destruct (logging_check_cases id start v x) as [(r & x' & H)|(e & x' & H)].
  - assert (Hc :
      Logging.classifyContact days start c id v x
      = (if inactive r
         then bind (optionalISOString (check_lastActivityDate r))
                (fun iso =>
                   modify (ContactRun.pushInactive
                             {| ic_contact := c; ic_daysInactive := days;
                                ic_lastActivityDate := iso |}))
         else ret tt) v x').
    { unfold Logging.classifyContact. unfold bind at 1. rewrite H.
      reflexivity. }
    rewrite Hc. clear Hc.
    destruct (inactive r); [|left; eexists; reflexivity].
    destruct (check_lastActivityDate r) as [[t|]|]; simpl.
    + right; left. do 2 eexists. reflexivity.
    + right; right. do 2 eexists. reflexivity.
    + right; left. do 2 eexists. reflexivity.
  - right; right. exists e, x'. unfold Logging.classifyContact.
    unfold bind at 1. rewrite H. reflexivity.
Qed.

(** One turn of the loop when the [try] block raises. *)
Lemma logging_checkContact_throw days start c v (x : Ext W) e x' :
  Js.truthy (contact_id c) = true ->
  Logging.classifyContact days start c (Js.orElse (contact_id c) "")
    (ContactRun.count v) x
  = (Throw e, ContactRun.count v, x') ->
  Logging.checkContact days start c v x
  = (Ret tt, ContactRun.pushError (checkingError c e) (ContactRun.count v),
     x').
Proof.
  intros Hid H. unfold Logging.checkContact. rewrite Hid.
  cbv beta iota zeta delta [negb]. erewrite bind_ret_eq by reflexivity.
  erewrite tryCatch_throw_eq by exact H. reflexivity.
Qed.

(** One turn of the loop, whatever happens in it. *)
Lemma logging_checkContact_cases days start c v (x : Ext W) :
  exists v' x',
    Logging.checkContact days start c v x = (Ret tt, v', x')
    /\ ((Js.truthy (contact_id c) = false /\ v' = v)
        \/ (Js.truthy (contact_id c) = true
            /\ (v' = ContactRun.count v
                \/ (exists iso,
                      v' = ContactRun.pushInactive
                             {| ic_contact := c; ic_daysInactive := days;
                                ic_lastActivityDate := iso |}
                             (ContactRun.count v))
                \/ (exists e,
                      v' = ContactRun.pushError (checkingError c e)
                             (ContactRun.count v))))).
Proof.
  destruct (Js.truthy (contact_id c)) eqn:Hid.
  - assert (Hstep : forall r v1 x1,
      tryCatch
        (Logging.classifyContact days start c
           (Js.orElse (contact_id c) "")) 
        (fun error =>
           modify (ContactRun.pushError
                     ("Error checking contact "
                      ++ Js.orElse (contact_id c) "" ++ ": "
                      ++ errorText error)))
        (ContactRun.count v) x = (r, v1, x1) ->
      Logging.checkContact days start c v x = (r, v1, x1)).
    { intros r v1 x1 H. unfold Logging.checkContact. rewrite Hid.
      cbv beta iota zeta delta [negb].
      erewrite bind_ret_eq by reflexivity. exact H. }
    destruct (logging_classify_cases days start c
                (Js.orElse (contact_id c) "") (ContactRun.count v) x)
      as [(x' & H)|[(iso & x' & H)|(e & x' & H)]].
    + do 2 eexists. split.
      * apply Hstep. apply tryCatch_ret_eq. exact H.
      * auto.
    + do 2 eexists. split.
      * apply Hstep. apply tryCatch_ret_eq. exact H.
      * eauto 6.
    + do 2 eexists. split.
      * apply Hstep. erewrite tryCatch_throw_eq by exact H. reflexivity.
      * right. split; auto. right; right. exists e. reflexivity.
  - exists v, x. split; [|auto].
    unfold Logging.checkContact. rewrite Hid. reflexivity.
Qed.

(** The loop never raises and never runs on; it counts the contacts that
    have an id, and for each of them adds at most one entry to the inactive
    list or one message to the errors. *)
Lemma logging_check_loop days start cs v (x : Ext W) :
  exists v' x' flagged added,
    forEach (Logging.checkContact days start) cs v x = (Ret tt, v', x')
    /\ ContactRun.totalContactsChecked v'
       = ContactRun.totalContactsChecked v
         + Z.of_nat (List.length (withId cs))
    /\ ContactRun.inactiveContacts v'
       = (ContactRun.inactiveContacts v ++ flagged)%list
    /\ ContactRun.errors v' = (ContactRun.errors v ++ added)%list
    /\ (List.length flagged + List.length added
        <= List.length (withId cs))%nat
    /\ Forall (fun ic => In (ic_contact ic) (withId cs)
                         /\ ic_daysInactive ic = days) flagged
    /\ Forall (fun err => exists c e,
                            In c (withId cs) /\ err = checkingError c e)
              added.
Proof.
  revert v x. induction cs as [|c cs IH]; intros v x.
  - exists v, x, [], []. simpl. rewrite !app_nil_r.
    repeat split; auto; lia.
  - destruct (logging_checkContact_cases days start c v x)
      as (v1 & x1 & H1 & Hcases).
    destruct (IH v1 x1)
      as (v' & x' & fl & ad & H & Ht & Hi & He & Hn & Hf & Ha).
    assert (Hloop :
      forEach (Logging.checkContact days start) (c :: cs) v x
      = (Ret tt, v', x')).
    { simpl forEach. erewrite bind_ret_eq by exact H1. exact H. }
    rewrite Hloop. clear Hloop H H1.
    unfold withId in *. simpl filter.
    destruct Hcases as [[Hid ->]|[Hid Hv1]]; rewrite Hid.
    + exists v', x', fl, ad. repeat split; auto.
    + assert (Hmono :
        forall P : GHLContact -> Prop,
          (forall k, In k (filter (fun c => Js.truthy (contact_id c)) cs)
                     -> P k) ->
          forall k, In k (filter (fun c => Js.truthy (contact_id c)) cs)
                    -> P k) by auto.
      destruct Hv1 as [->|[[iso ->]|[e ->]]]; simpl in *.
      * exists v', x', fl, ad. repeat split; auto; try lia.
        -- eapply Forall_impl; [|exact Hf]. simpl. intros a [? ?]; auto.
        -- eapply Forall_impl; [|exact Ha]. simpl.
           intros a (k & e & ? & ?); eauto.
      * exists v', x',
          ({| ic_contact := c; ic_daysInactive := days;
              ic_lastActivityDate := iso |} :: fl), ad.
        repeat split; auto; try lia.
        -- rewrite Hi, <- app_assoc. reflexivity.
        -- simpl. lia.
        -- constructor; simpl; auto.
           eapply Forall_impl; [|exact Hf]. simpl. intros a [? ?]; auto.
        -- eapply Forall_impl; [|exact Ha]. simpl.
           intros a (k & e & ? & ?); eauto.
      * exists v', x', fl, (checkingError c e :: ad).
        repeat split; auto; try lia.
        -- rewrite He, <- app_assoc. reflexivity.
        -- simpl. lia.
        -- eapply Forall_impl; [|exact Hf]. simpl. intros a [? ?]; auto.
        -- constructor; simpl; eauto.
           eapply Forall_impl; [|exact Ha]. simpl.
           intros a (k & e' & ? & ?); eauto.
Qed.

End ContactLoop.

Section ErrorIsolation.
Context {host : JsHost} {W : Type} {client : GHLApiClient W}.

Lemma withId_app a b : withId (a ++ b) = (withId a ++ withId b)%list.
Proof. unfold withId. apply filter_app. Qed.

(** C9.  The loop over the fetched contacts on a list [pre ++ c :: post]
    in which the resolution of [c] raises [e]: the loop still ends without
    raising; it goes on over [post] from the variables in which [c] is
    counted and exactly one message, "Error checking contact <id>:
    <message>" with the id of [c], has been appended to the errors; the
    total checked grows by the number of contacts that have an id ([c]
    among them, those without one being passed over); and every contact of
    [post] adds at most one inactive entry or one message. *)
Theorem error_isolation days start pre c post e v (x : Ext W) v1 x1 x2 :
  Js.truthy (contact_id c) = true ->
  forEach (Logging.checkContact days start) pre v x = (Ret tt, v1, x1) ->
  Logging.classifyContact days start c (Js.orElse (contact_id c) "")
    (ContactRun.count v1) x1
  = (Throw e, ContactRun.count v1, x2) ->
  exists v' x' flagged added,
    forEach (Logging.checkContact days start) (pre ++ c :: post) v x
    = (Ret tt, v', x')
    /\ forEach (Logging.checkContact days start) post
         (ContactRun.pushError (checkingError c e) (ContactRun.count v1)) x2
       = (Ret tt, v', x')
    /\ checkingError c e
       = "Error checking contact " ++ Js.orElse (contact_id c) "" ++ ": "
         ++ errorText e
    /\ ContactRun.totalContactsChecked v'
       = ContactRun.totalContactsChecked v
         + Z.of_nat (List.length (withId (pre ++ c :: post)))
    /\ ContactRun.errors v'
       = (ContactRun.errors v1 ++ [checkingError c e] ++ added)%list
    /\ ContactRun.inactiveContacts v'
       = (ContactRun.inactiveContacts v1 ++ flagged)%list
    /\ (List.length flagged + List.length added
        <= List.length (withId post))%nat.
Proof.
  intros Hid Hpre Hthrow.
  destruct (logging_check_loop days start pre v x)
    as (v1' & x1' & fl0 & ad0 & Hrun0 & Ht0 & _).
  rewrite Hpre in Hrun0. inversion Hrun0; subst v1' x1'; clear Hrun0.
  destruct (logging_check_loop days start post
              (ContactRun.pushError (checkingError c e)
                 (ContactRun.count v1)) x2)
    as (v' & x' & fl & ad & Hrun & Ht & Hi & He & Hn & _).
  exists v', x', fl, ad.
  assert (Hwhole :
    forEach (Logging.checkContact days start) (pre ++ c :: post) v x
    = (Ret tt, v', x')).
  { rewrite forEach_app. erewrite bind_ret_eq by exact Hpre.
    simpl forEach.
    erewrite bind_ret_eq
      by (apply logging_checkContact_throw; [exact Hid | exact Hthrow]).
    exact Hrun. }
  repeat split; auto.
  - rewrite Ht, withId_app. simpl ContactRun.totalContactsChecked.
    rewrite Ht0, length_app.
    assert (Hc : withId (c :: post) = c :: withId post).
    { unfold withId. simpl filter. now rewrite Hid. }
    rewrite Hc. simpl List.length. lia.
  - rewrite He. simpl ContactRun.errors. now rewrite <- app_assoc.
Qed.

End ErrorIsolation.

(** ** Pagination of the contacts *)

Section ContactPages.
Context {host : JsHost} {W : Type} {client : GHLApiClient W}.

(** One turn of the [while (true)] loop. *)
Lemma logging_fetch_unfold f cs sa pc v (x : Ext W) :
  Logging.fetchContacts (S f) cs sa pc v x
  = match searchContacts (contactsRequest sa) (world x) with
    | (Rejected e, w') =>
        (Throw e, v, after x (SearchContacts (contactsRequest sa)) w')
    | (Resolved r, w') =>
        let x1 := after x (SearchContacts (contactsRequest sa)) w' in
        if negb (success r) then
          (Throw (ErrorObject
                    (Js.orElse (optional (error r) error_message)
                               "Failed to search contacts")), v, x1)
        else
          let batch := orEmpty (optional (data r) data_contacts) in
          let acc := (cs ++ batch)%list in
          if (Z.of_nat (List.length batch) <? 100)
             || negb (present (optional (data r) data_searchAfter))
          then (Ret acc, v, x1)
          else if 50000 <? Z.of_nat (List.length acc)
               then (Ret acc,
                     ContactRun.pushError
                       "Too many contacts, stopping at 50000" v, x1)
               else Logging.fetchContacts f acc
                      (optional (data r) data_searchAfter) (pc + 1) v x1
    end.
Proof.
  simpl Logging.fetchContacts. fold (contactsRequest sa).
  unfold bind at 1. unfold await, after.
  destruct (searchContacts (contactsRequest sa) (world x)) as [[r|e] w'];
    [|reflexivity].
  cbv zeta. destruct (success r); simpl negb; cbv iota; [|reflexivity].
  destruct ((Z.of_nat (List.length (orEmpty (optional (data r) data_contacts)))
             <? 100)
            || negb (present (optional (data r) data_searchAfter)));
    [reflexivity|].
  destruct (50000 <? _); reflexivity.
Qed.

(** Every turn makes a call, and the loop makes no other calls than contact
    searches. *)
Lemma logging_fetch_calls fuel cs sa pc v (x : Ext W) :
  exists more,
    calls (snd (Logging.fetchContacts fuel cs sa pc v x))
    = (calls x ++ more)%list
    /\ (fuel <> O -> more <> [])
    /\ contactSearches more = more.
Proof.
  revert cs sa pc v x. induction fuel as [|f IH]; intros cs sa pc v x.
  - exists []. simpl. rewrite app_nil_r. repeat split; auto.
  - rewrite logging_fetch_unfold.
    destruct (searchContacts (contactsRequest sa) (world x)) as [[r|e] w'].
    + cbv zeta.
      destruct (negb (success r));
        [exists [SearchContacts (contactsRequest sa)];
         repeat split; auto; discriminate|].
      destruct (_ || _);
        [exists [SearchContacts (contactsRequest sa)];
         repeat split; auto; discriminate|].
      destruct (50000 <? _);
        [exists [SearchContacts (contactsRequest sa)];
         repeat split; auto; discriminate|].
      destruct (IH (cs ++ orEmpty (optional (data r) data_contacts))%list
                   (optional (data r) data_searchAfter) (pc + 1) v
                   (after x (SearchContacts (contactsRequest sa)) w'))
        as (more & Hm & _ & Hs).
      exists (SearchContacts (contactsRequest sa) :: more).
      rewrite Hm. simpl calls. rewrite <- app_assoc. simpl.
      repeat split; auto; try discriminate. now rewrite Hs.
    + exists [SearchContacts (contactsRequest sa)].
      repeat split; auto; discriminate.
Qed.

(** The safety cap bounds the loop: it always leaves within 501 turns. *)
Lemma logging_fetch_total fuel cs sa pc v (x : Ext W) :
  Z.of_nat (List.length cs) <= 50000 ->
  50000 < Z.of_nat (List.length cs) + 100 * Z.of_nat fuel ->
  fst (fst (Logging.fetchContacts fuel cs sa pc v x)) <> Timeout.
Proof.
  revert cs sa pc v x. induction fuel as [|f IH]; intros cs sa pc v x Hle Hgt.
  - simpl in Hgt. lia.
  - rewrite logging_fetch_unfold.
    destruct (searchContacts (contactsRequest sa) (world x)) as [[r|e] w'];
      [|discriminate].
    cbv zeta. destruct (negb (success r)); [discriminate|].
    destruct (Z.ltb_spec
                (Z.of_nat (List.length
                             (orEmpty (optional (data r) data_contacts))))
                100); simpl orb; cbv iota; [discriminate|].
    destruct (negb (present _)); [discriminate|].
    destruct (Z.ltb_spec 50000
                (Z.of_nat (List.length
                   (cs ++ orEmpty (optional (data r) data_contacts)))));
      [discriminate|].
    apply IH; [assumption|].
    rewrite length_app in *. lia.
Qed.

(** The loop raises only with the variables as it found them, and returns
    with them unchanged or with the advisory appended. *)
Lemma logging_fetch_vars fuel cs sa pc v (x : Ext W) :
  match Logging.fetchContacts fuel cs sa pc v x with
  | (Ret _, v', _) =>
      v' = v
      \/ v' = ContactRun.pushError "Too many contacts, stopping at 50000" v
  | (_, v', _) => v' = v
  end.
Proof.
  revert cs sa pc v x. induction fuel as [|f IH]; intros cs sa pc v x.
  - reflexivity.
  - rewrite logging_fetch_unfold.
    destruct (searchContacts (contactsRequest sa) (world x)) as [[r|e] w'];
      [|reflexivity].
    cbv zeta. destruct (negb (success r)); [reflexivity|].
    destruct (_ || _); [now left|].
    destruct (50000 <? _); [now right|]. apply IH.
Qed.

End ContactPages.

Section ContactContinuation.
Context {host : JsHost} {W : Type} {client : GHLApiClient W}.

(** C5 (amended).  After a successful response the contact paginator
    fetches a further page exactly when the page held at least 100
    contacts, the response carried a cursor, and the contacts accumulated
    so far do not exceed the safety cap of 50000.  Fed pages of 100, 100
    and 37 contacts, the first two with a cursor, it stops after exactly
    three fetches with the 237 contacts in order. *)
Theorem contact_continuation :
  (forall f cs sa pc v (x : Ext W) r w',
     searchContacts (contactsRequest sa) (world x) = (Resolved r, w') ->
     success r = true ->
     let batch := orEmpty (optional (data r) data_contacts) in
     let run := Logging.fetchContacts (S (S f)) cs sa pc v x in
     (List.length (calls x) + 1 < List.length (calls (snd run)))%nat
     <-> (100 <= Z.of_nat (List.length batch)
          /\ present (optional (data r) data_searchAfter) = true
          /\ Z.of_nat (List.length (cs ++ batch)) <= 50000))
  /\ (forall fuel v (x : Ext W) r1 w1 c1 r2 w2 c2 r3 w3,
        (3 <= fuel)%nat ->
        searchContacts (contactsRequest None) (world x)
        = (Resolved r1, w1) ->
        success r1 = true ->
        List.length (orEmpty (optional (data r1) data_contacts)) = 100%nat ->
        optional (data r1) data_searchAfter = Some c1 ->
        searchContacts (contactsRequest (Some c1)) w1 = (Resolved r2, w2) ->
        success r2 = true ->
        List.length (orEmpty (optional (data r2) data_contacts)) = 100%nat ->
        optional (data r2) data_searchAfter = Some c2 ->
        searchContacts (contactsRequest (Some c2)) w2 = (Resolved r3, w3) ->
        success r3 = true ->
        List.length (orEmpty (optional (data r3) data_contacts)) = 37%nat ->
        let all :=
          (orEmpty (optional (data r1) data_contacts)
           ++ orEmpty (optional (data r2) data_contacts)
           ++ orEmpty (optional (data r3) data_contacts))%list in
        Logging.fetchContacts fuel [] None 0 v x
        = (Ret all, v,
           {| world := w3;
              calls :=
                (calls x
                 ++ [SearchContacts (contactsRequest None);
                     SearchContacts (contactsRequest (Some c1));
                     SearchContacts (contactsRequest (Some c2))])%list |})
        /\ List.length all = 237%nat).
Proof.
  split.
  - intros f cs sa pc v x r w' Hcall Hok batch run. subst run.
    rewrite logging_fetch_unfold, Hcall, Hok. cbv zeta.
    simpl negb. cbv iota. fold batch.
    destruct (Z.ltb_spec (Z.of_nat (List.length batch)) 100) as [Hlt|Hge];
      simpl orb; cbv iota.
    { simpl. rewrite length_app. simpl.
      split; [intro; exfalso; lia|]. intros (? & _). lia. }
    destruct (present (optional (data r) data_searchAfter)) eqn:Hcur;
      simpl negb; cbv iota.
    2:{ simpl. rewrite length_app. simpl. split; [intro; exfalso; lia|].
        intros (_ & ? & _). discriminate. }
    destruct (Z.ltb_spec 50000 (Z.of_nat (List.length (cs ++ batch))))
      as [Hcap|Hcap].
    { simpl. rewrite length_app. simpl. split; [intro; exfalso; lia|].
      intros (_ & _ & ?). lia. }
    destruct (logging_fetch_calls (S f) (cs ++ batch)
                (optional (data r) data_searchAfter) (pc + 1) v
                (after x (SearchContacts (contactsRequest sa)) w'))
      as (more & Hm & Hne & _).
    rewrite Hm. simpl calls. rewrite !length_app. simpl List.length.
    rewrite length_app in Hcap.
    split; intros _.
    + repeat split; auto; lia.
    + destruct more as [|c more]; [exfalso; now apply Hne|]. simpl. lia.
  - intros fuel v x r1 w1 c1 r2 w2 c2 r3 w3 Hfuel
      H1 S1 L1 C1 H2 S2 L2 C2 H3 S3 L3 all.
    destruct fuel as [|[|[|f]]]; try lia.
    split.
    + rewrite logging_fetch_unfold, H1. cbv beta iota zeta.
      rewrite S1, C1, L1. simpl app.
      change (present (Some c1)) with true.
      change (Z.of_nat 100 <? 100) with false.
      simpl negb. simpl orb. cbv iota. rewrite L1.
      change (50000 <? Z.of_nat 100) with false. cbv iota.
      rewrite logging_fetch_unfold. simpl world.
      rewrite H2. cbv beta iota zeta.
      rewrite S2, C2, L2, length_app, L1, L2.
      change (present (Some c2)) with true.
      change (Z.of_nat 100 <? 100) with false.
      change (50000 <? Z.of_nat (100 + 100)) with false.
      simpl negb. simpl orb. cbv iota.
      rewrite logging_fetch_unfold. simpl world.
      rewrite H3. cbv beta iota zeta.
      rewrite S3, L3.
      change (Z.of_nat 37 <? 100) with true.
      simpl negb. simpl orb. cbv iota.
      unfold after, all. simpl calls. rewrite <- !app_assoc. reflexivity.
    + unfold all. rewrite !length_app, L1, L2, L3. reflexivity.
Qed.

End ContactContinuation.

(** ** The contact detector as a whole *)

Section ContactDetector.
Context {host : JsHost} {W : Type} {client : GHLApiClient W}.

(** With a valid threshold date, the detector is its pagination followed
    by its loop, and whatever is raised on the way ends in the report. *)
Lemma logging_detect_eval {L} fuel now days s (l : L) (x : Ext W) :
  thresholdDate now days = TimeValue s ->
  Logging.detectContactsInactivity fuel now
    {| dc_inactivityDays := days |} l x
  = match Logging.fetchContacts fuel [] None 0 ContactRun.start x with
    | (Ret cs, v1, x1) =>
        match forEach (Logging.checkContact days (TimeValue s)) cs v1 x1
        with
        | (Ret _, v2, x2) => (Ret (ContactRun.report days v2), l, x2)
        | (Throw e, v2, x2) =>
            (Ret (ContactRun.report days
                    (ContactRun.pushError
                       ("Error fetching contacts: " ++ errorText e) v2)),
             l, x2)
        | (Timeout, _, x2) => (Timeout, l, x2)
        end
    | (Throw e, v1, x1) =>
        (Ret (ContactRun.report days
                (ContactRun.pushError
                   ("Error fetching contacts: " ++ errorText e) v1)),
         l, x1)
    | (Timeout, _, x1) => (Timeout, l, x1)
    end.
Proof.
  intro Hs. unfold Logging.detectContactsInactivity, invoke.
  cbv beta zeta. simpl dc_inactivityDays. rewrite Hs.
  unfold_monad. simpl.
  destruct (Logging.fetchContacts fuel [] None 0 ContactRun.start x)
    as [[[cs|e|] v1] x1]; try reflexivity.
  destruct (forEach (Logging.checkContact days (TimeValue s)) cs v1 x1)
    as [[[u|e|] v2] x2]; reflexivity.
Qed.

(** With an invalid threshold date the narrating version raises before its
    [try]. *)
Lemma logging_detect_invalid {L} fuel now days (l : L) (x : Ext W) :
  thresholdDate now days = InvalidDate ->
  Logging.detectContactsInactivity fuel now
    {| dc_inactivityDays := days |} l x
  = (Throw (ErrorObject "Invalid time value"), l, x).
Proof.
  intro Hs. unfold Logging.detectContactsInactivity, invoke.
  cbv beta zeta. simpl dc_inactivityDays. rewrite Hs. reflexivity.
Qed.

(** The detector always returns a report: 501 turns of the pagination
    loop are enough whatever the backend does, and nothing raises past the
    outer [try]. *)
Lemma logging_detect_returns {L} fuel now days s (l : L) (x : Ext W) :
  thresholdDate now days = TimeValue s ->
  (501 <= fuel)%nat ->
  exists report x',
    Logging.detectContactsInactivity fuel now
      {| dc_inactivityDays := days |} l x
    = (Ret report, l, x')
    /\ ContactsReport.inactivityThresholdDays report = days
    /\ ContactsReport.inactiveCount report
       = Z.of_nat (List.length (ContactsReport.inactiveContacts report)).
Proof.
  intros Hs Hfuel. erewrite logging_detect_eval by exact Hs.
  pose proof (logging_fetch_total fuel [] None 0 ContactRun.start x)
    as Htot.
  destruct (Logging.fetchContacts fuel [] None 0 ContactRun.start x)
    as [[[cs|e|] v1] x1].
  - destruct (logging_check_loop days (TimeValue s) cs v1 x1)
      as (v' & x' & fl & ad & Hrun & _).
    rewrite Hrun. do 2 eexists. repeat split.
  - do 2 eexists. repeat split.
  - exfalso. apply Htot; [simpl; lia | simpl List.length; lia | reflexivity].
Qed.

(** An endless supply of full pages: the loop leaves at the cap, [m] turns
    after holding [50100 - 100 * m] contacts. *)
Lemma logging_fetch_endless m :
  fullContactPages ->
  forall fuel cs sa pc v (x : Ext W),
    (1 <= m)%nat -> (m <= fuel)%nat ->
    Z.of_nat (List.length cs) + 100 * Z.of_nat m = 50100 ->
    exists acc x',
      Logging.fetchContacts fuel cs sa pc v x
      = (Ret acc,
         ContactRun.pushError "Too many contacts, stopping at 50000" v, x')
      /\ Z.of_nat (List.length acc) = 50100
      /\ List.length (calls x') = (List.length (calls x) + m)%nat.
Proof.
  intro Hfull. induction m as [|m IH]; intros fuel cs sa pc v x Hm Hf Hlen.
  - lia.
  - destruct fuel as [|f]; [lia|].
    destruct (Hfull (contactsRequest sa) (world x))
      as (r & w' & Hcall & Hok & Hbatch & Hcur).
    rewrite logging_fetch_unfold, Hcall. cbv beta iota zeta.
    rewrite Hok, Hcur, Hbatch, length_app, Hbatch.
    change (Z.of_nat 100 <? 100) with false.
    simpl negb. simpl orb. cbv iota.
    destruct m as [|m'].
    + assert (Hcap : (50000 <? Z.of_nat (List.length cs + 100)) = true)
        by (apply Z.ltb_lt; lia).
      rewrite Hcap. do 2 eexists. repeat split.
      * rewrite length_app, Hbatch. lia.
      * unfold after. simpl. rewrite length_app. simpl. lia.
    + assert (Hcap : (50000 <? Z.of_nat (List.length cs + 100)) = false)
        by (apply Z.ltb_ge; lia).
      rewrite Hcap.
      destruct (IH f (cs ++ orEmpty (optional (data r) data_contacts))%list
                  (optional (data r) data_searchAfter) (pc + 1) v
                  (after x (SearchContacts (contactsRequest sa)) w'))
        as (acc & x' & Hrun & Hacc & Hcalls);
        [lia | lia | rewrite length_app, Hbatch; lia |].
      exists acc, x'. repeat split; auto.
      rewrite Hcalls. unfold after. simpl. rewrite length_app. simpl. lia.
Qed.

(** The loop raises exactly the failure of its last call: a rejected
    promise, or a response that says it did not succeed. *)
Lemma logging_fetch_throw_inv fuel cs sa pc v (x : Ext W) e v' x' :
  Logging.fetchContacts fuel cs sa pc v x = (Throw e, v', x') ->
  exists p w w',
    x' = {| world := w'; calls := calls x' |}
    /\ last (calls x') (SearchContacts p) = SearchContacts p
    /\ (searchContacts p w = (Rejected e, w')
        \/ exists r,
             searchContacts p w = (Resolved r, w')
             /\ success r = false
             /\ e = ErrorObject
                      (Js.orElse (optional (error r) error_message)
                                 "Failed to search contacts")).
Proof.
  revert cs sa pc v x. induction fuel as [|f IH]; intros cs sa pc v x.
  - discriminate.
  - rewrite logging_fetch_unfold.
    destruct (searchContacts (contactsRequest sa) (world x))
      as [[r|e0] w'] eqn:Hcall.
    + cbv zeta. destruct (success r) eqn:Hok; simpl negb; cbv iota.
      * destruct (_ || _); [discriminate|].
        destruct (50000 <? _); [discriminate|]. apply IH.
      * intro H; inversion H; subst.
        exists (contactsRequest sa), (world x), w'. repeat split.
        -- unfold after. simpl. now rewrite last_last.
        -- right. exists r. auto.
    + intro H; inversion H; subst.
      exists (contactsRequest sa), (world x), w'. repeat split.
      * unfold after. simpl. now rewrite last_last.
      * now left.
Qed.

End ContactDetector.

(** ** The opportunity detector *)

Section OpportunityDetector.
Context {host : JsHost} {W : Type} {client : GHLApiClient W}.

(** One turn of the [while (true)] loop. *)
Lemma logging_opportunities_unfold f stage os sa sid pc v (x : Ext W) :
  Logging.fetchOpportunities (S f) stage os sa sid pc v x
  = let request := opportunitiesRequest stage sa sid in
    match searchOpportunities request (world x) with
    | (Rejected e, w') =>
        (Throw e, v, after x (SearchOpportunities request) w')
    | (Resolved r, w') =>
        let x1 := after x (SearchOpportunities request) w' in
        if negb (success r) then
          (Throw (ErrorObject
                    (Js.orElse (optional (error r) error_message)
                               "Failed to search opportunities")), v, x1)
        else
          let batch := orEmpty (optional (data r) data_opportunities) in
          let acc := (os ++ batch)%list in
          let meta := optional (data r) data_meta in
          if negb (Js.truthy (optional meta meta_nextPageUrl))
          then (Ret acc, v, x1)
          else if 10000 <? Z.of_nat (List.length acc)
               then (Ret acc,
                     OpportunityRun.pushError
                       "Too many opportunities, stopping at 10000" v, x1)
               else Logging.fetchOpportunities f stage acc
                      (nextStartAfter meta)
                      (Js.orElse (optional meta meta_startAfterId) "")
                      (pc + 1) v x1
    end.
Proof.
  unfold opportunitiesRequest, nextStartAfter. simpl.
  unfold bind at 1. unfold await, after. simpl.
  destruct (searchOpportunities _ (world x)) as [[r|e] w']; [|reflexivity].
  destruct (success r); simpl negb; cbv iota; [|reflexivity].
  destruct (Js.truthy
              (optional (optional (data r) data_meta) meta_nextPageUrl));
    simpl negb; cbv iota; [|reflexivity].
  destruct (10000 <? _); reflexivity.
Qed.

Lemma logging_opportunities_calls fuel stage os sa sid pc v (x : Ext W) :
  exists more,
    calls (snd (Logging.fetchOpportunities fuel stage os sa sid pc v x))
    = (calls x ++ more)%list
    /\ (fuel <> O -> more <> []).
Proof.
  revert os sa sid pc v x.
  induction fuel as [|f IH]; intros os sa sid pc v x.
  - exists []. simpl. rewrite app_nil_r. split; auto.
  - rewrite logging_opportunities_unfold. cbv zeta.
    set (request := opportunitiesRequest stage sa sid).
    destruct (searchOpportunities request (world x)) as [[r|e] w'].
    + destruct (negb (success r));
        [exists [SearchOpportunities request]; split; auto; discriminate|].
      destruct (negb (Js.truthy _));
        [exists [SearchOpportunities request]; split; auto; discriminate|].
      destruct (10000 <? _);
        [exists [SearchOpportunities request]; split; auto; discriminate|].
      match goal with
      | |- context [Logging.fetchOpportunities f stage ?a ?b ?c ?d v ?y] =>
          destruct (IH a b c d v y) as (more & Hm & _)
      end.
      exists (SearchOpportunities request :: more).
      rewrite Hm. simpl calls. rewrite <- app_assoc. simpl.
      split; auto; discriminate.
    + exists [SearchOpportunities request]. split; auto; discriminate.
Qed.

Lemma logging_opportunities_vars fuel stage os sa sid pc v (x : Ext W) :
  match Logging.fetchOpportunities fuel stage os sa sid pc v x with
  | (Ret _, v', _) =>
      v' = v
      \/ v' = OpportunityRun.pushError
                "Too many opportunities, stopping at 10000" v
  | (_, v', _) => v' = v
  end.
Proof.
  revert os sa sid pc v x.
  induction fuel as [|f IH]; intros os sa sid pc v x.
  - reflexivity.
  - rewrite logging_opportunities_unfold. cbv zeta.
    destruct (searchOpportunities _ (world x)) as [[r|e] w'];
      [|reflexivity].
    destruct (negb (success r)); [reflexivity|].
    destruct (negb (Js.truthy _)); [now left|].
    destruct (10000 <? _); [now right|]. apply IH.
Qed.

Lemma logging_opportunities_throw_inv fuel stage os sa sid pc v (x : Ext W)
    e v' x' :
  Logging.fetchOpportunities fuel stage os sa sid pc v x
  = (Throw e, v', x') ->
  exists p w w',
    x' = {| world := w'; calls := calls x' |}
    /\ last (calls x') (SearchOpportunities p) = SearchOpportunities p
    /\ (searchOpportunities p w = (Rejected e, w')
        \/ exists r,
             searchOpportunities p w = (Resolved r, w')
             /\ success r = false
             /\ e = ErrorObject
                      (Js.orElse (optional (error r) error_message)
                                 "Failed to search opportunities")).
Proof.
  revert os sa sid pc v x.
  induction fuel as [|f IH]; intros os sa sid pc v x.
  - discriminate.
  - rewrite logging_opportunities_unfold. cbv zeta.
    set (request := opportunitiesRequest stage sa sid).
    destruct (searchOpportunities request (world x))
      as [[r|e0] w'] eqn:Hcall.
    + destruct (success r) eqn:Hok; simpl negb; cbv iota.
      * destruct (negb (Js.truthy _)); [discriminate|].
        destruct (10000 <? _); [discriminate|]. apply IH.
      * intro H; inversion H; subst.
        exists request, (world x), w'. repeat split.
        -- unfold after. simpl. now rewrite last_last.
        -- right. exists r. auto.
    + intro H; inversion H; subst.
      exists request, (world x), w'. repeat split.
      * unfold after. simpl. now rewrite last_last.
      * now left.
Qed.

(** An endless supply of full pages with a next-page pointer: the loop
    leaves at the cap, [m] turns after holding [10100 - 100 * m]
    opportunities. *)
Lemma logging_opportunities_endless m :
  fullOpportunityPages ->
  forall fuel stage os sa sid pc v (x : Ext W),
    (1 <= m)%nat -> (m <= fuel)%nat ->
    Z.of_nat (List.length os) + 100 * Z.of_nat m = 10100 ->
    exists acc x',
      Logging.fetchOpportunities fuel stage os sa sid pc v x
      = (Ret acc,
         OpportunityRun.pushError
           "Too many opportunities, stopping at 10000" v, x')
      /\ Z.of_nat (List.length acc) = 10100
      /\ List.length (calls x') = (List.length (calls x) + m)%nat.
Proof.
  intro Hfull.
  induction m as [|m IH]; intros fuel stage os sa sid pc v x Hm Hf Hlen.
  - lia.
  - destruct fuel as [|f]; [lia|].
    destruct (Hfull (opportunitiesRequest stage sa sid) (world x))
      as (r & w' & Hcall & Hok & Hbatch & Hnext).
    rewrite logging_opportunities_unfold. cbv zeta. rewrite Hcall.
    cbv beta iota zeta.
    rewrite Hok, Hnext, length_app, Hbatch.
    simpl negb. cbv iota.
    destruct m as [|m'].
    + assert (Hcap : (10000 <? Z.of_nat (List.length os + 100)) = true)
        by (apply Z.ltb_lt; lia).
      rewrite Hcap. do 2 eexists. repeat split.
      * rewrite length_app, Hbatch. lia.
      * unfold after. simpl. rewrite length_app. simpl. lia.
    + assert (Hcap : (10000 <? Z.of_nat (List.length os + 100)) = false)
        by (apply Z.ltb_ge; lia).
      rewrite Hcap.
      match goal with
      | |- context [Logging.fetchOpportunities f stage ?a ?b ?c ?d v ?y] =>
          destruct (IH f stage a b c d v y)
            as (acc & x' & Hrun & Hacc & Hcalls);
            [lia | lia | rewrite length_app, Hbatch; lia |]
      end.
      exists acc, x'. repeat split; auto.
      rewrite Hcalls. unfold after. simpl. rewrite length_app. simpl. lia.
Qed.

(** The [try] block of the loop over the opportunities never raises: an
    invalid date is never the one rendered. *)
Lemma logging_classifyOpportunity_cases days start o v (x : Ext W) :
  Logging.classifyOpportunity days start o v x = (Ret tt, v, x)
  \/ exists iso,
       Logging.classifyOpportunity days start o v x
       = (Ret tt,
          OpportunityRun.pushInactive
            {| io_opportunity := o; io_daysInactive := days;
               io_lastActivityDate := iso |} v, x).
Proof.
  unfold Logging.classifyOpportunity, opportunityIsInactive.
  destruct (opportunityLastActivity o) as [[t|]|]; simpl.
  - destruct start as [s|]; simpl; [|now left].
    destruct (t <? s); [right; eexists; reflexivity | now left].
  - now left.
  - right. eexists. reflexivity.
Qed.

Lemma logging_opportunity_loop days start os v (x : Ext W) :
  exists v',
    forEach (Logging.checkOpportunity days start) os v x = (Ret tt, v', x)
    /\ OpportunityRun.totalOpportunitiesChecked v'
       = OpportunityRun.totalOpportunitiesChecked v
         + Z.of_nat (List.length (withOpportunityId os))
    /\ OpportunityRun.errors v' = OpportunityRun.errors v.
Proof.
  revert v. induction os as [|o os IH]; intro v.
  - exists v. simpl. repeat split; auto; lia.
  - assert (Hstep : exists v1,
      Logging.checkOpportunity days start o v x = (Ret tt, v1, x)
      /\ OpportunityRun.totalOpportunitiesChecked v1
         = OpportunityRun.totalOpportunitiesChecked v
           + (if Js.truthy (opportunity_id o) then 1 else 0)
      /\ OpportunityRun.errors v1 = OpportunityRun.errors v).
    { unfold Logging.checkOpportunity.
      destruct (Js.truthy (opportunity_id o)); cbv beta iota zeta delta [negb].
      - unfold bind at 1. unfold modify at 1. unfold tryCatch.
        destruct (logging_classifyOpportunity_cases days start o
                    (OpportunityRun.count v) x) as [H|[iso H]];
          rewrite H; eexists; repeat split.
      - exists v. repeat split; lia. }
    destruct Hstep as (v1 & H1 & Ht1 & He1).
    destruct (IH v1) as (v' & H & Ht & He).
    exists v'. simpl forEach. unfold bind at 1. rewrite H1.
    split; [exact H|]. rewrite Ht, Ht1, He, He1.
    unfold withOpportunityId. simpl filter.
    destruct (Js.truthy (opportunity_id o)); simpl List.length;
      split; auto; lia.
Qed.

Lemma logging_detectOpportunities_eval {L} fuel now days stage s (l : L)
    (x : Ext W) :
  thresholdDate now days = TimeValue s ->
  Logging.detectOpportunitiesInactivity fuel now
    {| do_inactivityDays := days; do_pipelineStageId := stage |} l x
  = match Logging.fetchOpportunities fuel stage [] None "" 0
            OpportunityRun.start x with
    | (Ret os, v1, x1) =>
        match forEach (Logging.checkOpportunity days (TimeValue s)) os v1 x1
        with
        | (Ret _, v2, x2) => (Ret (OpportunityRun.report days v2), l, x2)
        | (Throw e, v2, x2) =>
            (Ret (OpportunityRun.report days
                    (OpportunityRun.pushError
                       ("Error fetching opportunities: " ++ errorText e)
                       v2)),
             l, x2)
        | (Timeout, _, x2) => (Timeout, l, x2)
        end
    | (Throw e, v1, x1) =>
        (Ret (OpportunityRun.report days
                (OpportunityRun.pushError
                   ("Error fetching opportunities: " ++ errorText e) v1)),
         l, x1)
    | (Timeout, _, x1) => (Timeout, l, x1)
    end.
Proof.
  intro Hs. unfold Logging.detectOpportunitiesInactivity, invoke.
  cbv beta zeta. simpl do_inactivityDays. simpl do_pipelineStageId.
  rewrite Hs. unfold_monad. simpl.
  destruct (Logging.fetchOpportunities fuel stage [] None "" 0
              OpportunityRun.start x) as [[[os|e|] v1] x1]; try reflexivity.
  destruct (forEach (Logging.checkOpportunity days (TimeValue s)) os v1 x1)
    as [[[u|e|] v2] x2]; reflexivity.
Qed.

End OpportunityDetector.

(** ** Pagination and its failures: the statements *)

Section PaginationTheorems.
Context {host : JsHost} {W : Type} {client : GHLApiClient W}.

(** C4 (amended).  In detectOpportunitiesInactivity as it stands (the
    version that narrates), after a successful response a further page is
    fetched exactly when the metadata carries a truthy [nextPageUrl] and
    the opportunities accumulated so far do not exceed the safety cap of
    10000; [nextPage] and [currentPage] take no part in the decision:
    without a [nextPageUrl] the loop leaves at once, whatever they say. *)
Theorem opportunity_continuation f stage os sa sid pc v (x : Ext W) r w' :
  searchOpportunities (opportunitiesRequest stage sa sid) (world x)
  = (Resolved r, w') ->
  success r = true ->
  let meta := optional (data r) data_meta in
  let acc := (os ++ orEmpty (optional (data r) data_opportunities))%list in
  let run := Logging.fetchOpportunities (S (S f)) stage os sa sid pc v x in
  ((List.length (calls x) + 1 < List.length (calls (snd run)))%nat
   <-> (Js.truthy (optional meta meta_nextPageUrl) = true
        /\ Z.of_nat (List.length acc) <= 10000))
  /\ (Js.truthy (optional meta meta_nextPageUrl) = false ->
      run = (Ret acc, v,
             after x (SearchOpportunities (opportunitiesRequest stage sa sid))
                   w')).
Proof.
  intros Hcall Hok meta acc run. subst run.
  rewrite logging_opportunities_unfold. cbv zeta. rewrite Hcall.
  cbv beta iota zeta. rewrite Hok. simpl negb. cbv iota.
  fold meta. fold acc.
  destruct (Js.truthy (optional meta meta_nextPageUrl)) eqn:Hnext;
    simpl negb; cbv iota.
  - split; [|discriminate].
    destruct (Z.ltb_spec 10000 (Z.of_nat (List.length acc))) as [Hcap|Hcap].
    + simpl. rewrite length_app. simpl.
      split; [intro; exfalso; lia | intros (_ & ?); lia].
    + match goal with
      | |- context [Logging.fetchOpportunities (S f) stage ?a ?b ?c ?d v ?y]
        => destruct (logging_opportunities_calls (S f) stage a b c d v y)
             as (more & Hm & Hne)
      end.
      rewrite Hm. simpl calls. rewrite !length_app. simpl List.length.
      split; intros _.
      * split; auto.
      * destruct more as [|c more]; [exfalso; now apply Hne|]. simpl. lia.
  - split; [|reflexivity].
    simpl. rewrite length_app. simpl.
    split; [intro; exfalso; lia | intros (? & _); discriminate].
Qed.

(** Over pages that are followed and stay within the cap, the loop takes
    one turn per page. *)
Lemma logging_fetch_pages pages :
  forall sa w sa' w',
    ContactPages sa w pages sa' w' ->
    forall f cs pc v (x : Ext W),
      world x = w ->
      forallb contactPageFollowed pages = true ->
      Z.of_nat (List.length (cs ++ contactsOfPages pages)) <= 50000 ->
      exists x',
        Logging.fetchContacts (List.length pages + f) cs sa pc v x
        = Logging.fetchContacts f (cs ++ contactsOfPages pages)%list sa'
            (pc + Z.of_nat (List.length pages)) v x'
        /\ world x' = w'
        /\ List.length (calls x')
           = (List.length (calls x) + List.length pages)%nat.
Proof.
  induction 1 as [sa w|sa w r w1 rest sa' w' Hr Hrest IH];
    intros f cs pc v x Hw Hall Hcap.
  - exists x. simpl. rewrite app_nil_r, Z.add_0_r, Nat.add_0_r. auto.
  - subst w. simpl in Hall. apply andb_prop in Hall.
    destruct Hall as [Hpage Hall]. unfold contactPageFollowed in Hpage.
    rewrite !andb_true_iff in Hpage. destruct Hpage as [[Hok Hfull] Hcur].
    simpl List.length. simpl Nat.add. rewrite logging_fetch_unfold, Hr.
    cbv zeta. rewrite Hok, Hcur. simpl negb. cbv iota.
    apply Z.leb_le in Hfull.
    replace (Z.of_nat _ <? 100) with false
      by (symmetry; apply Z.ltb_ge; exact Hfull).
    simpl orb. cbv iota.
    unfold contactsOfPages in Hcap. simpl flat_map in Hcap.
    fold (contactsOfPages rest) in Hcap. rewrite app_assoc in Hcap.
    replace (50000 <? _) with false
      by (symmetry; apply Z.ltb_ge; rewrite length_app in Hcap;
          rewrite Nat2Z.inj_add in Hcap; lia).
    destruct (IH f (cs ++ orEmpty (optional (data r) data_contacts))%list
                (pc + 1) v
                (after x (SearchContacts (contactsRequest sa)) w1)
                eq_refl Hall Hcap)
      as (x' & Hrun & Hw' & Hcalls).
    exists x'. split; [|split; [exact Hw'|]].
    + rewrite Hrun. unfold contactsOfPages. simpl flat_map.
      rewrite app_assoc. f_equal. lia.
    + rewrite Hcalls. unfold after. simpl. rewrite length_app. simpl. lia.
Qed.

Lemma logging_fetch_failure f cs sa pc v (x : Ext W) e w' :
  contactSearchFails sa (world x) e w' ->
  Logging.fetchContacts (S f) cs sa pc v x
  = (Throw e, v, after x (SearchContacts (contactsRequest sa)) w').
Proof.
  intros [H|(r & H & Hok & ->)]; rewrite logging_fetch_unfold, H.
  - reflexivity.
  - cbv zeta. rewrite Hok. reflexivity.
Qed.

Lemma logging_opportunities_pages stage pages :
  forall sa sid w sa' sid' w',
    OpportunityPages stage sa sid w pages sa' sid' w' ->
    forall f os pc v (x : Ext W),
      world x = w ->
      forallb opportunityPageFollowed pages = true ->
      Z.of_nat (List.length (os ++ opportunitiesOfPages pages)) <= 10000 ->
      exists x',
        Logging.fetchOpportunities (List.length pages + f) stage os sa sid
          pc v x
        = Logging.fetchOpportunities f stage
            (os ++ opportunitiesOfPages pages)%list sa' sid'
            (pc + Z.of_nat (List.length pages)) v x'
        /\ world x' = w'
        /\ List.length (calls x')
           = (List.length (calls x) + List.length pages)%nat.
Proof.
  induction 1 as [sa sid w|sa sid w r w1 rest sa' sid' w' Hr Hrest IH];
    intros f os pc v x Hw Hall Hcap.
  - exists x. simpl. rewrite app_nil_r, Z.add_0_r, Nat.add_0_r. auto.
  - subst w. simpl in Hall. apply andb_prop in Hall.
    destruct Hall as [Hpage Hall]. unfold opportunityPageFollowed in Hpage.
    rewrite andb_true_iff in Hpage. destruct Hpage as [Hok Hmore].
    simpl List.length. simpl Nat.add.
    rewrite logging_opportunities_unfold. cbv zeta. rewrite Hr.
    rewrite Hok, Hmore. simpl negb. cbv iota.
    unfold opportunitiesOfPages in Hcap. simpl flat_map in Hcap.
    fold (opportunitiesOfPages rest) in Hcap. rewrite app_assoc in Hcap.
    replace (10000 <? _) with false
      by (symmetry; apply Z.ltb_ge; rewrite length_app in Hcap;
          rewrite Nat2Z.inj_add in Hcap; lia).
    destruct (IH f
                (os ++ orEmpty (optional (data r) data_opportunities))%list
                (pc + 1) v
                (after x (SearchOpportunities
                            (opportunitiesRequest stage sa sid)) w1)
                eq_refl Hall Hcap)
      as (x' & Hrun & Hw' & Hcalls).
    exists x'. split; [|split; [exact Hw'|]].
    + rewrite Hrun. unfold opportunitiesOfPages. simpl flat_map.
      rewrite app_assoc. f_equal. lia.
    + rewrite Hcalls. unfold after. simpl. rewrite length_app. simpl. lia.
Qed.

Lemma logging_opportunities_failure f stage os sa sid pc v (x : Ext W)
    e w' :
  opportunitySearchFails stage sa sid (world x) e w' ->
  Logging.fetchOpportunities (S f) stage os sa sid pc v x
  = (Throw e, v,
     after x (SearchOpportunities (opportunitiesRequest stage sa sid)) w').
Proof.
  unfold opportunitySearchFails. cbv zeta.
  intros [H|(r & H & Hok & ->)]; rewrite logging_opportunities_unfold;
    cbv zeta; rewrite H.
  - reflexivity.
  - rewrite Hok. reflexivity.
Qed.

(** C1 (amended).  When the backend answers the searches of a run with
    pages after each of which the loop asks for the next one (there may be
    none), and the search that follows fails (its promise is rejected, or
    it resolves without success), the detector returns a report all the
    same, having made no further search: its error list is the one string
    "Error fetching contacts: <message>" (resp. "Error fetching
    opportunities: <message>"), and nothing has been checked: the entities
    of the pages fetched before the failure are dropped, the total checked
    is 0 and the inactive list is empty. *)
Theorem page_failure_report {L} fuel now days s e (l : L) (x : Ext W) :
  thresholdDate now days = TimeValue s ->
  (forall pages searchAfter w w',
     ContactPages None (world x) pages searchAfter w ->
     forallb contactPageFollowed pages = true ->
     Z.of_nat (List.length (contactsOfPages pages)) <= 50000 ->
     contactSearchFails searchAfter w e w' ->
     (List.length pages < fuel)%nat ->
     exists x',
       Logging.detectContactsInactivity fuel now
         {| dc_inactivityDays := days |} l x
       = (Ret {| ContactsReport.inactiveContacts := [];
                 ContactsReport.totalContactsChecked := 0;
                 ContactsReport.inactiveCount := 0;
                 ContactsReport.errors :=
                   ["Error fetching contacts: " ++ errorText e];
                 ContactsReport.inactivityThresholdDays := days |},
          l, x')
       /\ world x' = w'
       /\ List.length (calls x')
          = (List.length (calls x) + List.length pages + 1)%nat)
  /\ (forall stage pages startAfter startAfterId w w',
        OpportunityPages stage None "" (world x) pages
          startAfter startAfterId w ->
        forallb opportunityPageFollowed pages = true ->
        Z.of_nat (List.length (opportunitiesOfPages pages)) <= 10000 ->
        opportunitySearchFails stage startAfter startAfterId w e w' ->
        (List.length pages < fuel)%nat ->
        exists x',
          Logging.detectOpportunitiesInactivity fuel now
            {| do_inactivityDays := days; do_pipelineStageId := stage |}
            l x
          = (Ret {| OpportunitiesReport.inactiveOpportunities := [];
                    OpportunitiesReport.totalOpportunitiesChecked := 0;
                    OpportunitiesReport.inactiveCount := 0;
                    OpportunitiesReport.errors :=
                      ["Error fetching opportunities: " ++ errorText e];
                    OpportunitiesReport.inactivityThresholdDays := days |},
             l, x')
          /\ world x' = w'
          /\ List.length (calls x')
             = (List.length (calls x) + List.length pages + 1)%nat).
Proof.
  intro Hs. split.
  - intros pages sa w w' Hpages Hall Hcap Hfail Hfuel.
    destruct (logging_fetch_pages Hpages (fuel - List.length pages) []
                0 ContactRun.start x eq_refl Hall Hcap)
      as (x1 & Hrun & Hw & Hcalls).
    replace (List.length pages + (fuel - List.length pages))%nat
      with fuel in Hrun by lia.
    destruct (fuel - List.length pages)%nat as [|f] eqn:Ef; [lia|].
    subst w. rewrite (logging_fetch_failure _ _ _ _ _ Hfail) in Hrun.
    erewrite logging_detect_eval by exact Hs. rewrite Hrun.
    eexists. split; [reflexivity|]. split; [reflexivity|].
    unfold after. simpl. rewrite length_app, Hcalls. simpl. lia.
  - intros stage pages sa sid w w' Hpages Hall Hcap Hfail Hfuel.
    destruct (logging_opportunities_pages Hpages (fuel - List.length pages)
                [] 0 OpportunityRun.start x eq_refl Hall Hcap)
      as (x1 & Hrun & Hw & Hcalls).
    replace (List.length pages + (fuel - List.length pages))%nat
      with fuel in Hrun by lia.
    destruct (fuel - List.length pages)%nat as [|f] eqn:Ef; [lia|].
    subst w. rewrite (logging_opportunities_failure _ _ _ _ _ Hfail) in Hrun.
    erewrite logging_detectOpportunities_eval by exact Hs. rewrite Hrun.
    eexists. split; [reflexivity|]. split; [reflexivity|].
    unfold after. simpl. rewrite length_app, Hcalls. simpl. lia.
Qed.

(** C3 (what the code does).  On a backend that answers every contact
    search with a full page of 100 contacts and a cursor, the pagination
    halts after 501 fetches with 50100 contacts accumulated, more than the
    50000 that the advisory names; the advisory is the first error of the
    report, and the run goes on to check every accumulated contact that
    has an id.  Likewise for the opportunities: 101 fetches and 10100
    opportunities. *)
Theorem safety_cap_overshoot {L} fuel now days s (l : L) (x : Ext W) :
  thresholdDate now days = TimeValue s ->
  (fullContactPages -> (501 <= fuel)%nat ->
   exists cs x1 report x',
     Logging.fetchContacts fuel [] None 0 ContactRun.start x
     = (Ret cs,
        ContactRun.pushError "Too many contacts, stopping at 50000"
          ContactRun.start, x1)
     /\ Z.of_nat (List.length cs) = 50100
     /\ List.length (calls x1) = (List.length (calls x) + 501)%nat
     /\ Logging.detectContactsInactivity fuel now
          {| dc_inactivityDays := days |} l x
        = (Ret report, l, x')
     /\ hd_error (ContactsReport.errors report)
        = Some "Too many contacts, stopping at 50000"
     /\ ContactsReport.totalContactsChecked report
        = Z.of_nat (List.length (withId cs)))
  /\ (fullOpportunityPages -> (101 <= fuel)%nat ->
      forall stage,
      exists os x1 report,
        Logging.fetchOpportunities fuel stage [] None "" 0
          OpportunityRun.start x
        = (Ret os,
           OpportunityRun.pushError
             "Too many opportunities, stopping at 10000"
             OpportunityRun.start, x1)
        /\ Z.of_nat (List.length os) = 10100
        /\ List.length (calls x1) = (List.length (calls x) + 101)%nat
        /\ Logging.detectOpportunitiesInactivity fuel now
             {| do_inactivityDays := days; do_pipelineStageId := stage |}
             l x
           = (Ret report, l, x1)
        /\ OpportunitiesReport.errors report
           = ["Too many opportunities, stopping at 10000"]
        /\ OpportunitiesReport.totalOpportunitiesChecked report
           = Z.of_nat (List.length (withOpportunityId os))).
Proof.
  intro Hs. split.
  - intros Hfull Hfuel.
    destruct (logging_fetch_endless (m := 501) Hfull (fuel := fuel) []
                None 0 ContactRun.start x)
      as (cs & x1 & Hrun & Hlen & Hcalls); [lia | lia | simpl; lia |].
    destruct (logging_check_loop days (TimeValue s) cs
                (ContactRun.pushError "Too many contacts, stopping at 50000"
                   ContactRun.start) x1)
      as (v' & x' & fl & ad & Hloop & Ht & _ & He & _).
    exists cs, x1, (ContactRun.report days v'), x'.
    repeat split; auto.
    + erewrite logging_detect_eval by exact Hs.
      rewrite Hrun, Hloop. reflexivity.
    + simpl. rewrite He. reflexivity.
  - intros Hfull Hfuel stage.
    destruct (logging_opportunities_endless (m := 101) Hfull
                (fuel := fuel) stage [] None "" 0 OpportunityRun.start x)
      as (os & x1 & Hrun & Hlen & Hcalls); [lia | lia | simpl; lia |].
    destruct (logging_opportunity_loop days (TimeValue s) os
                (OpportunityRun.pushError
                   "Too many opportunities, stopping at 10000"
                   OpportunityRun.start) x1)
      as (v' & Hloop & Ht & He).
    exists os, x1, (OpportunityRun.report days v').
    repeat split; auto.
    erewrite logging_detectOpportunities_eval by exact Hs.
    rewrite Hrun, Hloop. reflexivity.
Qed.

End PaginationTheorems.

(** ** The entries of the opportunity report *)

Section OpportunityEntries.
Context {host : JsHost} {W : Type} {client : GHLApiClient W}.



End OpportunityEntries.

Section OpportunityReport.
Context {host : JsHost} {W : Type} {client : GHLApiClient W}.




End OpportunityReport.

(** ** The two versions of the contact detector *)

Section Versions.
Context {host : JsHost} {W : Type} {client : GHLApiClient W}.

Lemma forEach_ext {L A} (f g : A -> M W L unit) xs :
  (forall a l x, f a l x = g a l x) ->
  forall l x, forEach f xs l x = forEach g xs l x.
Proof.
  intro H. induction xs as [|a xs IH]; intros l x; simpl; auto.
  unfold bind. rewrite H.
  destruct (g a l x) as [[[u|e|] l1] x1]; auto.
Qed.

(** The page counter of the narrating version is the only difference
    between the two pagination loops. *)
Lemma fetch_agree fuel cs sa pc v (x : Ext W) :
  Logging.fetchContacts fuel cs sa pc v x
  = Plain.fetchContacts fuel cs sa v x.
Proof.
  revert cs sa pc v x. induction fuel as [|f IH]; intros cs sa pc v x.
  - reflexivity.
  - simpl. unfold bind.
    destruct (await _ _ v x) as [[[r|e|] v1] x1]; auto.
    destruct (negb (success r)); auto.
    destruct (_ || _); auto.
    destruct (50000 <? _); auto.
Qed.

Lemma checkContact_agree days s c v (x : Ext W) :
  timestampsParse ->
  Logging.checkContact days (TimeValue s) c v x
  = Plain.checkContact days (TimeValue s) c v x.
Proof.
  intro Hp. unfold Logging.checkContact, Plain.checkContact.
  destruct (negb (Js.truthy (contact_id c))); auto.
  cbv zeta. unfold Logging.classifyContact, Plain.classifyContact.
  unfold bind, modify, tryCatch.
  rewrite checks_agree by assumption. reflexivity.
Qed.

(** X12.  On a backend all of whose timestamps parse, and with a valid
    threshold date, the two versions of detectContactsInactivity return the
    same report (and make the same calls, leaving the backend in the same
    state), for every amount of fuel. *)
Theorem versions_agree {L} fuel now params s (l : L) (x : Ext W) :
  timestampsParse ->
  thresholdDate now (dc_inactivityDays params) = TimeValue s ->
  Logging.detectContactsInactivity fuel now params l x
  = Plain.detectContactsInactivity fuel now params l x.
Proof.
  intros Hp Hs.
  unfold Logging.detectContactsInactivity, Plain.detectContactsInactivity,
    invoke.
  cbv zeta. rewrite Hs. simpl toISOString. unfold eval.
  unfold bind, ret, tryCatch.
  rewrite fetch_agree.
  destruct (Plain.fetchContacts fuel [] None ContactRun.start x)
    as [[[cs|e|] v1] x1]; auto.
  rewrite (forEach_ext (Logging.checkContact (dc_inactivityDays params)
                          (TimeValue s))
                       (Plain.checkContact (dc_inactivityDays params)
                          (TimeValue s)));
    [reflexivity|].
  intros a l0 x0. now apply checkContact_agree.
Qed.

End Versions.

(** * Worked examples *)




(** The short circuit at a contact with conversations of 2023-11-05 and
    2024-01-02 and an unreadable one between them, the threshold date being
    2024-01-01T12:00Z. *)
Lemma recent_conversation_witness :
  let client := Steady.client Sample.unreadableBetween in
  let answer :=
    (Ret {| inactive := false;
            check_lastActivityDate := Some (TimeValue 1704196800000) |},
     tt,
     {| world := tt;
        calls := [SearchConversations
                    {| cv_locationId := "loc-1"; cv_contactId := "c1";
                       cv_limit := 50 |}] |}) in
  Logging.checkContactActivity (host := Iso8601.host) (client := client)
    "c1" (TimeValue 1704110400000) tt (Sample.fresh tt) = answer
  /\ Plain.checkContactActivity (host := Iso8601.host) (client := client)
       "c1" (TimeValue 1704110400000) tt (Sample.fresh tt) = answer.
Proof.
  intros client answer.
  apply (recent_conversation_short_circuit (host := Iso8601.host)
           (client := client) "c1" 1704110400000 tt (Sample.fresh tt)
           (r1 := {| success := true;
                     data :=
                       Some {| data_conversations :=
                                 Some [{| conversation_dateAdded :=
                                            Some "2023-11-05T08:00:00.000Z" |};
                                       {| conversation_dateAdded :=
                                            Some "garbage" |};
                                       {| conversation_dateAdded :=
                                            Some "2024-01-02T12:00:00.000Z" |}]
                            |};
                     error := None |})
           (w1 := tt) (t := 1699171200000)
           (ds := [InvalidDate; TimeValue 1704196800000]));
    reflexivity.
Defined.

(** C6: conversations dated "garbage" and 2024-01-30, the threshold date
    being 2024-01-01T12:00Z.  The second timestamp is after the threshold
    date; yet the narrating version raises instead of answering, and the
    other version, which makes the one search and answers
    [inactive = false], reports an invalid date as [lastActivityDate], not
    the timestamp of 2024-01-30. *)
Lemma unreadable_conversation_hides_maximum :
  let client := Steady.client Sample.unreadableThenRecent in
  let asked :=
    {| world := tt;
       calls := [SearchConversations
                   {| cv_locationId := "loc-1"; cv_contactId := "c1";
                      cv_limit := 50 |}] |} in
  newDate (host := Iso8601.host) "2024-01-30T00:00:00.000Z"
  = TimeValue 1706572800000
  /\ Js.ge (TimeValue 1706572800000) (TimeValue 1704110400000) = true
  /\ Logging.checkContactActivity (host := Iso8601.host) (client := client)
       "c1" (TimeValue 1704110400000) tt (Sample.fresh tt)
     = (Throw (ErrorObject "Invalid time value"), tt, asked)
  /\ Plain.checkContactActivity (host := Iso8601.host) (client := client)
       "c1" (TimeValue 1704110400000) tt (Sample.fresh tt)
     = (Ret {| inactive := false;
               check_lastActivityDate := Some InvalidDate |}, tt, asked)
  /\ @Some JsDate InvalidDate <> Some (TimeValue 1706572800000).
Proof. vm_compute. repeat split. discriminate. Qed.

(** A contact whose only record is a task without a due date. *)
Lemma undated_tasks_witness :
  exists x',
    Logging.checkContactActivity (host := Iso8601.host)
      (client := Steady.client Sample.undatedTask)
      "c1" (TimeValue 1704110400000) tt (Sample.fresh tt)
    = (Ret {| inactive := true; check_lastActivityDate := None |}, tt, x').
Proof.
  apply (undated_tasks_give_no_signal (host := Iso8601.host)
           (client := Steady.client Sample.undatedTask)
           "c1" 1704110400000 tt (Sample.fresh tt)
           (r1 := {| success := true;
                     data := Some {| data_conversations := Some [] |};
                     error := None |})
           (w1 := tt)
           (r2 := {| success := true; data := Some []; error := None |})
           (w2 := tt)
           (r3 := {| success := true; data := Some []; error := None |})
           (w3 := tt)
           (r4 := {| success := true; data := Some [{| dueDate := None |}];
                     error := None |})
           (w4 := tt)); try reflexivity.
  repeat constructor.
Defined.



(** The loop over a hundred contacts, the fiftieth of which makes its
    resolution raise (its conversation has an unreadable timestamp, so that
    the date rendered for the console after the [try] block is invalid). *)
Lemma error_isolation_witness :
  let client := Steady.client Sample.fiftiethUnreadable in
  exists v' x',
    forEach (Logging.checkContact (host := Iso8601.host) (client := client)
               30 (TimeValue 1704110400000))
      (Sample.contactsFrom "c" 0 49
       ++ Sample.contact "c50" :: Sample.contactsFrom "c" 50 50)
      ContactRun.start (Sample.fresh tt)
    = (Ret tt, v', x')
    /\ ContactRun.totalContactsChecked v' = 100
    /\ exists added,
         ContactRun.errors v'
         = "Error checking contact c50: Invalid time value" :: added.
Proof.
  intro client.
  assert (Hpre : exists v1 x1,
    forEach (Logging.checkContact (host := Iso8601.host) (client := client)
               30 (TimeValue 1704110400000))
      (Sample.contactsFrom "c" 0 49) ContactRun.start (Sample.fresh tt)
    = (Ret tt, v1, x1)
    /\ ContactRun.errors v1 = []).
  { vm_compute. do 2 eexists. split; reflexivity. }
  destruct Hpre as (v1 & x1 & Hpre & Herr).
  destruct (error_isolation (host := Iso8601.host) (client := client)
               30 (TimeValue 1704110400000) (Sample.contactsFrom "c" 0 49)
               (Sample.contact "c50") (Sample.contactsFrom "c" 50 50)
               (e := ErrorObject "Invalid time value")
               ContactRun.start (Sample.fresh tt) (v1 := v1) (x1 := x1)
               (x2 := {| world := world x1;
                         calls :=
                           ((((calls x1
                               ++ [SearchConversations
                                     {| cv_locationId := "loc-1";
                                        cv_contactId := "c50";
                                        cv_limit := 50 |}])
                              ++ [GetContactAppointments "c50"])
                             ++ [GetContactNotes "c50"])
                            ++ [GetContactTasks "c50"])%list |})
               eq_refl Hpre)
    as (v' & x' & fl & ad & Hrun & _ & _ & Htotal & Herrors & _).
  - reflexivity.
  - exists v', x'. split; [exact Hrun|]. split.
    + rewrite Htotal. reflexivity.
    + exists ad. rewrite Herrors, Herr. reflexivity.
Defined.

(** The same backend through the whole detector: 99 contacts classified,
    one error naming c50, 100 checked. *)
Example fiftieth_contact_example :
  let client := Steady.client Sample.fiftiethUnreadable in
  exists report x',
    Logging.detectContactsInactivity (host := Iso8601.host)
      (client := client) 501 Sample.now {| dc_inactivityDays := 30 |}
      tt (Sample.fresh tt)
    = (Ret report, tt, x')
    /\ ContactsReport.totalContactsChecked report = 100
    /\ ContactsReport.inactiveCount report = 99
    /\ ContactsReport.errors report
       = ["Error checking contact c50: Invalid time value"].
Proof. vm_compute. do 2 eexists. repeat split. Qed.

(** The endless backend answers as [fullContactPages] and
    [fullOpportunityPages] say. *)
Lemma endless_contact_pages :
  fullContactPages (client := Steady.client Sample.endless).
Proof.
  intros p w. do 2 eexists. repeat split; reflexivity.
Qed.

Lemma endless_opportunity_pages :
  fullOpportunityPages (client := Steady.client Sample.endless).
Proof.
  intros p w. do 2 eexists. repeat split; reflexivity.
Qed.

(** C5: on a backend where every response is a full page of 100 contacts
    with a cursor, the paginator makes 501 searches and no 502nd, with fuel
    for 499 more turns: the 501st response is full and carries a cursor,
    and no further page is fetched. *)
Lemma full_page_with_cursor_not_followed :
  let client := Steady.client Sample.endless in
  fullContactPages (client := client)
  /\ exists cs v' x',
       Logging.fetchContacts (client := client) 1000 [] None 0
         ContactRun.start (Sample.fresh tt)
       = (Ret cs, v', x')
       /\ List.length (calls x') = 501%nat
       /\ Z.of_nat (List.length cs) = 50100.
Proof.
  intro client. split; [exact endless_contact_pages|].
  destruct (logging_fetch_endless (client := client) (m := 501)
              endless_contact_pages (fuel := 1000) [] None 0
              ContactRun.start (Sample.fresh tt))
    as (cs & x' & Hrun & Hlen & Hcalls); [lia | lia | reflexivity |].
  do 3 eexists. split; [exact Hrun|]. split; [exact Hcalls | exact Hlen].
Qed.

(** The contact paginator on prepared pages of 100, 100 and 37 contacts. *)
Lemma contact_continuation_witness :
  (exists cs x',
     Logging.fetchContacts (client := Mock.client) 10 [] None 0
       ContactRun.start (Sample.fresh Sample.threePages)
     = (Ret cs, ContactRun.start, x')
     /\ List.length cs = 237%nat
     /\ List.length (calls x') = 3%nat)
  /\ (0 + 1
      < List.length
          (calls (snd (Logging.fetchContacts (client := Mock.client) 2 []
                         None 0 ContactRun.start
                         (Sample.fresh Sample.threePages)))))%nat.
Proof.
  split.
  - edestruct (proj2 (contact_continuation (client := Mock.client))
                 10%nat ContactRun.start (Sample.fresh Sample.threePages))
      as [Hrun Hlen];
      [lia | reflexivity | reflexivity | reflexivity | reflexivity
       | reflexivity | reflexivity | reflexivity | reflexivity
       | reflexivity | reflexivity | reflexivity |].
    do 2 eexists. split; [exact Hrun|]. split; [exact Hlen | reflexivity].
  - eapply (proj1 (contact_continuation (client := Mock.client))
              0%nat [] None 0 ContactRun.start
              (Sample.fresh Sample.threePages));
      [reflexivity | reflexivity |].
    repeat split; try reflexivity; vm_compute; discriminate.
Defined.

(** C4: on a backend where every response carries a [nextPageUrl], the
    opportunity paginator makes 101 searches and no 102nd, with fuel for
    899 more turns: the pointer is present and no further page is
    fetched. *)
Lemma next_page_pointer_not_followed :
  let client := Steady.client Sample.endless in
  fullOpportunityPages (client := client)
  /\ exists os v' x',
       Logging.fetchOpportunities (client := client) 1000 None [] None "" 0
         OpportunityRun.start (Sample.fresh tt)
       = (Ret os, v', x')
       /\ List.length (calls x') = 101%nat
       /\ Z.of_nat (List.length os) = 10100.
Proof.
  intro client. split; [exact endless_opportunity_pages|].
  destruct (logging_opportunities_endless (client := client) (m := 101)
              endless_opportunity_pages (fuel := 1000) None [] None "" 0
              OpportunityRun.start (Sample.fresh tt))
    as (os & x' & Hrun & Hlen & Hcalls); [lia | lia | reflexivity |].
  do 3 eexists. split; [exact Hrun|]. split; [exact Hcalls | exact Hlen].
Qed.

(** The opportunity paginator on a response without [nextPageUrl] whose
    metadata says that page 2 follows page 1: it stops there. *)
Lemma opportunity_continuation_witness :
  Logging.fetchOpportunities (client := Mock.client) 7 None [] None "" 0
    OpportunityRun.start (Sample.fresh Sample.numericHintOnly)
  = (Ret (Sample.opportunitiesNamed "o" 3), OpportunityRun.start,
     {| world :=
          Sample.prepared []
            [Sample.opportunityPage (Sample.opportunitiesFrom "o" 3 2)
               (Sample.pageMeta None None None)];
        calls :=
          [SearchOpportunities
             (opportunitiesRequest (client := Mock.client) None None "")] |}).
Proof.
  refine (proj2 (opportunity_continuation (client := Mock.client)
                   5%nat None [] None "" 0 OpportunityRun.start
                   (Sample.fresh Sample.numericHintOnly)
                   (r := {| success := true;
                            data :=
                              Some {| data_opportunities :=
                                        Some (Sample.opportunitiesNamed "o" 3);
                                      data_meta :=
                                        Some (Sample.pageMeta None (Some 2)
                                                (Some 1)) |};
                            error := None |})
                   (w' := Sample.prepared []
                            [Sample.opportunityPage
                               (Sample.opportunitiesFrom "o" 3 2)
                               (Sample.pageMeta None None None)])
                   eq_refl eq_refl) eq_refl).
Defined.

(** The other version of the file on the same backend: its paginator takes
    the page numbers for a reason to go on, and makes a second search. *)
Example plain_follows_page_numbers :
  exists x',
    Plain.fetchOpportunities (client := Mock.client) 7 [] None ""
      OpportunityRun.start (Sample.fresh Sample.numericHintOnly)
    = (Ret (Sample.opportunitiesNamed "o" 5), OpportunityRun.start, x')
    /\ List.length (calls x') = 2%nat.
Proof. vm_compute. eexists. split; reflexivity. Qed.

(** C1: a first page of 100 contacts with a cursor, then a search that
    fails.  The report holds the one error and nothing else: none of the
    100 contacts of the first page, all with an id, has been checked. *)
Lemma accumulated_contacts_not_checked :
  exists report x',
    Logging.detectContactsInactivity (host := Iso8601.host)
      (client := Mock.client) 501 Sample.now {| dc_inactivityDays := 30 |}
      tt (Sample.fresh Sample.secondPageFails)
    = (Ret report, tt, x')
    /\ List.length (contactSearches (calls x')) = 2%nat
    /\ List.length (withId (Sample.contactsFrom "c" 0 100)) = 100%nat
    /\ ContactsReport.totalContactsChecked report = 0
    /\ ContactsReport.totalContactsChecked report <> 100
    /\ ContactsReport.inactiveContacts report = []
    /\ ContactsReport.errors report = ["Error fetching contacts: boom"].
Proof.
  vm_compute. do 2 eexists. repeat split. discriminate.
Qed.

(** The report of a run whose second page fetch fails, for both
    detectors. *)
Lemma page_failure_report_witness :
  (exists x',
     Logging.detectContactsInactivity (host := Iso8601.host)
       (client := Mock.client) 501 Sample.now {| dc_inactivityDays := 30 |}
       tt (Sample.fresh Sample.secondPageFails)
     = (Ret {| ContactsReport.inactiveContacts := [];
               ContactsReport.totalContactsChecked := 0;
               ContactsReport.inactiveCount := 0;
               ContactsReport.errors := ["Error fetching contacts: boom"];
               ContactsReport.inactivityThresholdDays := 30 |},
        tt, x')
     /\ List.length (calls x') = 2%nat)
  /\ (exists x',
        Logging.detectOpportunitiesInactivity (host := Iso8601.host)
          (client := Mock.client) 501 Sample.now
          {| do_inactivityDays := 30; do_pipelineStageId := None |}
          tt (Sample.fresh Sample.secondPageFails)
        = (Ret {| OpportunitiesReport.inactiveOpportunities := [];
                  OpportunitiesReport.totalOpportunitiesChecked := 0;
                  OpportunitiesReport.inactiveCount := 0;
                  OpportunitiesReport.errors :=
                    ["Error fetching opportunities: boom"];
                  OpportunitiesReport.inactivityThresholdDays := 30 |},
           tt, x')
        /\ List.length (calls x') = 2%nat).
Proof.
  destruct (page_failure_report (host := Iso8601.host)
              (client := Mock.client) 501 Sample.now 30
              (s := 1704110400000) (ErrorObject "boom") tt
              (Sample.fresh Sample.secondPageFails) eq_refl)
    as [Hcontacts Hopportunities].
  split.
  - edestruct Hcontacts as (x' & Hrun & _ & Hcalls).
    + eapply contact_pages_next; [reflexivity|apply contact_pages_done].
    + reflexivity.
    + vm_compute. discriminate.
    + right. eexists. split; [reflexivity|]. split; reflexivity.
    + simpl. lia.
    + exists x'. split; [exact Hrun|exact Hcalls].
  - edestruct Hopportunities as (x' & Hrun & _ & Hcalls).
    + eapply opportunity_pages_next;
        [reflexivity|apply opportunity_pages_done].
    + reflexivity.
    + vm_compute. discriminate.
    + right. eexists. split; [reflexivity|]. split; reflexivity.
    + simpl. lia.
    + exists x'. split; [exact Hrun|exact Hcalls].
Defined.

(** The cap on the endless backend, for both detectors. *)
Lemma safety_cap_overshoot_witness :
  let client := Steady.client Sample.endless in
  (exists cs x1 report x',
     Logging.fetchContacts (client := client) 501 [] None 0
       ContactRun.start (Sample.fresh tt)
     = (Ret cs,
        ContactRun.pushError "Too many contacts, stopping at 50000"
          ContactRun.start, x1)
     /\ Z.of_nat (List.length cs) = 50100
     /\ List.length (calls x1) = (0 + 501)%nat
     /\ Logging.detectContactsInactivity (host := Iso8601.host)
          (client := client) 501 Sample.now {| dc_inactivityDays := 30 |}
          tt (Sample.fresh tt)
        = (Ret report, tt, x')
     /\ hd_error (ContactsReport.errors report)
        = Some "Too many contacts, stopping at 50000"
     /\ ContactsReport.totalContactsChecked report
        = Z.of_nat (List.length (withId cs)))
  /\ (exists os x1 report,
        Logging.fetchOpportunities (client := client) 501 None [] None "" 0
          OpportunityRun.start (Sample.fresh tt)
        = (Ret os,
           OpportunityRun.pushError
             "Too many opportunities, stopping at 10000"
             OpportunityRun.start, x1)
        /\ Z.of_nat (List.length os) = 10100
        /\ List.length (calls x1) = (0 + 101)%nat
        /\ Logging.detectOpportunitiesInactivity (host := Iso8601.host)
             (client := client) 501 Sample.now
             {| do_inactivityDays := 30; do_pipelineStageId := None |}
             tt (Sample.fresh tt)
           = (Ret report, tt, x1)
        /\ OpportunitiesReport.errors report
           = ["Too many opportunities, stopping at 10000"]
        /\ OpportunitiesReport.totalOpportunitiesChecked report
           = Z.of_nat (List.length (withOpportunityId os))).
Proof.
  intro client.
  destruct (safety_cap_overshoot (host := Iso8601.host) (client := client)
              501 Sample.now 30 (s := 1704110400000) tt (Sample.fresh tt)
              eq_refl)
    as [Hcontacts Hopportunities].
  split.
  - apply Hcontacts; [exact endless_contact_pages | lia].
  - apply Hopportunities; [exact endless_opportunity_pages | lia].
Defined.

(** C10.  The two versions of the contact detector do not return the same
    report on every input.  A contact whose conversations are dated
    "garbage" and 2024-01-30: the second conversation makes the contact
    active; the first has left an invalid date in [lastActivityDate], which
    the narrating version renders for the console after its [try] block:
    that raises, and the detector records an error that the other version
    does not have.  And with a number of days so large that the threshold
    date is invalid the narrating version raises on rendering that date,
    before its [try], where the other version returns a report. *)
Lemma versions_differ_on_unreadable_timestamp :
  let client := Steady.client Sample.unreadableThenRecent in
  (exists narrated plain x1 x2,
     Logging.detectContactsInactivity (host := Iso8601.host)
       (client := client) 501 Sample.now {| dc_inactivityDays := 30 |}
       tt (Sample.fresh tt)
     = (Ret narrated, tt, x1)
     /\ Plain.detectContactsInactivity (host := Iso8601.host)
          (client := client) 501 Sample.now {| dc_inactivityDays := 30 |}
          tt (Sample.fresh tt)
        = (Ret plain, tt, x2)
     /\ ContactsReport.errors narrated
        = ["Error checking contact c1: Invalid time value"]
     /\ ContactsReport.errors plain = []
     /\ narrated <> plain)
  /\ (exists plain x2,
        Logging.detectContactsInactivity (host := Iso8601.host)
          (client := Steady.client Sample.quiet) 501 Sample.now
          {| dc_inactivityDays := 1000000000 |} tt (Sample.fresh tt)
        = (Throw (ErrorObject "Invalid time value"), tt, Sample.fresh tt)
        /\ Plain.detectContactsInactivity (host := Iso8601.host)
             (client := Steady.client Sample.quiet) 501 Sample.now
             {| dc_inactivityDays := 1000000000 |} tt (Sample.fresh tt)
           = (Ret plain, tt, x2)).
Proof.
  vm_compute. split.
  - do 4 eexists. repeat split. discriminate.
  - do 2 eexists. split; reflexivity.
Qed.

(** A backend whose timestamps all parse: two contacts, each with a
    conversation of 2023-12-01. *)
Lemma old_conversations_parse :
  timestampsParse (host := Iso8601.host)
    (client := Steady.client
                 (Sample.roster (Sample.contactsNamed "c" 2)
                    (fun _ => ["2023-12-01T09:30:00.000Z"]))).
Proof.
  repeat split; intros p w r w' H; inversion H; reflexivity.
Qed.

Lemma versions_agree_witness :
  let client :=
    Steady.client
      (Sample.roster (Sample.contactsNamed "c" 2)
         (fun _ => ["2023-12-01T09:30:00.000Z"])) in
  Logging.detectContactsInactivity (host := Iso8601.host) (client := client)
    501 Sample.now {| dc_inactivityDays := 30 |} tt (Sample.fresh tt)
  = Plain.detectContactsInactivity (host := Iso8601.host) (client := client)
      501 Sample.now {| dc_inactivityDays := 30 |} tt (Sample.fresh tt).
Proof.
  intro client.
  apply (versions_agree (host := Iso8601.host) (client := client) 501
           Sample.now {| dc_inactivityDays := 30 |} (s := 1704110400000)
           tt (Sample.fresh tt) old_conversations_parse eq_refl).
Defined.

(** The end-to-end example of the specification: with a threshold of 30
    days, a contact with a conversation of ten days ago and a contact with
    only a task that was due 400 days ago give a report with the second
    contact as the one inactive contact. *)
Example end_to_end_example :
  let client :=
    Steady.client
      {| Steady.onSearchContacts :=
           fun _ => Sample.contactPage (Sample.contactsNamed "c" 2) None;
         Steady.onSearchOpportunities :=
           fun _ => Sample.opportunityPage []
                      (Sample.pageMeta None None None);
         Steady.onSearchConversations :=
           fun p =>
             Sample.conversationsAt
               (if String.eqb (cv_contactId p) "c1"
                then ["2024-01-21T12:00:00.000Z"] else []);
         Steady.onAppointments := fun _ => Sample.nothing;
         Steady.onNotes := fun _ => Sample.nothing;
         Steady.onTasks :=
           fun id =>
             Sample.ok (if String.eqb id "c2"
                        then [{| dueDate := Some "2022-12-27T12:00:00.000Z" |}]
                        else []) |} in
  fst (fst (Logging.detectContactsInactivity (host := Iso8601.host)
              (client := client) 501 Sample.now
              {| dc_inactivityDays := 30 |} tt (Sample.fresh tt)))
  = Ret {| ContactsReport.inactiveContacts :=
             [{| ic_contact := Sample.contact "c2"; ic_daysInactive := 30;
                 ic_lastActivityDate := Some "2022-12-27T12:00:00.000Z" |}];
           ContactsReport.totalContactsChecked := 2;
           ContactsReport.inactiveCount := 1;
           ContactsReport.errors := [];
           ContactsReport.inactivityThresholdDays := 30 |}.
Proof. vm_compute. reflexivity. Qed.

(** The ISO 8601 host on a few values. *)
Example iso_parse_sample :
  @newDate Iso8601.host "2024-01-31T12:30:15.250Z" = TimeValue 1706704215250.
Proof. reflexivity. Qed.

Example iso_format_sample :
  Iso8601.format 1706704215250 = "2024-01-31T12:30:15.250Z".
Proof. reflexivity. Qed.

Example iso_parse_garbage : @newDate Iso8601.host "garbage" = InvalidDate.
Proof. reflexivity. Qed.

Example iso_threshold_sample :
  @thresholdDate Iso8601.host (instant 1706704215250) 30
  = @newDate Iso8601.host "2024-01-01T12:30:15.250Z".
Proof. reflexivity. Qed.

(** * Further properties of the detectors *)

Section ContactReport.
Context {host : JsHost} {W : Type} {client : GHLApiClient W}.

(** X1.  With a valid threshold date and 501 turns for the pagination, the
    contact detector returns a report whatever the backend does, and the
    report is consistent: it echoes the days asked for, its count is the
    length of its list and does not exceed the number of contacts checked,
    there is at most one error beyond one per checked contact, and every
    entry is a contact with an id whose [daysInactive] is the days asked
    for. *)
Theorem contact_report_invariants {L} fuel now days s (l : L) (x : Ext W) :
  thresholdDate now days = TimeValue s ->
  (501 <= fuel)%nat ->
  exists report x',
    Logging.detectContactsInactivity fuel now
      {| dc_inactivityDays := days |} l x
    = (Ret report, l, x')
    /\ ContactsReport.inactivityThresholdDays report = days
    /\ ContactsReport.inactiveCount report
       = Z.of_nat (List.length (ContactsReport.inactiveContacts report))
    /\ ContactsReport.inactiveCount report
       <= ContactsReport.totalContactsChecked report
    /\ Z.of_nat (List.length (ContactsReport.inactiveContacts report))
       + Z.of_nat (List.length (ContactsReport.errors report))
       <= ContactsReport.totalContactsChecked report + 1
    /\ Forall (fun ic => ic_daysInactive ic = days
                         /\ Js.truthy (contact_id (ic_contact ic)) = true)
              (ContactsReport.inactiveContacts report).
Proof.
  intros Hs Hfuel. erewrite logging_detect_eval by exact Hs.
  pose proof (logging_fetch_total fuel [] None 0 ContactRun.start x) as Htot.
  pose proof (logging_fetch_vars fuel [] None 0 ContactRun.start x) as Hvars.
  destruct (Logging.fetchContacts fuel [] None 0 ContactRun.start x)
    as [[[cs|e|] v1] x1].
  - destruct (logging_check_loop days (TimeValue s) cs v1 x1)
      as (v' & x' & fl & ad & Hrun & Ht & Hi & He & Hn & Hf & _).
    rewrite Hrun. do 2 eexists. split; [reflexivity|].
    assert (Hentries :
      Forall (fun ic => ic_daysInactive ic = days
                        /\ Js.truthy (contact_id (ic_contact ic)) = true) fl).
    { eapply Forall_impl; [|exact Hf]. simpl. intros ic [Hin Hd].
      split; [exact Hd|]. unfold withId in Hin.
      apply filter_In in Hin. tauto. }
    simpl. rewrite Hi, He, Ht.
    destruct Hvars as [->| ->]; simpl; rewrite ?length_app; simpl;
      repeat split; auto; lia.
  - subst v1. do 2 eexists. split; [reflexivity|]. simpl.
    repeat split; auto; lia.
  - exfalso. apply Htot; [simpl; lia | simpl List.length; lia | reflexivity].
Qed.

(** The loop of the version without console output never raises
    either. *)
Lemma plain_check_loop days start cs v (x : Ext W) :
  exists v' x',
    forEach (Plain.checkContact days start) cs v x = (Ret tt, v', x').
Proof.
  revert v x. induction cs as [|c cs IH]; intros v x.
  - do 2 eexists. reflexivity.
  - assert (Hstep : exists v1 x1,
      Plain.checkContact days start c v x = (Ret tt, v1, x1)).
    { unfold Plain.checkContact.
      destruct (Js.truthy (contact_id c)); cbv beta iota zeta delta [negb];
        [|do 2 eexists; reflexivity].
      unfold Plain.classifyContact, bind, modify, tryCatch.
      destruct (plain_check_returns (L := ContactRun.vars)
                  (Js.orElse (contact_id c) "") start (ContactRun.count v) x)
        as (r & x' & Hr).
      rewrite Hr. destruct (inactive r); [|do 2 eexists; reflexivity].
      destruct (check_lastActivityDate r) as [[t|]|]; simpl;
        do 2 eexists; reflexivity. }
    destruct Hstep as (v1 & x1 & H1).
    destruct (IH v1 x1) as (v' & x' & H).
    exists v', x'. simpl forEach. unfold bind. rewrite H1. exact H.
Qed.

(** X2.  The version without console output returns a report for every
    backend, every clock reading and every number of days, also one that
    gives an invalid threshold date: nothing that it evaluates outside its
    [try] blocks can raise. *)
Theorem plain_detector_never_raises {L} fuel now params (l : L) (x : Ext W) :
  (501 <= fuel)%nat ->
  exists report x',
    Plain.detectContactsInactivity fuel now params l x = (Ret report, l, x')
    /\ ContactsReport.inactivityThresholdDays report
       = dc_inactivityDays params.
Proof.
  intro Hfuel.
  unfold Plain.detectContactsInactivity, invoke. cbv zeta.
  unfold bind, tryCatch, getLocals, ret, modify.
  pose proof (logging_fetch_total fuel [] None 0 ContactRun.start x) as Htot.
  rewrite fetch_agree in Htot.
  destruct (Plain.fetchContacts fuel [] None ContactRun.start x)
    as [[[cs|e|] v1] x1].
  - destruct (plain_check_loop (dc_inactivityDays params)
                (thresholdDate now (dc_inactivityDays params)) cs v1 x1)
      as (v' & x' & Hrun).
    rewrite Hrun. do 2 eexists. split; reflexivity.
  - do 2 eexists. split; reflexivity.
  - exfalso. apply Htot; [simpl; lia | simpl List.length; lia | reflexivity].
Qed.

End ContactReport.

(** ** The sources of one contact, case by case *)

Section ConsultCases.
Context {host : JsHost} {W : Type} {client : GHLApiClient W}.

Lemma guarded_throw {B} (m : M W ActivityVars unit)
    (k : unit -> M W ActivityVars B) v (x : Ext W) e v' x' :
  hasRecentActivity v = false ->
  m v x = (Throw e, v', x') ->
  bind getLocals
    (fun v0 => bind (if negb (hasRecentActivity v0) then m else ret tt) k)
    v x
  = (Throw e, v', x').
Proof.
  intros Hv Hm. unfold bind, getLocals. rewrite Hv. simpl. now rewrite Hm.
Qed.

(** What the [try] block of checkContactActivity leaves in the two
    variables and which calls it makes, by the outcome of each call. *)
Lemma consult_eval cid start (x : Ext W) :
  consultSources cid start noActivity x
  = match searchConversations (conversationsRequest cid) (world x) with
    | (Rejected _, w1) =>
        (Ret tt, noActivity,
         after x (SearchConversations (conversationsRequest cid)) w1)
    | (Resolved r1, w1) =>
        let x1 := after x (SearchConversations (conversationsRequest cid)) w1
        in
        let v1 := observeStamps start (conversationStamps r1) noActivity in
        if hasRecentActivity v1 then (Ret tt, v1, x1)
        else
          match getContactAppointments cid w1 with
          | (Rejected _, w2) =>
              (Ret tt, v1, after x1 (GetContactAppointments cid) w2)
          | (Resolved r2, w2) =>
              let x2 := after x1 (GetContactAppointments cid) w2 in
              let v2 := observeStamps start (appointmentStamps r2) v1 in
              if hasRecentActivity v2 then (Ret tt, v2, x2)
              else
                match getContactNotes cid w2 with
                | (Rejected _, w3) =>
                    (Ret tt, v2, after x2 (GetContactNotes cid) w3)
                | (Resolved r3, w3) =>
                    let x3 := after x2 (GetContactNotes cid) w3 in
                    let v3 := observeStamps start (noteStamps r3) v2 in
                    if hasRecentActivity v3 then (Ret tt, v3, x3)
                    else
                      match getContactTasks cid w3 with
                      | (Rejected _, w4) =>
                          (Ret tt, v3, after x3 (GetContactTasks cid) w4)
                      | (Resolved r4, w4) =>
                          (Ret tt,
                           observeStamps start (taskStamps r4) v3,
                           after x3 (GetContactTasks cid) w4)
                      end
                end
          end
    end.
Proof.
  destruct (searchConversations (conversationsRequest cid) (world x))
    as [[r1|e1] w1] eqn:H1.
  2:{ unfold consultSources. fold (conversationsRequest cid).
      erewrite tryCatch_throw_eq; [reflexivity|].
      apply bind_throw_eq. apply await_rejected. exact H1. }
  cbv zeta.
  set (x1 := after x (SearchConversations (conversationsRequest cid)) w1).
  set (v1 := observeStamps start (conversationStamps r1) noActivity).
  assert (C1 : forall k : unit -> M W ActivityVars unit,
    tryCatch
      (bind (await (SearchConversations (conversationsRequest cid))
                   (searchConversations (conversationsRequest cid)))
         (fun r => bind
            (match success r, optional (data r) data_conversations with
             | true, Some convs =>
                 modify (observeAll start conversation_dateAdded convs)
             | _, _ => ret tt
             end) k))
      (fun _ => ret tt) noActivity x
    = tryCatch (k tt) (fun _ => ret tt) v1 x1).
  { intro k. unfold tryCatch.
    erewrite bind_ret_eq by (apply await_resolved; exact H1).
    erewrite bind_ret_eq by apply conversations_read. reflexivity. }
  unfold consultSources. fold (conversationsRequest cid). rewrite C1.
  clear C1. unfold tryCatch.
  destruct (hasRecentActivity v1) eqn:E1.
  { rewrite guarded_skip by assumption.
    rewrite guarded_skip by assumption.
    rewrite guarded_last_skip by assumption. reflexivity. }
  destruct (getContactAppointments cid w1) as [[r2|e2] w2] eqn:H2.
  2:{ erewrite guarded_throw; [reflexivity|assumption|].
      apply bind_throw_eq. apply await_rejected. exact H2. }
  set (x2 := after x1 (GetContactAppointments cid) w2).
  set (v2 := observeStamps start (appointmentStamps r2) v1).
  erewrite guarded_run;
    [| assumption
     | erewrite bind_ret_eq by (apply await_resolved; exact H2);
       apply source_read].
  fold (appointmentStamps r2). fold v2. fold x2.
  destruct (hasRecentActivity v2) eqn:E2.
  { rewrite guarded_skip by assumption.
    rewrite guarded_last_skip by assumption. reflexivity. }
  destruct (getContactNotes cid w2) as [[r3|e3] w3] eqn:H3.
  2:{ erewrite guarded_throw; [reflexivity|assumption|].
      apply bind_throw_eq. apply await_rejected. exact H3. }
  set (x3 := after x2 (GetContactNotes cid) w3).
  set (v3 := observeStamps start (noteStamps r3) v2).
  erewrite guarded_run;
    [| assumption
     | erewrite bind_ret_eq by (apply await_resolved; exact H3);
       apply source_read].
  fold (noteStamps r3). fold v3. fold x3.
  destruct (hasRecentActivity v3) eqn:E3.
  { rewrite guarded_last_skip by assumption. reflexivity. }
  rewrite guarded_last_run by assumption.
  destruct (getContactTasks cid w3) as [[r4|e4] w4] eqn:H4.
  2:{ erewrite bind_throw_eq; [reflexivity|].
      apply await_rejected. exact H4. }
  erewrite bind_ret_eq by (apply await_resolved; exact H4).
  rewrite source_read. reflexivity.
Qed.

End ConsultCases.

Section ConsultTheorems.
Context {host : JsHost} {W : Type} {client : GHLApiClient W}.

Lemma observe_from_nothing s stamps :
  wellFormed stamps = true ->
  observeStamps (TimeValue s) stamps noActivity
  = {| hasRecentActivity := existsb (Z.leb s) (timesOf stamps);
       lastActivityDate := option_map TimeValue (latest (timesOf stamps)) |}.
Proof.
  intro Hwf.
  change noActivity
    with {| hasRecentActivity := false;
            lastActivityDate := option_map TimeValue None |}.
  rewrite observeStamps_spec by exact Hwf. reflexivity.
Qed.

(** X3.  A rejected appointments request ends the consultation of a
    contact: notes and tasks are not requested, nothing is raised, and the
    contact is answered inactive on the strength of its conversations
    alone, with the latest conversation as its last activity. *)
Theorem rejected_source_ends_consultation {L} cid s (l : L) (x : Ext W)
    r1 w1 e w2 :
  searchConversations (conversationsRequest cid) (world x)
  = (Resolved r1, w1) ->
  wellFormed (conversationStamps r1) = true ->
  existsb (Z.leb s) (timesOf (conversationStamps r1)) = false ->
  getContactAppointments cid w1 = (Rejected e, w2) ->
  Logging.checkContactActivity cid (TimeValue s) l x
  = (Ret {| inactive := true;
            check_lastActivityDate :=
              option_map TimeValue
                (latest (timesOf (conversationStamps r1))) |},
     l,
     after (after x (SearchConversations (conversationsRequest cid)) w1)
           (GetContactAppointments cid) w2).
Proof.
  intros H1 Hwf Hold H2.
  pose proof (consult_eval cid (TimeValue s) x) as Hc.
  rewrite H1 in Hc. cbv zeta in Hc.
  rewrite observe_from_nothing in Hc by exact Hwf. simpl in Hc.
  rewrite Hold, H2 in Hc.
  erewrite logging_check_eval by exact Hc. simpl.
  destruct (latest (timesOf (conversationStamps r1))); reflexivity.
Qed.

(** X4.  When the four sources answer and none of them holds a signal at
    or after the threshold, the four requests are made in the order
    conversations, appointments, notes, tasks, and the contact is answered
    inactive with the latest signal of all four sources as its last
    activity. *)
Theorem inactive_reports_latest_of_all {L} cid s (l : L) (x : Ext W)
    r1 w1 r2 w2 r3 w3 r4 w4 :
  searchConversations (conversationsRequest cid) (world x)
  = (Resolved r1, w1) ->
  getContactAppointments cid w1 = (Resolved r2, w2) ->
  getContactNotes cid w2 = (Resolved r3, w3) ->
  getContactTasks cid w3 = (Resolved r4, w4) ->
  forallb wellFormed
    [conversationStamps r1; appointmentStamps r2; noteStamps r3;
     taskStamps r4] = true ->
  existsb (Z.leb s)
    (timesOf (conversationStamps r1 ++ appointmentStamps r2
              ++ noteStamps r3 ++ taskStamps r4)) = false ->
  Logging.checkContactActivity cid (TimeValue s) l x
  = (Ret {| inactive := true;
            check_lastActivityDate :=
              option_map TimeValue
                (latest (timesOf (conversationStamps r1
                                  ++ appointmentStamps r2
                                  ++ noteStamps r3 ++ taskStamps r4))) |},
     l,
     {| world := w4;
        calls := (calls x
                  ++ [SearchConversations (conversationsRequest cid);
                      GetContactAppointments cid; GetContactNotes cid;
                      GetContactTasks cid])%list |}).
Proof.
  intros H1 H2 H3 H4 Hwf Hold.
  simpl in Hwf. rewrite !andb_true_iff in Hwf.
  destruct Hwf as (Hw1 & Hw2 & Hw3 & Hw4 & _).
  rewrite !timesOf_app, !existsb_app, !orb_false_iff in Hold.
  destruct Hold as (Ho1 & Ho2 & Ho3 & Ho4).
  pose proof (consult_eval cid (TimeValue s) x) as Hc.
  rewrite H1 in Hc. cbv zeta in Hc.
  rewrite observe_from_nothing in Hc by exact Hw1. rewrite Ho1 in Hc.
  simpl hasRecentActivity in Hc. cbv iota in Hc.
  rewrite H2 in Hc.
  rewrite observeStamps_spec in Hc by exact Hw2. simpl orb in Hc.
  rewrite Ho2 in Hc.
  simpl hasRecentActivity in Hc. cbv iota in Hc.
  rewrite H3 in Hc.
  rewrite observeStamps_spec in Hc by exact Hw3. simpl orb in Hc.
  rewrite Ho3 in Hc.
  simpl hasRecentActivity in Hc. cbv iota in Hc.
  rewrite H4 in Hc.
  rewrite observeStamps_spec in Hc by exact Hw4. simpl orb in Hc.
  rewrite Ho4 in Hc.
  erewrite logging_check_eval by exact Hc.
  unfold latest. rewrite !timesOf_app, !latestFrom_app.
  simpl lastActivityDate. simpl hasRecentActivity.
  unfold after. simpl calls. rewrite <- !app_assoc. simpl app.
  match goal with
  | |- context [option_map TimeValue ?o] => destruct o
  end; reflexivity.
Qed.

(** X5.  The calls of one check are a prefix of the fixed sequence
    conversations, appointments, notes, tasks, for the contact asked about
    and never empty: whatever the backend answers, a later source is asked
    only after every earlier one, and no contact or opportunity search is
    made.  This holds of the version without console output for every
    threshold date and of the narrating version for every valid one. *)
Theorem sources_asked_in_order {L} cid start s (l : L) (x : Ext W) :
  let sequence :=
    [SearchConversations (conversationsRequest cid);
     GetContactAppointments cid; GetContactNotes cid; GetContactTasks cid]
  in
  (exists n,
     (1 <= n <= 4)%nat
     /\ calls (snd (Plain.checkContactActivity cid start l x))
        = (calls x ++ firstn n sequence)%list)
  /\ (exists n,
        (1 <= n <= 4)%nat
        /\ calls (snd (Logging.checkContactActivity cid (TimeValue s) l x))
           = (calls x ++ firstn n sequence)%list).
Proof.
  intro sequence.
  assert (Hcalls : forall start, exists n,
    (1 <= n <= 4)%nat
    /\ calls (snd (consultSources cid start noActivity x))
       = (calls x ++ firstn n sequence)%list).
  { intro start0. rewrite (consult_eval cid start0 x). cbv zeta.
    destruct (searchConversations _ _) as [[r1|e1] w1];
      [|exists 1%nat; split; [lia|reflexivity]].
    destruct (hasRecentActivity _);
      [exists 1%nat; split; [lia|reflexivity]|].
    destruct (getContactAppointments _ _) as [[r2|e2] w2];
      [|exists 2%nat; split; [lia|simpl; now rewrite <- app_assoc]].
    destruct (hasRecentActivity _);
      [exists 2%nat; split; [lia|simpl; now rewrite <- app_assoc]|].
    destruct (getContactNotes _ _) as [[r3|e3] w3];
      [|exists 3%nat; split; [lia|simpl; now rewrite <- !app_assoc]].
    destruct (hasRecentActivity _);
      [exists 3%nat; split; [lia|simpl; now rewrite <- !app_assoc]|].
    exists 4%nat. split; [lia|].
    destruct (getContactTasks _ _) as [[r4|e4] w4];
      simpl; now rewrite <- !app_assoc. }
  split.
  - destruct (Hcalls start) as (n & Hn & Hc).
    destruct (consult_returns cid start noActivity x) as (v' & x' & Hr).
    rewrite Hr in Hc. exists n. split; [exact Hn|].
    erewrite plain_check_eval by exact Hr. exact Hc.
  - destruct (Hcalls (TimeValue s)) as (n & Hn & Hc).
    destruct (consult_returns cid (TimeValue s) noActivity x)
      as (v' & x' & Hr).
    rewrite Hr in Hc. exists n. split; [exact Hn|].
    erewrite logging_check_eval by exact Hr.
    destruct (lastActivityDate v') as [[t|]|]; exact Hc.
Qed.

End ConsultTheorems.

(** ** Timestamps that do not parse *)

Section Unreadable.
Context {host : JsHost} {W : Type} {client : GHLApiClient W}.

(** Once [lastActivityDate] holds an invalid date no later signal replaces
    it: [date > lastActivityDate] is false against NaN. *)
Lemma observe_invalid_sticks start stamp v :
  lastActivityDate v = Some InvalidDate ->
  lastActivityDate (observe start stamp v) = Some InvalidDate.
Proof.
  intro H. unfold observe. destruct (Js.truthy stamp); [|exact H].
  cbv zeta. destruct (Js.ge _ start); simpl; rewrite H;
    destruct (newDate (Js.orElse stamp "")); simpl; auto.
Qed.

Lemma observeStamps_invalid_sticks start stamps v :
  lastActivityDate v = Some InvalidDate ->
  lastActivityDate (observeStamps start stamps v) = Some InvalidDate.
Proof.
  revert v. induction stamps as [|a stamps IH]; intros v H; [exact H|].
  apply IH. now apply observe_invalid_sticks.
Qed.

Lemma first_unreadable start stamps ds :
  datesOf stamps = InvalidDate :: ds ->
  lastActivityDate (observeStamps start stamps noActivity)
  = Some InvalidDate.
Proof.
  induction stamps as [|a stamps IH]; [discriminate|].
  unfold datesOf. simpl filter. intro H.
  destruct (Js.truthy a) eqn:Ha.
  - simpl in H. injection H as Hd _.
    simpl. apply observeStamps_invalid_sticks.
    unfold observe. rewrite Ha. cbv zeta. rewrite Hd. reflexivity.
  - simpl. rewrite observe_falsy by exact Ha. apply IH. exact H.
Qed.

Lemma consult_unreadable cid start (x : Ext W) r1 w1 ds :
  searchConversations (conversationsRequest cid) (world x)
  = (Resolved r1, w1) ->
  datesOf (conversationStamps r1) = InvalidDate :: ds ->
  exists v' x',
    consultSources cid start noActivity x = (Ret tt, v', x')
    /\ lastActivityDate v' = Some InvalidDate.
Proof.
  intros H1 Hd. rewrite consult_eval, H1. cbv zeta.
  pose proof (first_unreadable start _ Hd) as Hv.
  repeat match goal with
  | |- context [if ?b then _ else _] => destruct b
  | |- context [let (_, _) := ?t in _] => destruct t as [[?|?] ?]
  end;
  do 2 eexists; (split; [reflexivity|]);
  repeat first [exact Hv | apply observeStamps_invalid_sticks].
Qed.

(** X6.  A contact whose first dated conversation carries a timestamp that
    does not parse is never reported inactive, whatever its other records
    hold and for every threshold: the narrating version always records
    [Error checking contact <id>: Invalid time value] for it, the other
    version records the same error unless it finds recent activity. *)
Theorem unreadable_first_signal_never_flagged days start c v (x : Ext W)
    r1 w1 ds :
  Js.truthy (contact_id c) = true ->
  searchConversations
    (conversationsRequest (Js.orElse (contact_id c) "")) (world x)
  = (Resolved r1, w1) ->
  datesOf (conversationStamps r1) = InvalidDate :: ds ->
  (exists x',
     Logging.checkContact days start c v x
     = (Ret tt,
        ContactRun.pushError
          (checkingError c (ErrorObject "Invalid time value"))
          (ContactRun.count v), x'))
  /\ (exists x',
        Plain.checkContact days start c v x
        = (Ret tt, ContactRun.count v, x')
        \/ Plain.checkContact days start c v x
           = (Ret tt,
              ContactRun.pushError
                (checkingError c (ErrorObject "Invalid time value"))
                (ContactRun.count v), x')).
Proof.
  intros Hid H1 Hd.
  destruct (consult_unreadable (Js.orElse (contact_id c) "") start x H1 Hd)
    as (v' & x' & Hc & Hv).
  split.
  - assert (Hthrow : exists x'',
      Logging.checkContactActivity (L := ContactRun.vars)
        (Js.orElse (contact_id c) "") start (ContactRun.count v) x
      = (Throw (ErrorObject "Invalid time value"), ContactRun.count v, x'')).
    { destruct start as [s|].
      - erewrite logging_check_eval by exact Hc. rewrite Hv. eauto.
      - rewrite logging_check_invalid_start. eauto. }
    destruct Hthrow as (x'' & Hthrow). exists x''.
    apply logging_checkContact_throw; [exact Hid|].
    unfold Logging.classifyContact. apply bind_throw_eq. exact Hthrow.
  - exists x'. unfold Plain.checkContact. rewrite Hid.
    cbv beta iota zeta delta [negb].
    unfold Plain.classifyContact, bind, modify, tryCatch.
    erewrite plain_check_eval by exact Hc. rewrite Hv.
    cbv beta iota. simpl inactive.
    destruct (hasRecentActivity v'); simpl; [left|right]; reflexivity.
Qed.

End Unreadable.

Section Parsed.
Context {host : JsHost} {W : Type} {client : GHLApiClient W}.

Lemma logging_checkContact_parsed days s c v (x : Ext W) :
  timestampsParse ->
  exists v' x',
    Logging.checkContact days (TimeValue s) c v x = (Ret tt, v', x')
    /\ ContactRun.errors v' = ContactRun.errors v.
Proof.
  intro Hp. rewrite checkContact_agree by exact Hp.
  unfold Plain.checkContact.
  destruct (Js.truthy (contact_id c)); cbv beta iota zeta delta [negb];
    [|do 2 eexists; split; reflexivity].
  destruct (consult_returns (Js.orElse (contact_id c) "") (TimeValue s)
              noActivity x) as (v' & x' & Hc).
  assert (Hclean : clean v').
  { eapply consult_clean; eauto. unfold clean, noActivity. simpl.
    discriminate. }
  unfold Plain.classifyContact, bind, modify, tryCatch.
  erewrite plain_check_eval by exact Hc.
  cbv beta iota. simpl inactive. simpl check_lastActivityDate.
  unfold clean in Hclean.
  destruct (hasRecentActivity v'); simpl;
    [do 2 eexists; split; reflexivity|].
  destruct (lastActivityDate v') as [[t|]|]; [| congruence |];
    do 2 eexists; split; reflexivity.
Qed.

Lemma logging_check_loop_parsed days s cs v (x : Ext W) :
  timestampsParse ->
  exists v' x',
    forEach (Logging.checkContact days (TimeValue s)) cs v x
    = (Ret tt, v', x')
    /\ ContactRun.errors v' = ContactRun.errors v.
Proof.
  intro Hp. revert v x. induction cs as [|c cs IH]; intros v x.
  - do 2 eexists. split; reflexivity.
  - destruct (logging_checkContact_parsed days s c v x Hp)
      as (v1 & x1 & H1 & E1).
    destruct (IH v1 x1) as (v' & x' & H & E).
    exists v', x'. split; [|congruence].
    simpl forEach. erewrite bind_ret_eq by exact H1. exact H.
Qed.

(** X7.  On a backend whose timestamps all parse, the contact detector
    records no error for any single contact: the error list of its report
    is empty, or holds the advisory of the safety cap alone, or the one
    error of a failed page fetch alone. *)
Theorem parsed_timestamps_no_contact_errors {L} fuel now days s (l : L)
    (x : Ext W) :
  timestampsParse ->
  thresholdDate now days = TimeValue s ->
  (501 <= fuel)%nat ->
  exists report x',
    Logging.detectContactsInactivity fuel now
      {| dc_inactivityDays := days |} l x
    = (Ret report, l, x')
    /\ (ContactsReport.errors report = []
        \/ ContactsReport.errors report
           = ["Too many contacts, stopping at 50000"]
        \/ exists e,
             ContactsReport.errors report
             = ["Error fetching contacts: " ++ errorText e]).
Proof.
  intros Hp Hs Hfuel. erewrite logging_detect_eval by exact Hs.
  pose proof (logging_fetch_total fuel [] None 0 ContactRun.start x) as Htot.
  pose proof (logging_fetch_vars fuel [] None 0 ContactRun.start x) as Hvars.
  destruct (Logging.fetchContacts fuel [] None 0 ContactRun.start x)
    as [[[cs|e|] v1] x1].
  - destruct (logging_check_loop_parsed days s cs v1 x1 Hp)
      as (v' & x' & Hrun & He).
    rewrite Hrun. do 2 eexists. split; [reflexivity|].
    simpl. rewrite He. destruct Hvars as [->| ->]; simpl; auto.
  - subst v1. do 2 eexists. split; [reflexivity|]. simpl. eauto.
  - exfalso. apply Htot; [simpl; lia | simpl List.length; lia | reflexivity].
Qed.

End Parsed.

(** ** The further properties at concrete backends *)

Lemma contact_report_invariants_witness :
  let client :=
    Steady.client
      (Sample.roster (Sample.contactsNamed "c" 2)
         (fun _ => ["2023-12-01T09:30:00.000Z"])) in
  exists report x',
    Logging.detectContactsInactivity (host := Iso8601.host)
      (client := client) 501 Sample.now {| dc_inactivityDays := 30 |}
      tt (Sample.fresh tt)
    = (Ret report, tt, x')
    /\ ContactsReport.inactivityThresholdDays report = 30
    /\ ContactsReport.inactiveCount report
       = Z.of_nat (List.length (ContactsReport.inactiveContacts report))
    /\ ContactsReport.inactiveCount report
       <= ContactsReport.totalContactsChecked report
    /\ Z.of_nat (List.length (ContactsReport.inactiveContacts report))
       + Z.of_nat (List.length (ContactsReport.errors report))
       <= ContactsReport.totalContactsChecked report + 1
    /\ Forall (fun ic => ic_daysInactive ic = 30
                         /\ Js.truthy (contact_id (ic_contact ic)) = true)
              (ContactsReport.inactiveContacts report).
Proof.
  intro client.
  apply (@contact_report_invariants Iso8601.host unit client unit 501
           Sample.now 30 1704110400000 tt (Sample.fresh tt) eq_refl).
  lia.
Defined.

Lemma plain_detector_never_raises_witness :
  exists report x',
    Plain.detectContactsInactivity (host := Iso8601.host)
      (client := Steady.client Sample.quiet) 501 Sample.now
      {| dc_inactivityDays := 1000000000 |} tt (Sample.fresh tt)
    = (Ret report, tt, x')
    /\ ContactsReport.inactivityThresholdDays report = 1000000000.
Proof.
  apply (@plain_detector_never_raises Iso8601.host unit
           (Steady.client Sample.quiet) unit 501 Sample.now
           {| dc_inactivityDays := 1000000000 |} tt (Sample.fresh tt)).
  lia.
Defined.

Lemma rejected_source_witness :
  let client := Steady.client Sample.appointmentsDown in
  Logging.checkContactActivity (host := Iso8601.host) (client := client)
    "c1" (TimeValue 1704110400000) tt (Sample.fresh tt)
  = (Ret {| inactive := true;
            check_lastActivityDate := Some (TimeValue 1699171200000) |},
     tt,
     {| world := tt;
        calls := [SearchConversations
                    {| cv_locationId := "loc-1"; cv_contactId := "c1";
                       cv_limit := 50 |};
                  GetContactAppointments "c1"] |}).
Proof.
  intro client.
  apply (@rejected_source_ends_consultation Iso8601.host unit client unit
           "c1" 1704110400000 tt (Sample.fresh tt)
           {| success := true;
              data := Some {| data_conversations :=
                                Some [{| conversation_dateAdded :=
                                           Some "2023-11-05T08:00:00.000Z" |}]
                           |};
              error := None |}
           tt (ErrorObject "socket hang up") tt); reflexivity.
Defined.

Lemma inactive_reports_latest_witness :
  let client := Steady.client Sample.fourSources in
  Logging.checkContactActivity (host := Iso8601.host) (client := client)
    "c1" (TimeValue 1704110400000) tt (Sample.fresh tt)
  = (Ret {| inactive := true;
            check_lastActivityDate := Some (TimeValue 1703376000000) |},
     tt,
     {| world := tt;
        calls := [SearchConversations
                    {| cv_locationId := "loc-1"; cv_contactId := "c1";
                       cv_limit := 50 |};
                  GetContactAppointments "c1"; GetContactNotes "c1";
                  GetContactTasks "c1"] |}).
Proof.
  intro client.
  apply (@inactive_reports_latest_of_all Iso8601.host unit client unit
           "c1" 1704110400000 tt (Sample.fresh tt)
           {| success := true;
              data := Some {| data_conversations :=
                                Some [{| conversation_dateAdded :=
                                           Some "2023-11-05T08:00:00.000Z" |}]
                           |};
              error := None |}
           tt
           {| success := true;
              data := Some [{| startTime := Some "2023-12-01T09:30:00.000Z" |}];
              error := None |}
           tt
           {| success := true;
              data := Some [{| note_dateAdded :=
                                 Some "2023-10-01T00:00:00.000Z" |}];
              error := None |}
           tt
           {| success := true;
              data := Some [{| dueDate := Some "2023-12-24T00:00:00.000Z" |};
                            {| dueDate := None |}];
              error := None |}
           tt); reflexivity.
Defined.

Lemma unreadable_first_signal_witness :
  let client := Steady.client Sample.unreadableThenRecent in
  let c := Sample.contact "c1" in
  (exists x',
     Logging.checkContact (host := Iso8601.host) (client := client)
       30 (TimeValue 1704110400000) c ContactRun.start (Sample.fresh tt)
     = (Ret tt,
        ContactRun.pushError
          (checkingError c (ErrorObject "Invalid time value"))
          (ContactRun.count ContactRun.start), x'))
  /\ (exists x',
        Plain.checkContact (host := Iso8601.host) (client := client)
          30 (TimeValue 1704110400000) c ContactRun.start (Sample.fresh tt)
        = (Ret tt, ContactRun.count ContactRun.start, x')
        \/ Plain.checkContact (host := Iso8601.host) (client := client)
             30 (TimeValue 1704110400000) c ContactRun.start
             (Sample.fresh tt)
           = (Ret tt,
              ContactRun.pushError
                (checkingError c (ErrorObject "Invalid time value"))
                (ContactRun.count ContactRun.start), x')).
Proof.
  intros client c.
  apply (@unreadable_first_signal_never_flagged Iso8601.host unit client
           30 (TimeValue 1704110400000) c ContactRun.start (Sample.fresh tt)
           {| success := true;
              data := Some {| data_conversations :=
                                Some [{| conversation_dateAdded :=
                                           Some "garbage" |};
                                      {| conversation_dateAdded :=
                                           Some "2024-01-30T00:00:00.000Z" |}]
                           |};
              error := None |}
           tt [TimeValue 1706572800000]); reflexivity.
Defined.

Lemma parsed_timestamps_witness :
  let client :=
    Steady.client
      (Sample.roster (Sample.contactsNamed "c" 2)
         (fun _ => ["2023-12-01T09:30:00.000Z"])) in
  exists report x',
    Logging.detectContactsInactivity (host := Iso8601.host)
      (client := client) 501 Sample.now {| dc_inactivityDays := 30 |}
      tt (Sample.fresh tt)
    = (Ret report, tt, x')
    /\ (ContactsReport.errors report = []
        \/ ContactsReport.errors report
           = ["Too many contacts, stopping at 50000"]
        \/ exists e,
             ContactsReport.errors report
             = ["Error fetching contacts: " ++ errorText e]).
Proof.
  intro client.
  apply (@parsed_timestamps_no_contact_errors Iso8601.host unit client unit
           501 Sample.now 30 1704110400000 tt (Sample.fresh tt)
           old_conversations_parse eq_refl).
  lia.
Defined.

(** ** A pagination that does not end *)

Section RunsOn.
Context {host : JsHost} {W : Type} {client : GHLApiClient W}.

Lemma logging_opportunities_stuck stage :
  pointerOnEmptyPages ->
  forall fuel os sa sid pc v (x : Ext W),
    Z.of_nat (List.length os) <= 10000 ->
    exists x',
      Logging.fetchOpportunities fuel stage os sa sid pc v x
      = (Timeout, v, x')
      /\ List.length (calls x') = (List.length (calls x) + fuel)%nat.
Proof.
  intro Hstuck. induction fuel as [|fuel IH]; intros os sa sid pc v x Hcap.
  - exists x. split; [reflexivity|lia].
  - rewrite logging_opportunities_unfold. cbv zeta.
    destruct (Hstuck (opportunitiesRequest stage sa sid) (world x))
      as (r & w' & Hr & Hok & Hempty & Hmore).
    rewrite Hr, Hok, Hempty, Hmore, app_nil_r. simpl negb. cbv iota.
    replace (10000 <? _) with false
      by (symmetry; apply Z.ltb_ge; exact Hcap).
    destruct (IH os (nextStartAfter (optional (data r) data_meta))
                (Js.orElse (optional (optional (data r) data_meta)
                                     meta_startAfterId) "")
                (pc + 1) v
                (after x (SearchOpportunities
                            (opportunitiesRequest stage sa sid)) w')
                Hcap)
      as (x' & Hrun & Hcalls).
    exists x'. split; [exact Hrun|].
    rewrite Hcalls. unfold after. simpl. rewrite length_app. simpl. lia.
Qed.

(** X8.  The opportunity pagination has no exit for a backend that keeps
    answering with an empty page and a next-page pointer: the accumulated
    list never grows, so the safety cap is never reached, and after any
    number of searches the detector is still searching.  (The contact
    pagination leaves after 501 searches at the latest, whatever the
    backend answers.) *)
Theorem opportunity_pagination_runs_on {L} fuel now days stage s (l : L)
    (x : Ext W) :
  pointerOnEmptyPages ->
  thresholdDate now days = TimeValue s ->
  exists x',
    Logging.detectOpportunitiesInactivity fuel now
      {| do_inactivityDays := days; do_pipelineStageId := stage |} l x
    = (Timeout, l, x')
    /\ List.length (calls x') = (List.length (calls x) + fuel)%nat.
Proof.
  intros Hstuck Hs.
  destruct (logging_opportunities_stuck stage Hstuck fuel [] None "" 0
              OpportunityRun.start x)
    as (x' & Hrun & Hcalls); [simpl; lia|].
  exists x'. split; [|exact Hcalls].
  erewrite logging_detectOpportunities_eval by exact Hs.
  rewrite Hrun. reflexivity.
Qed.

End RunsOn.

Lemma stuck_pages :
  pointerOnEmptyPages (client := Steady.client Sample.stuck).
Proof.
  intros p w. do 2 eexists. repeat split; reflexivity.
Qed.

Lemma opportunity_pagination_runs_on_witness :
  exists x',
    Logging.detectOpportunitiesInactivity (host := Iso8601.host)
      (client := Steady.client Sample.stuck) 1000 Sample.now
      {| do_inactivityDays := 30; do_pipelineStageId := None |}
      tt (Sample.fresh tt)
    = (Timeout, tt, x')
    /\ List.length (calls x') = (0 + 1000)%nat.
Proof.
  apply (@opportunity_pagination_runs_on Iso8601.host unit
           (Steady.client Sample.stuck) unit 1000 Sample.now 30 None
           1704110400000 tt (Sample.fresh tt) stuck_pages eq_refl).
Defined.

(** * The dispatch of tool calls *)

Section HttpRouting.
Import HttpServer.

Lemma includes_In names name : includes names name = true <-> In name names.
Proof.
  unfold includes. rewrite existsb_exists. split.
  - intros (n & Hin & Heq). apply String.eqb_eq in Heq. now subst.
  - intro Hin. exists name. split; [exact Hin|apply String.eqb_refl].
Qed.

Lemma sameTools_eq t u : sameTools t u = true -> t = u.
Proof. destruct t, u; simpl; intro H; try reflexivity; discriminate. Qed.

Lemma families_complete t : In t families.
Proof. destruct t; simpl; tauto. Qed.

Lemma families_checked :
  forallb (fun t =>
             forallb (fun u =>
                        sameTools t u
                        || disjointNames (namesOf t) (namesOf u))
                     families)
          families = true.
Proof. vm_compute. reflexivity. Qed.

(** No name is accepted by the predicates of two families. *)
Lemma one_family name t u :
  includes (namesOf t) name = true ->
  includes (namesOf u) name = true ->
  t = u.
Proof.
  intros Ht Hu. pose proof families_checked as Hall.
  rewrite forallb_forall in Hall.
  specialize (Hall t (families_complete t)).
  rewrite forallb_forall in Hall.
  specialize (Hall u (families_complete u)).
  apply orb_true_iff in Hall. destruct Hall as [Heq|Hdis].
  - now apply sameTools_eq.
  - unfold disjointNames in Hdis. rewrite forallb_forall in Hdis.
    apply includes_In in Ht. specialize (Hdis name Ht).
    rewrite Hu in Hdis. discriminate.
Qed.

Lemma filter_at_most_one {A} (p : A -> bool) l :
  NoDup l ->
  (forall a b, In a l -> In b l -> p a = true -> p b = true -> a = b) ->
  (List.length (filter p l) <= 1)%nat.
Proof.
  induction l as [|a l IH]; intros Hnd Huniq; simpl; [lia|].
  inversion Hnd as [|? ? Hnotin Hnd']; subst.
  destruct (p a) eqn:Ha.
  - assert (Hfalse : forall b, In b l -> p b = false).
    { intros b Hb. destruct (p b) eqn:Hpb; [|reflexivity]. exfalso.
      apply Hnotin. assert (a = b) by (apply Huniq; simpl; auto).
      now subst. }
    assert (Hnone : filter p l = []).
    { clear - Hfalse. induction l as [|b l IHl]; [reflexivity|]. simpl.
      rewrite (Hfalse b) by now left.
      apply IHl. intros c Hc. apply Hfalse. now right. }
    rewrite Hnone. simpl. lia.
  - apply IH; [exact Hnd'|]. intros b c Hb Hc. apply Huniq; now right.
Qed.

Lemma families_distinct : NoDup families.
Proof.
  unfold families.
  repeat (constructor; [simpl; intuition discriminate|]). constructor.
Qed.

(** X9.  The predicates by which the server routes a tool call accept
    disjoint sets of names: for every name at most one family of tools
    accepts it, so that the order of the tests in a router does not matter
    to where a call goes. *)
Theorem at_most_one_family name :
  (List.length (accepting name) <= 1)%nat.
Proof.
  unfold accepting. apply filter_at_most_one; [exact families_distinct|].
  intros t u _ _. apply one_family.
Qed.

Lemma other_family_rejects name t u :
  includes (namesOf t) name = true -> u <> t ->
  includes (namesOf u) name = false.
Proof.
  intros Ht Hne. destruct (includes (namesOf u) name) eqn:Hu; [|reflexivity].
  exfalso. apply Hne. eapply one_family; eassumption.
Qed.

(** X10.  The two routers of the server disagree on the inactivity tools
    and the user tools and on nothing else: the [tools/call] branch of
    processMCPMessageForUser sends their names to their objects, whereas
    the CallTool handler registered with the protocol server has no branch
    for them and falls through to its "Unknown tool" error, although its
    ListTools handler lists them.  Every other name goes the same way in
    both. *)
Theorem routers_differ_on_two_families name :
  callToolTarget name
  = match toolsCallTarget name with
    | Some inactivityTools | Some userTools => None
    | other => other
    end
  /\ Forall (fun advertised =>
               toolsCallTarget advertised = Some inactivityTools
               /\ callToolTarget advertised = None)
            (map InactivityTools.tool_name
                 InactivityTools.getToolDefinitions)
  /\ Forall (fun known =>
               toolsCallTarget known = Some userTools
               /\ callToolTarget known = None)
            userToolNames.
Proof.
  assert (Hnone : forall t,
    (t = inactivityTools \/ t = userTools) ->
    includes (namesOf t) name = true -> callToolTarget name = None).
  { intros t Ht Hin.
    assert (Hrej : forall u, u <> t -> includes (namesOf u) name = false)
      by (intros u Hu; eapply other_family_rejects; eassumption).
    unfold callToolTarget, isContactTool, isConversationTool, isBlogTool,
      isOpportunityTool, isCalendarTool, isEmailTool, isLocationTool,
      isEmailISVTool, isSocialMediaTool, isMediaTool, isObjectTool,
      isAssociationTool, isCustomFieldV2Tool, isWorkflowTool, isSurveyTool,
      isStoreTool, isProductsTool.
    change contactToolNames with (namesOf contactTools).
    change conversationToolNames with (namesOf conversationTools).
    change blogToolNames with (namesOf blogTools).
    change opportunityToolNames with (namesOf opportunityTools).
    change calendarToolNames with (namesOf calendarTools).
    change emailToolNames with (namesOf emailTools).
    change locationToolNames with (namesOf locationTools).
    change emailISVToolNames with (namesOf emailISVTools).
    change socialMediaToolNames with (namesOf socialMediaTools).
    change mediaToolNames with (namesOf mediaTools).
    change objectToolNames with (namesOf objectTools).
    change associationToolNames with (namesOf associationTools).
    change customFieldV2ToolNames with (namesOf customFieldV2Tools).
    change workflowToolNames with (namesOf workflowTools).
    change surveyToolNames with (namesOf surveyTools).
    change storeToolNames with (namesOf storeTools).
    change productsToolNames with (namesOf productsTools).
    rewrite (Hrej contactTools), (Hrej conversationTools), (Hrej blogTools),
      (Hrej opportunityTools), (Hrej calendarTools), (Hrej emailTools),
      (Hrej locationTools), (Hrej emailISVTools), (Hrej socialMediaTools),
      (Hrej mediaTools), (Hrej objectTools), (Hrej associationTools),
      (Hrej customFieldV2Tools), (Hrej workflowTools), (Hrej surveyTools),
      (Hrej storeTools), (Hrej productsTools);
      try reflexivity; destruct Ht; subst t; discriminate. }
  split; [|split; repeat constructor].
  destruct (isInactivityTool name) eqn:Hi.
  { rewrite (Hnone inactivityTools) by auto.
    unfold toolsCallTarget. now rewrite Hi. }
  destruct (isUserTool name) eqn:Hu.
  { rewrite (Hnone userTools) by auto.
    unfold toolsCallTarget. now rewrite Hi, Hu. }
  unfold toolsCallTarget. rewrite Hi, Hu. unfold callToolTarget.
  repeat match goal with
         | |- context [if ?b then _ else _] => destruct b; [reflexivity|]
         end.
  reflexivity.
Qed.

End HttpRouting.

Section ExecuteTool.
Context {host : JsHost} {W : Type} {client : GHLApiClient W}.

(** A detector leaves with a report, or by the one exception that the
    rendering of an invalid threshold date raises, or not at all. *)
Lemma logging_detect_outcome {L} fuel now params (l : L) (x : Ext W) :
  match fst (fst (Logging.detectContactsInactivity fuel now params l x))
  with
  | Throw e => e = ErrorObject "Invalid time value"
  | _ => True
  end.
Proof.
  destruct params as [days].
  destruct (thresholdDate now days) as [s|] eqn:Hs.
  - erewrite logging_detect_eval by exact Hs.
    destruct (Logging.fetchContacts _ _ _ _ _ _) as [[[cs|e|] v1] x1];
      simpl; auto.
    destruct (forEach _ _ _ _) as [[[u|e|] v2] x2]; simpl; auto.
  - rewrite logging_detect_invalid by exact Hs. reflexivity.
Qed.

Lemma logging_detectOpportunities_outcome {L} fuel now params (l : L)
    (x : Ext W) :
  match
    fst (fst (Logging.detectOpportunitiesInactivity fuel now params l x))
  with
  | Throw e => e = ErrorObject "Invalid time value"
  | _ => True
  end.
Proof.
  destruct params as [days stage].
  destruct (thresholdDate now days) as [s|] eqn:Hs.
  - erewrite logging_detectOpportunities_eval by exact Hs.
    destruct (Logging.fetchOpportunities _ _ _ _ _ _ _ _)
      as [[[os|e|] v1] x1]; simpl; auto.
    destruct (forEach _ _ _ _) as [[[u|e|] v2] x2]; simpl; auto.
  - unfold Logging.detectOpportunitiesInactivity, invoke. cbv zeta.
    simpl do_inactivityDays. rewrite Hs. reflexivity.
Qed.

(** X11.  executeTool knows exactly the tools that getToolDefinitions
    advertises, which are the names that the HTTP server routes to it: for
    any other name it raises [Unknown tool: <name>] without a call to the
    backend, and for an advertised name it runs the detector, whose outcome
    is never that error. *)
Theorem executeTool_knows_its_tools {L} fuel now name args (l : L)
    (x : Ext W) :
  let run := InactivityTools.executeTool fuel now name args l x in
  let unknown : Res InactivityTools.Response :=
    Throw (ErrorObject ("Unknown tool: " ++ name)) in
  let advertised :=
    existsb (String.eqb name)
      (map InactivityTools.tool_name InactivityTools.getToolDefinitions) in
  HttpServer.isInactivityTool name = advertised
  /\ (if advertised then fst (fst run) <> unknown
      else run = (unknown, l, x)).
Proof.
  intros run unknown advertised. split; [reflexivity|].
  subst run unknown advertised. unfold InactivityTools.executeTool.
  simpl existsb.
  destruct (String.eqb name "detect_contacts_inactivity") eqn:E1.
  - simpl orb. cbv iota. unfold bind.
    pose proof (logging_detect_outcome fuel now
                  {| dc_inactivityDays :=
                       InactivityTools.arg_inactivityDays args |} l x)
      as Hout.
    destruct (Logging.detectContactsInactivity _ _ _ _ _)
      as [[[r|e|] l'] x']; simpl in *; try discriminate.
    subst e. apply String.eqb_eq in E1. subst name. discriminate.
  - destruct (String.eqb name "detect_opportunities_inactivity") eqn:E2.
    + simpl orb. cbv iota. unfold bind.
      pose proof (logging_detectOpportunities_outcome fuel now
                    {| do_inactivityDays :=
                         InactivityTools.arg_inactivityDays args;
                       do_pipelineStageId :=
                         InactivityTools.arg_pipelineStageId args |} l x)
        as Hout.
      destruct (Logging.detectOpportunitiesInactivity _ _ _ _ _)
        as [[[r|e|] l'] x']; simpl in *; try discriminate.
      subst e. apply String.eqb_eq in E2. subst name. discriminate.
    + reflexivity.
Qed.

End ExecuteTool.
